(** * Sky Hub (CS Community): identity, content ownership and like toggling

    A shallow embedding of the request handlers of [app.py] and [oauth.py]
    that write to the store or decide who is logged in ([register], [login],
    [new_post], [edit_post], [delete_post], [edit_comment], [delete_comment],
    [toggle_like], [google_callback] with its helpers), of the pages that
    only read ([home], [network], [profile]) and of [add_comment],
    [edit_profile], [logout] and [google_login], over the relational schema
    of [models.py] and with the form rules of [forms.py].

    - A Python [str] is a list of Unicode code points, so that [len], slicing
      and [strip] count what Python counts.
    - A table is the list of its rows in rowid order; a query is a [find] or a
      [filter] over it; [db.session.commit()] is the insertion, update or
      deletion with the constraints of [models.py] checked.
    - A handler is a function from the database, the session and the request
      to its outcome (redirect, rendered page, abort or unhandled exception,
      with the flashed messages) and the new database. An unhandled
      exception leaves the database and the session as they were.
    - The [date] columns (wall-clock time) are not fields of the rows (the
      feed reads a post's date through [post_date]); the bytes of uploaded
      files are left out; random draws ([uuid4], the salt of a password hash) and the
      results of the collaborators (token exchange, avatar download) are
      inputs of the handler that uses them. *)

From Stdlib Require Import String Ascii ZArith NArith Bool List Lia.
From Stdlib Require Import Permutation Sorted.
Import ListNotations.
Local Open Scope Z_scope.

(* ================================================================== *)
(** * Python values *)
(* ================================================================== *)

(** A Python string: its code points. *)
Definition pystr : Type := list N.

(** An ASCII literal of the source as a Python string. *)
Definition py (s : string) : pystr := map N_of_ascii (list_ascii_of_string s).

Fixpoint str_eqb (a b : pystr) : bool :=
  match a, b with
  | [], [] => true
  | x :: a', y :: b' => N.eqb x y && str_eqb a' b'
  | _, _ => false
  end.

(** Truth value of a string: [bool(s)]. *)
Definition nonempty (s : pystr) : bool :=
  match s with [] => false | _ :: _ => true end.

(** Truth value of an optional string ([None] and [""] are falsy). *)
Definition truthy (o : option pystr) : bool :=
  match o with Some s => nonempty s | None => false end.

(** [o or ""] *)
Definition or_empty (o : option pystr) : pystr :=
  match o with Some (c :: s) => c :: s | _ => [] end.

(** [x or d] on integers: [0] is falsy. *)
Definition py_or (x d : Z) : Z := if x =? 0 then d else x.

(** [str.isspace] on one code point, the characters [str.strip()] removes. *)
Definition isspace (c : N) : bool :=
  (((9 <=? c) && (c <=? 13)) || ((28 <=? c) && (c <=? 32))
   || (c =? 133) || (c =? 160) || (c =? 5760)
   || ((8192 <=? c) && (c <=? 8202))
   || (c =? 8232) || (c =? 8233) || (c =? 8239) || (c =? 8287)
   || (c =? 12288))%N.

Fixpoint lstrip (s : pystr) : pystr :=
  match s with
  | c :: s' => if isspace c then lstrip s' else s
  | [] => []
  end.

Definition rstrip (s : pystr) : pystr := rev (lstrip (rev s)).

(** [s.strip()] *)
Definition strip (s : pystr) : pystr := rstrip (lstrip s).

(** [s.replace(" ", "_")] *)
Definition replace_spaces (s : pystr) : pystr :=
  map (fun c => if (c =? 32)%N then 95%N else c) s.

(** The horizontal ellipsis U+2026 that [new_post] appends. *)
Definition ellipsis : pystr := [8230%N].

(* ================================================================== *)
(** * models.py: the tables *)
(* ================================================================== *)

Module User.
Record t : Type := mk {
  id : Z;
  username : pystr;
  email : pystr;
  password_hash : pystr;
  track : option pystr;
  skills : option pystr;
  available_for_project : bool;
  github_link : option pystr;
  portfolio_link : option pystr;
  linkedin_link : option pystr;
  phone_number : option pystr;
  cv_file : option pystr;
  profile_image : pystr
}.
End User.

Module Post.
Record t : Type := mk {
  id : Z;
  title : pystr;
  content : option pystr;
  image_file : option pystr;
  video_file : option pystr;
  user_id : Z;
  likes_count : Z
}.

Definition set_likes_count (p : t) (n : Z) : t :=
  mk (id p) (title p) (content p) (image_file p) (video_file p) (user_id p) n.
End Post.

Module Comment.
Record t : Type := mk {
  id : Z;
  content : pystr;
  user_id : Z;
  post_id : Z
}.
End Comment.

Module Like.
Record t : Type := mk {
  id : Z;
  user_id : Z;
  post_id : Z
}.
End Like.

Record DB : Type := mkDB {
  users : list User.t;
  posts : list Post.t;
  comments : list Comment.t;
  likes : list Like.t
}.

(** The integer primary key the store gives a new row: one past the largest
    key of the table. *)
Definition next_id (ids : list Z) : Z := 1 + fold_right Z.max 0 ids.

(** [db.session.get(User, user_id)] *)
Definition User_get (d : DB) (uid : Z) : option User.t :=
  find (fun u => User.id u =? uid) (users d).

(** [Post.query.get_or_404(post_id)], [None] standing for the 404. *)
Definition Post_get (d : DB) (pid : Z) : option Post.t :=
  find (fun p => Post.id p =? pid) (posts d).

Definition Comment_get (d : DB) (cid : Z) : option Comment.t :=
  find (fun c => Comment.id c =? cid) (comments d).

(** [Like.query.filter_by(user_id=uid, post_id=pid).first()] *)
Definition Like_first (d : DB) (uid pid : Z) : option Like.t :=
  find (fun l => (Like.user_id l =? uid) && (Like.post_id l =? pid)) (likes d).

(** [User.query.filter_by(email=e).first()] *)
Definition User_by_email (d : DB) (e : pystr) : option User.t :=
  find (fun u => str_eqb (User.email u) e) (users d).

(** [User.query.filter_by(username=n).first()] *)
Definition User_by_username (d : DB) (n : pystr) : option User.t :=
  find (fun u => str_eqb (User.username u) n) (users d).

(** [User.query.filter((User.username == n) | (User.email == e)).first()] *)
Definition User_by_username_or_email (d : DB) (n e : pystr) : option User.t :=
  find (fun u => str_eqb (User.username u) n || str_eqb (User.email u) e)
       (users d).

(** Exceptions that reach the framework unhandled. *)
Inductive Exn : Type :=
| IntegrityError
| InvalidRequestError
| TypeError.

(** Committing an updated post row: [UPDATE post ... WHERE id = ?]. *)
Definition Post_update (d : DB) (p : Post.t) : DB :=
  mkDB (users d)
       (map (fun r => if Post.id r =? Post.id p then p else r) (posts d))
       (comments d) (likes d).

(** Committing an updated comment row. *)
Definition Comment_update (d : DB) (c : Comment.t) : DB :=
  mkDB (users d) (posts d)
       (map (fun r => if Comment.id r =? Comment.id c then c else r)
            (comments d))
       (likes d).

(** Committing [db.session.delete(like)]: [DELETE FROM like WHERE id = ?]. *)
Definition Like_delete (d : DB) (l : Like.t) : DB :=
  mkDB (users d) (posts d) (comments d)
       (filter (fun r => negb (Like.id r =? Like.id l)) (likes d)).

(** Committing [db.session.add(Like(user_id=uid, post_id=pid))]: the
    constraint [uix_user_post] of [models.py] refuses a second row for the
    pair with [IntegrityError]. *)
Definition Like_insert (d : DB) (uid pid : Z) : Exn + DB :=
  if existsb (fun r => (Like.user_id r =? uid) && (Like.post_id r =? pid))
             (likes d)
  then inl IntegrityError
  else inr (mkDB (users d) (posts d) (comments d)
                 (likes d ++ [Like.mk (next_id (map Like.id (likes d))) uid pid])).

(** Committing [db.session.delete(post)]: the relationships of [Post] carry
    [cascade="all, delete-orphan"], so its comments and likes go with it. *)
Definition Post_delete (d : DB) (p : Post.t) : DB :=
  mkDB (users d)
       (filter (fun r => negb (Post.id r =? Post.id p)) (posts d))
       (filter (fun c => negb (Comment.post_id c =? Post.id p)) (comments d))
       (filter (fun l => negb (Like.post_id l =? Post.id p)) (likes d)).

(** Committing [db.session.delete(comment)]. *)
Definition Comment_delete (d : DB) (c : Comment.t) : DB :=
  mkDB (users d) (posts d)
       (filter (fun r => negb (Comment.id r =? Comment.id c)) (comments d))
       (likes d).

(** Committing [db.session.add(post)] for a new post: no constraint of
    [Post] can fail for a row with a title and an existing author. *)
Definition Post_insert (d : DB) (title : pystr) (content : option pystr)
    (image_file video_file : option pystr) (author : Z) : Post.t * DB :=
  let p := Post.mk (next_id (map Post.id (posts d))) title content
                   image_file video_file author 0 in
  (p, mkDB (users d) (posts d ++ [p]) (comments d) (likes d)).

(** Committing [db.session.add(user)]: [username] and [email] are [unique]. *)
Definition User_insert (d : DB) (u : User.t) : Exn + DB :=
  if existsb (fun r => str_eqb (User.username r) (User.username u)
                       || str_eqb (User.email r) (User.email u)) (users d)
  then inl IntegrityError
  else inr (mkDB (users d ++ [u]) (posts d) (comments d) (likes d)).

(* ================================================================== *)
(** * Sessions, requests and outcomes *)
(* ================================================================== *)

(** The signed session cookie: the id Flask-Login stored at [login_user] and
    the nonce [google_login] stored. *)
Record Session : Type := mkSession {
  session_user_id : option Z;
  oauth_nonce : option pystr
}.

(** [current_user]: the row [load_user] finds for the session's id, or the
    anonymous user ([None]). *)
Definition current_user (d : DB) (s : Session) : option User.t :=
  match session_user_id s with
  | Some uid => User_get d uid
  | None => None
  end.

(** [login_user(user, remember=False)] *)
Definition login_user (s : Session) (u : User.t) : Session :=
  mkSession (Some (User.id u)) (oauth_nonce s).

Inductive Category : Type := success | info | warning | danger.

Definition Flash : Type := (pystr * Category)%type.

(** [url_for(...)] targets. *)
Inductive Url : Type :=
| url_home
| url_login
| url_post_detail (post_id : Z)
| url_next (target : pystr).

Inductive Method : Type := GET | POST.

(** What a request submits with a form of type [F]. [extra_ok] stands for the
    rules of [forms.py] that are not spelled out below: the CSRF token,
    [Email()] syntax, the choices of a [SelectField] and [FileAllowed]. *)
Record Submission (F : Type) : Type := mkSubmission {
  method : Method;
  form : F;
  extra_ok : bool
}.
Arguments mkSubmission {F} _ _ _.
Arguments method {F} _.
Arguments form {F} _.
Arguments extra_ok {F} _.

Definition is_submitted {F} (r : Submission F) : bool :=
  match method r with POST => true | GET => false end.

(* ------------------------------------------------------------------ *)
(** ** forms.py *)
(* ------------------------------------------------------------------ *)

(** [strip_filter]: [x.strip() if x else None] *)
Definition strip_filter (x : option pystr) : option pystr :=
  match x with
  | Some (c :: s) => Some (strip (c :: s))
  | _ => None
  end.

(** [DataRequired()]: the data is truthy and not blank. *)
Definition DataRequired (data : option pystr) : bool :=
  match data with
  | Some s => nonempty s && nonempty (strip s)
  | None => false
  end.

(** [Length(min, max)]; [None] for no upper bound. *)
Definition Length (min : nat) (max : option nat) (data : option pystr) : bool :=
  let n := match data with Some s => length s | None => O end in
  Nat.leb min n && match max with Some m => Nat.leb n m | None => true end.

(** [Optional()] ends the chain, with no error, on input that is absent or
    blank. *)
Definition Optional_stops (raw : option pystr) : bool :=
  match raw with
  | Some s => negb (nonempty (strip s))
  | None => true
  end.

Record LoginForm : Type := mkLoginForm {
  login_email : option pystr;
  login_password : option pystr
}.

Definition LoginForm_email_data (f : LoginForm) : option pystr :=
  strip_filter (login_email f).

Definition LoginForm_validate (f : LoginForm) : bool :=
  DataRequired (LoginForm_email_data f)
  && Length 0 (Some 120%nat) (LoginForm_email_data f)
  && DataRequired (login_password f).

Record RegistrationForm : Type := mkRegistrationForm {
  reg_username : option pystr;
  reg_email : option pystr;
  reg_track : option pystr;
  reg_skills : option pystr;
  reg_available_for_project : bool;
  reg_password : option pystr;
  reg_confirm_password : option pystr;
  reg_profile_image : option pystr;   (* filename of the upload *)
  reg_cv_file : option pystr
}.

Definition opt_str_eqb (a b : option pystr) : bool :=
  match a, b with
  | Some x, Some y => str_eqb x y
  | None, None => true
  | _, _ => false
  end.

Definition RegistrationForm_validate (f : RegistrationForm) : bool :=
  DataRequired (strip_filter (reg_username f))
  && Length 3 (Some 50%nat) (strip_filter (reg_username f))
  && DataRequired (strip_filter (reg_email f))
  && Length 0 (Some 120%nat) (strip_filter (reg_email f))
  && DataRequired (reg_track f)
  && DataRequired (strip_filter (reg_skills f))
  && Length 0 (Some 200%nat) (strip_filter (reg_skills f))
  && DataRequired (reg_password f)
  && Length 6 None (reg_password f)
  && DataRequired (reg_confirm_password f)
  && opt_str_eqb (reg_confirm_password f) (reg_password f).

Record PostForm : Type := mkPostForm {
  post_title : option pystr;
  post_content : option pystr;
  post_image : option pystr;          (* filename of the upload *)
  post_video : option pystr
}.

Definition PostForm_title_data (f : PostForm) : option pystr :=
  strip_filter (post_title f).

Definition PostForm_content_data (f : PostForm) : option pystr :=
  strip_filter (post_content f).

Definition PostForm_validate (f : PostForm) : bool :=
  (Optional_stops (post_title f)
   || Length 0 (Some 200%nat) (PostForm_title_data f))
  && DataRequired (PostForm_content_data f)
  && Length 1 None (PostForm_content_data f).

Record CommentForm : Type := mkCommentForm {
  comment_content : option pystr
}.

Definition CommentForm_content_data (f : CommentForm) : option pystr :=
  strip_filter (comment_content f).

Definition CommentForm_validate (f : CommentForm) : bool :=
  DataRequired (CommentForm_content_data f)
  && Length 1 (Some 2000%nat) (CommentForm_content_data f).

(** [form.validate_on_submit()] *)
Definition validate_on_submit {F} (validate : F -> bool) (r : Submission F)
  : bool :=
  is_submitted r && extra_ok r && validate (form r).

(* ------------------------------------------------------------------ *)
(** ** Outcomes *)
(* ------------------------------------------------------------------ *)

(** [render_template(...)] with what the template is given. *)
Inductive Page : Type :=
| register_html (f : RegistrationForm)
| login_html (f : LoginForm)
| new_post_html (f : PostForm)
| edit_post_html (f : PostForm) (p : Post.t)
| edit_comment_html (f : CommentForm) (c : Comment.t).

Inductive Response : Type :=
| Redirect (to : Url)
| Render (page : Page)
| Abort (code : Z)
| Unhandled (e : Exn).

(** A handler's outcome: the response and the messages it flashed, in order. *)
Record Outcome : Type := mkOutcome {
  response : Response;
  flashed : list Flash
}.

(** [@login_required] on an anonymous request: [login_manager.unauthorized()]
    flashes [login_message] and redirects to [login_view]. *)
Definition unauthorized : Outcome :=
  mkOutcome (Redirect url_login)
            [(py "Please log in to access CS Community.", info)].

(* ================================================================== *)
(** * app.py: likes *)
(* ================================================================== *)

(** [toggle_like(post_id)] *)
Definition toggle_like (d : DB) (s : Session) (post_id : Z) : Outcome * DB :=
  match current_user d s with
  | None => (unauthorized, d)
  | Some cu =>
    match Post_get d post_id with
    | None => (mkOutcome (Abort 404) [], d)
    | Some post =>
      match Like_first d (User.id cu) (Post.id post) with
      | Some existing =>
        let post' := Post.set_likes_count post
                       (Z.max (py_or (Post.likes_count post) 1 - 1) 0) in
        (* the commit is a DELETE and an UPDATE: no constraint to meet *)
        (mkOutcome (Redirect (url_post_detail (Post.id post)))
                   [(py "Like removed.", info)],
         Post_update (Like_delete d existing) post')
      | None =>
        let post' := Post.set_likes_count post
                       (py_or (Post.likes_count post) 0 + 1) in
        match Like_insert d (User.id cu) (Post.id post) with
        | inr d' =>
          (mkOutcome (Redirect (url_post_detail (Post.id post)))
                     [(py "Post liked!", success)],
           Post_update d' post')
        | inl _ =>
          (* except IntegrityError: db.session.rollback() *)
          (mkOutcome (Redirect (url_post_detail (Post.id post)))
                     [(py "Post liked!", success);
                      (py "Database error. Please try again.", danger)],
           d)
        end
      end
    end
  end.

(** A run of like requests, each by its own session on its own post. *)
Definition run_toggles (ops : list (Session * Z)) (d : DB) : DB :=
  fold_left (fun d op => snd (toggle_like d (fst op) (snd op))) ops d.

(** [n] like requests in a row by one session on one post. *)
Fixpoint toggle_n (n : nat) (d : DB) (s : Session) (post_id : Z) : DB :=
  match n with
  | O => d
  | S n' => toggle_n n' (snd (toggle_like d s post_id)) s post_id
  end.

(** [post_detail(post_id)]: the [liked] flag the page is rendered with
    ([None] when the request is turned away or the post is missing). *)
Definition post_detail_liked (d : DB) (s : Session) (post_id : Z)
  : option bool :=
  match current_user d s with
  | None => None
  | Some cu =>
    match Post_get d post_id with
    | None => None
    | Some post =>
      match Like_first d (User.id cu) (Post.id post) with
      | Some _ => Some true
      | None => Some false
      end
    end
  end.

(** The post's Like set: the rows of [like] that point at it. *)
Definition likes_of (d : DB) (pid : Z) : list Like.t :=
  filter (fun l => Like.post_id l =? pid) (likes d).

(* ================================================================== *)
(** * Collaborators *)
(* ================================================================== *)

(** Werkzeug: the password hash (salted; the salt is a random draw) and
    [secure_filename]. *)
Class Werkzeug : Type := {
  generate_password_hash : pystr -> pystr -> pystr;   (* password, salt *)
  check_password_hash : pystr -> pystr -> bool;       (* pwhash, password *)
  secure_filename : pystr -> pystr
}.

(** The Python runtime: [str.lower] (the Unicode case mapping) and the
    extension [os.path.splitext(name)[1]]. *)
Class Runtime : Type := {
  lower : pystr -> pystr;
  splitext_ext : pystr -> pystr
}.

(** What the identity provider asserts in the ID token ([user_info]). *)
Record UserInfo : Type := mkUserInfo {
  ui_sub : option pystr;
  ui_email : option pystr;
  ui_name : option pystr;
  ui_picture : option pystr;
  ui_given_name : option pystr
}.

(** Authlib's client: [parse_id_token(token, nonce)] validates the ID token
    against the nonce of the session; [None] stands for its exception. *)
Class OIDC : Type := {
  Token : Type;
  parse_id_token : Token -> option pystr -> option UserInfo
}.

(** The field's data as a string; a field that passed [DataRequired] holds
    one. *)
Definition data_str (o : option pystr) : pystr :=
  match o with Some s => s | None => [] end.

(** [form.f.data and form.f.data.filename] for an upload field. *)
Definition uploaded (f : option pystr) : bool := truthy f.

(* ================================================================== *)
(** * app.py: registration and login *)
(* ================================================================== *)

(** [save_cv] and [save_picture]: the stored name is a fresh [uuid4().hex]
    with the lower-cased extension of the secured upload name. *)
Definition save_cv `{Werkzeug} `{Runtime} (filename hex : pystr) : pystr :=
  hex ++ lower (splitext_ext (secure_filename filename)).

Definition save_picture `{Werkzeug} `{Runtime} (filename hex : pystr) : pystr :=
  hex ++ lower (splitext_ext (secure_filename filename)).

(** [user.check_password(password)] *)
Definition check_password `{Werkzeug} (u : User.t) (password : pystr) : bool :=
  check_password_hash (User.password_hash u) password.

(** The random draws of one registration. *)
Record RegisterDraws : Type := mkRegisterDraws {
  salt : pystr;
  cv_hex : pystr;
  picture_hex : pystr
}.

(** [register()] *)
Definition register `{Werkzeug} `{Runtime}
    (d : DB) (s : Session) (r : Submission RegistrationForm)
    (rnd : RegisterDraws) : Outcome * DB :=
  match current_user d s with
  | Some _ => (mkOutcome (Redirect url_home) [], d)
  | None =>
    let f := form r in
    if validate_on_submit RegistrationForm_validate r then
      let username := data_str (strip_filter (reg_username f)) in
      let email := data_str (strip_filter (reg_email f)) in
      match User_by_username_or_email d username email with
      | Some _ =>
        (mkOutcome (Render (register_html f))
                   [(py "Username or email already registered.", warning)], d)
      | None =>
        let cv_filename :=
          if uploaded (reg_cv_file f)
          then Some (save_cv (data_str (reg_cv_file f)) (cv_hex rnd))
          else None in
        let profile_fn :=
          if uploaded (reg_profile_image f)
          then save_picture (data_str (reg_profile_image f)) (picture_hex rnd)
          else py "default_profile.png" in
        let user :=
          User.mk (next_id (map User.id (users d))) username email
            (generate_password_hash (data_str (reg_password f)) (salt rnd))
            (reg_track f) (strip_filter (reg_skills f))
            (reg_available_for_project f)
            None None None None cv_filename profile_fn in
        match User_insert d user with
        | inr d' =>
          (mkOutcome (Redirect url_login)
             [(py "Welcome to CS Community! Your account is ready.", success)],
           d')
        | inl e => (mkOutcome (Unhandled e) [], d)
        end
      end
    else (mkOutcome (Render (register_html f)) [], d)
  end.

(** [login()]; [next] is [request.args.get("next")]. *)
Definition login `{Werkzeug}
    (d : DB) (s : Session) (r : Submission LoginForm) (next : option pystr)
  : Outcome * DB * Session :=
  match current_user d s with
  | Some _ => (mkOutcome (Redirect url_home) [], d, s)
  | None =>
    let f := form r in
    if validate_on_submit LoginForm_validate r then
      match User_by_email d (data_str (LoginForm_email_data f)) with
      | Some user =>
        if check_password user (data_str (login_password f)) then
          (mkOutcome
             (Redirect (if truthy next then url_next (data_str next)
                        else url_home))
             [(py "Welcome back, " ++ User.username user ++ py "!", success)],
           d, login_user s user)
        else
          (mkOutcome (Render (login_html f))
                     [(py "Incorrect email or password.", danger)], d, s)
      | None =>
        (mkOutcome (Render (login_html f))
                   [(py "Incorrect email or password.", danger)], d, s)
      end
    else (mkOutcome (Render (login_html f)) [], d, s)
  end.

(* ================================================================== *)
(** * app.py: posts and comments *)
(* ================================================================== *)

(** The title [new_post] stores, from [form.title.data] and
    [form.content.data]. *)
Definition new_post_title (title_data content_data : option pystr) : pystr :=
  let content_text := or_empty content_data in
  let auto_title := strip (or_empty title_data) in
  let auto_title :=
    if nonempty auto_title then auto_title
    else
      let auto_title := strip (firstn 80 content_text) in
      if Nat.ltb 80 (length content_text) then auto_title ++ ellipsis
      else auto_title in
  if nonempty auto_title then auto_title else py "Untitled".

(** The name an uploaded file is stored under, if one was uploaded. *)
Definition stored_upload `{Werkzeug} (f : option pystr) : option pystr :=
  if uploaded f then Some (secure_filename (data_str f)) else None.

(** [new_post()] *)
Definition new_post `{Werkzeug}
    (d : DB) (s : Session) (r : Submission PostForm) : Outcome * DB :=
  match current_user d s with
  | None => (unauthorized, d)
  | Some cu =>
    let f := form r in
    if validate_on_submit PostForm_validate r then
      let image_filename := stored_upload (post_image f) in
      let video_filename := stored_upload (post_video f) in
      let content_text := or_empty (PostForm_content_data f) in
      let '(post, d') :=
        Post_insert d
          (new_post_title (PostForm_title_data f) (PostForm_content_data f))
          (Some content_text) image_filename video_filename (User.id cu) in
      (mkOutcome (Redirect (url_post_detail (Post.id post)))
                 [(py "Post published to CS Community.", success)], d')
    else (mkOutcome (Render (new_post_html f)) [], d)
  end.

(** A text field of a form built with [obj=]: the value the request has for
    it, or the attribute of the object when the request has no such field. *)
Definition field_of (raw obj : option pystr) : option pystr :=
  match raw with
  | Some _ => raw
  | None => obj
  end.

(** [PostForm(obj=post)]: on a GET the fields of the post; on a POST the
    submitted fields, where a text field the request omits keeps the value
    of the post ([Post] has no attribute [image] or [video]). *)
Definition PostForm_of (r : Submission PostForm) (p : Post.t) : PostForm :=
  if is_submitted r then
    mkPostForm (field_of (post_title (form r)) (Some (Post.title p)))
               (field_of (post_content (form r)) (Post.content p))
               (post_image (form r)) (post_video (form r))
  else mkPostForm (Some (Post.title p)) (Post.content p) None None.

(** The validators of [PostForm] on a form built with [obj=]: [Optional]
    looks at what the request submitted ([raw]), the others at the data of
    the field ([f]). *)
Definition PostForm_validate_of (raw f : PostForm) : bool :=
  (Optional_stops (post_title raw)
   || Length 0 (Some 200%nat) (PostForm_title_data f))
  && DataRequired (PostForm_content_data f)
  && Length 1 None (PostForm_content_data f).

(** [edit_post(post_id)]; a title submitted empty reaches the column as
    [None], which [nullable=False] refuses at the commit. *)
Definition edit_post `{Werkzeug}
    (d : DB) (s : Session) (post_id : Z) (r : Submission PostForm)
  : Outcome * DB :=
  match current_user d s with
  | None => (unauthorized, d)
  | Some cu =>
    match Post_get d post_id with
    | None => (mkOutcome (Abort 404) [], d)
    | Some post =>
      if negb (Post.user_id post =? User.id cu) then
        (mkOutcome (Abort 403) [], d)
      else
        let f := PostForm_of r post in
        if is_submitted r && extra_ok r && PostForm_validate_of (form r) f then
          match PostForm_title_data f with
          | None => (mkOutcome (Unhandled IntegrityError) [], d)
          | Some title =>
            let image_file :=
              if uploaded (post_image f) then stored_upload (post_image f)
              else Post.image_file post in
            let video_file :=
              if uploaded (post_video f) then stored_upload (post_video f)
              else Post.video_file post in
            (mkOutcome (Redirect (url_post_detail (Post.id post)))
                       [(py "Post updated.", success)],
             Post_update d
               (Post.mk (Post.id post) title (PostForm_content_data f)
                        image_file video_file (Post.user_id post)
                        (Post.likes_count post)))
          end
        else (mkOutcome (Render (edit_post_html f post)) [], d)
    end
  end.

(** [delete_post(post_id)] *)
Definition delete_post (d : DB) (s : Session) (post_id : Z) : Outcome * DB :=
  match current_user d s with
  | None => (unauthorized, d)
  | Some cu =>
    match Post_get d post_id with
    | None => (mkOutcome (Abort 404) [], d)
    | Some post =>
      if negb (Post.user_id post =? User.id cu) then
        (mkOutcome (Abort 403) [], d)
      else
        (mkOutcome (Redirect url_home) [(py "Post deleted.", info)],
         Post_delete d post)
    end
  end.

(** [CommentForm(obj=comment)]: the text of the comment on a GET, and on a
    POST that omits the field. *)
Definition CommentForm_of (r : Submission CommentForm) (c : Comment.t)
  : CommentForm :=
  if is_submitted r
  then mkCommentForm (field_of (comment_content (form r))
                               (Some (Comment.content c)))
  else mkCommentForm (Some (Comment.content c)).

(** [edit_comment(comment_id)] *)
Definition edit_comment (d : DB) (s : Session) (comment_id : Z)
    (r : Submission CommentForm) : Outcome * DB :=
  match current_user d s with
  | None => (unauthorized, d)
  | Some cu =>
    match Comment_get d comment_id with
    | None => (mkOutcome (Abort 404) [], d)
    | Some comment =>
      if negb (Comment.user_id comment =? User.id cu) then
        (mkOutcome (Abort 403) [], d)
      else
        let f := CommentForm_of r comment in
        if is_submitted r && extra_ok r && CommentForm_validate f then
          (mkOutcome (Redirect (url_post_detail (Comment.post_id comment)))
                     [(py "Comment updated.", success)],
           Comment_update d
             (Comment.mk (Comment.id comment)
                         (data_str (CommentForm_content_data f))
                         (Comment.user_id comment) (Comment.post_id comment)))
        else (mkOutcome (Render (edit_comment_html f comment)) [], d)
    end
  end.

(** [delete_comment(comment_id)] *)
Definition delete_comment (d : DB) (s : Session) (comment_id : Z)
  : Outcome * DB :=
  match current_user d s with
  | None => (unauthorized, d)
  | Some cu =>
    match Comment_get d comment_id with
    | None => (mkOutcome (Abort 404) [], d)
    | Some comment =>
      if negb (Comment.user_id comment =? User.id cu) then
        (mkOutcome (Abort 403) [], d)
      else
        (mkOutcome (Redirect (url_post_detail (Comment.post_id comment)))
                   [(py "Comment deleted.", info)],
         Comment_delete d comment)
    end
  end.

(* ================================================================== *)
(** * oauth.py: Google sign-in *)
(* ================================================================== *)

Local Open Scope string_scope.

(** The string columns [models.py] maps on [User], by attribute name. *)
Definition User_column (attr : string) : option (User.t -> option pystr) :=
  if attr =? "username" then Some (fun u => Some (User.username u))
  else if attr =? "email" then Some (fun u => Some (User.email u))
  else if attr =? "password_hash" then Some (fun u => Some (User.password_hash u))
  else if attr =? "track" then Some User.track
  else if attr =? "skills" then Some User.skills
  else if attr =? "github_link" then Some User.github_link
  else if attr =? "portfolio_link" then Some User.portfolio_link
  else if attr =? "linkedin_link" then Some User.linkedin_link
  else if attr =? "phone_number" then Some User.phone_number
  else if attr =? "cv_file" then Some User.cv_file
  else if attr =? "profile_image" then Some (fun u => Some (User.profile_image u))
  else None.

(** Every attribute of [User]: its columns and its relationships. *)
Definition User_attributes : list string :=
  ["id"; "username"; "email"; "password_hash"; "track"; "skills";
   "available_for_project"; "github_link"; "portfolio_link"; "linkedin_link";
   "phone_number"; "cv_file"; "profile_image"; "posts"; "comments"; "likes"].

(** [User.query.filter_by(attr=value).first()] on a string column; for a
    name [User] does not map, [filter_by] raises [InvalidRequestError]. *)
Definition User_filter_by (d : DB) (attr : string) (value : pystr)
  : Exn + option User.t :=
  match User_column attr with
  | Some col => inr (find (fun u => opt_str_eqb (col u) (Some value)) (users d))
  | None => inl InvalidRequestError
  end.

(** [User(k=v, ...)]: the declarative constructor raises [TypeError] for a
    keyword that is not an attribute of the class. *)
Definition User_accepts (kwargs : list string) : bool :=
  forallb (fun k => existsb (String.eqb k) User_attributes) kwargs.

Local Close Scope string_scope.

(** [_download_google_picture(picture_url, app)]; [fetched] tells whether
    [urlretrieve] succeeded, [hex] is the [uuid4().hex] of the file name. *)
Definition _download_google_picture (picture_url : pystr) (fetched : bool)
    (hex : pystr) : pystr :=
  if negb (nonempty picture_url) then py "default_profile.png"
  else if fetched then hex ++ py ".jpg"
  else py "default_profile.png".

(** [name.replace(" ", "_").lower()[:40]] *)
Definition base_username `{Runtime} (name : pystr) : pystr :=
  firstn 40 (lower (replace_spaces name)).

(** [_unique_username(base)]; [hex] is the [uuid4().hex] drawn for the
    suffix. [username] is a column of [User], so the lookup is the plain
    one. *)
Definition _unique_username (d : DB) (base hex : pystr) : pystr :=
  let candidate := if nonempty base then base else py "user" in
  match User_by_username d candidate with
  | None => candidate
  | Some _ => candidate ++ py "_" ++ firstn 6 hex
  end.

(** [user_info.get("given_name", username)[:50] or username]: the username
    the new [User] is constructed with. *)
Definition new_user_username (info : UserInfo) (username : pystr) : pystr :=
  let given := firstn 50 (match ui_given_name info with
                          | Some g => g
                          | None => username
                          end) in
  if nonempty given then given else username.

(** What a callback request brings: the outcome of the token exchange
    ([None] for its exception) and the draws and fetch of the new-account
    path. *)
Record Callback `{OIDC} : Type := mkCallback {
  exchanged : option Token;
  picture_fetched : bool;
  avatar_hex : pystr;
  suffix_hex : pystr
}.

(** [google_callback()]. The session is a cookie written with the response:
    where the handler ends in an exception nobody catches, the exception
    propagates (the application runs under [app.run(debug=True)]), there is
    no response, and the session stays as the request brought it. *)
Definition google_callback `{OIDC} `{Runtime}
    (d : DB) (s : Session) (c : Callback) : Outcome * DB * Session :=
  match exchanged c with
  | None =>
    (mkOutcome (Redirect url_login)
               [(py "Google sign-in failed. Please try again.", danger)], d, s)
  | Some token =>
    let nonce := oauth_nonce s in
    (* session.pop: written back with the response, when there is one *)
    let s' := mkSession (session_user_id s) None in
    match parse_id_token token nonce with
    | None =>
      (mkOutcome (Redirect url_login)
                 [(py "Authentication error. Please try again.", danger)], d, s')
    | Some user_info =>
      let google_id := ui_sub user_info in
      let email := data_str (ui_email user_info) in
      let name := data_str (ui_name user_info) in
      let picture := data_str (ui_picture user_info) in
      if negb (truthy google_id) || negb (nonempty email) then
        (mkOutcome (Redirect url_login)
           [(py "Could not retrieve your Google account details.", danger)],
         d, s')
      else
        match User_filter_by d "google_id" (data_str google_id) with
        | inl e => (mkOutcome (Unhandled e) [], d, s)
        | inr (Some user) =>
          (mkOutcome (Redirect url_home) [], d, login_user s' user)
        | inr None =>
          match User_by_email d email with
          | Some user =>
            (* user.google_id = google_id sets a plain attribute of the
               instance: no column changes, the commit writes nothing *)
            (mkOutcome (Redirect url_home) [], d, login_user s' user)
          | None =>
            let profile_fn :=
              _download_google_picture picture (picture_fetched c)
                                       (avatar_hex c) in
            let base_username := base_username name in
            let username := _unique_username d base_username (suffix_hex c) in
            let username := new_user_username user_info username in
            if User_accepts ["username"; "email"; "google_id";
                             "profile_image"; "available_for_project"]%string
            then
              (* no password_hash is set and the column is nullable=False *)
              (mkOutcome (Unhandled IntegrityError) [], d, s)
            else (mkOutcome (Unhandled TypeError) [], d, s)
          end
        end
    end
  end.

(** Primary keys of [like] are distinct. *)
Definition like_keys_unique (d : DB) : Prop := NoDup (map Like.id (likes d)).

(** Primary keys of [post] are distinct. *)
Definition post_keys_unique (d : DB) : Prop := NoDup (map Post.id (posts d)).

(** The counter of post [pid] equals the size of its Like set, and no member
    occurs twice in that set. *)
Definition like_count_consistent (d : DB) (pid : Z) : Prop :=
  exists p, Post_get d pid = Some p
    /\ Post.likes_count p = Z.of_nat (length (likes_of d pid))
    /\ NoDup (map Like.user_id (likes_of d pid)).

(* ================================================================== *)
(** * The store: collation, pattern match, dates *)
(* ================================================================== *)

(** What the database engine decides ([config.py], which names it, is not
    part of the sources): [ILIKE] on a nullable text column, the collation
    that orders usernames, and the [date] column of a post row, which
    [Post.t] leaves out. *)
Class Store : Type := {
  ilike : option pystr -> pystr -> bool;        (* column value, pattern *)
  username_le : pystr -> pystr -> bool;
  post_date : Post.t -> Z
}.

(** [ORDER BY]: the rows sorted by [le], rows that compare equal kept in
    table order. *)
Fixpoint insert_by {A} (le : A -> A -> bool) (x : A) (l : list A) : list A :=
  match l with
  | [] => [x]
  | y :: l' => if le x y then x :: l else y :: insert_by le x l'
  end.

Definition order_by {A} (le : A -> A -> bool) (l : list A) : list A :=
  fold_right (insert_by le) [] l.

(** What a page that only reads hands to its template, or where the request
    is sent instead. *)
Inductive View (A : Type) : Type :=
| to_login                      (* login_manager.unauthorized() *)
| not_found                     (* get_or_404 *)
| page (ctx : A).
Arguments to_login {A}.
Arguments not_found {A}.
Arguments page {A} _.

(* ================================================================== *)
(** * models.py: methods of [User] *)
(* ================================================================== *)

(** [user.likes]: the relationship, the Like rows of the member. *)
Definition User_likes (d : DB) (u : User.t) : list Like.t :=
  filter (fun l => Like.user_id l =? User.id u) (likes d).

(** [user.has_liked(post)] *)
Definition has_liked (d : DB) (u : User.t) (post : Post.t) : bool :=
  existsb (fun like => Like.post_id like =? Post.id post) (User_likes d u).

(** [user.get_profile_image_url()] *)
Definition get_profile_image_url (u : User.t) : pystr :=
  if nonempty (User.profile_image u) then User.profile_image u
  else py "default_profile.png".

(* ================================================================== *)
(** * app.py: helpers, feed, discovery, profile *)
(* ================================================================== *)

(** ["." in s] *)
Definition has_dot (s : pystr) : bool := existsb (N.eqb 46) s.

(** [s.rsplit(".", 1)[1]]: what follows the last dot ([None] when there is
    no dot and the index is out of range). *)
Fixpoint after_last_dot (s : pystr) : option pystr :=
  match s with
  | [] => None
  | c :: t =>
    match after_last_dot t with
    | Some ext => Some ext
    | None => if (c =? 46)%N then Some t else None
    end
  end.

(** [_allowed_file(filename, allowed)] *)
Definition _allowed_file `{Runtime} (filename : pystr) (allowed : list pystr)
  : bool :=
  has_dot filename
  && match after_last_dot filename with
     | Some ext => existsb (str_eqb (lower ext)) allowed
     | None => false
     end.

(** [Post.query.join(User)]: each post beside the member row of its
    [user_id]. *)
Definition posts_join_users (d : DB) : list (Post.t * User.t) :=
  flat_map (fun p => map (fun u => (p, u))
                         (filter (fun u => User.id u =? Post.user_id p)
                                 (users d)))
           (posts d).

(** [home()]: the posts of the feed; [track] and [available] are the query
    parameters. *)
Definition home `{Store} (d : DB) (s : Session) (track available : option pystr)
  : View (list Post.t) :=
  match current_user d s with
  | None => to_login
  | Some _ =>
    let track_filter := strip (data_str track) in
    let available_filter := strip (data_str available) in
    let query := posts_join_users d in
    let query :=
      if nonempty track_filter
      then filter (fun pu => opt_str_eqb (User.track (snd pu))
                                         (Some track_filter)) query
      else query in
    let query :=
      if str_eqb available_filter (py "yes")
      then filter (fun pu => User.available_for_project (snd pu)) query
      else query in
    page (order_by (fun a b => post_date b <=? post_date a) (map fst query))
  end.

(** [profile(user_id)]: the member, the member's posts, newest first, and
    [total_likes]. *)
Definition profile `{Store} (d : DB) (s : Session) (user_id : Z)
  : View (User.t * list Post.t * Z) :=
  match current_user d s with
  | None => to_login
  | Some _ =>
    match User_get d user_id with
    | None => not_found
    | Some user =>
      let posts :=
        order_by (fun a b => post_date b <=? post_date a)
                 (filter (fun p => Post.user_id p =? User.id user) (posts d)) in
      let total_likes :=
        fold_right Z.add 0 (map (fun p => py_or (Post.likes_count p) 0) posts) in
      page (user, posts, total_likes)
    end
  end.

(** The order of [network()]: available members first, then by username. *)
Definition network_le `{Store} (a b : User.t) : bool :=
  if Bool.eqb (User.available_for_project a) (User.available_for_project b)
  then username_le (User.username a) (User.username b)
  else User.available_for_project a.

(** [network()]: the members listed; [search], [track] and [available] are
    the query parameters. *)
Definition network `{Store} (d : DB) (s : Session)
    (search track available : option pystr) : View (list User.t) :=
  match current_user d s with
  | None => to_login
  | Some cu =>
    let search_q := strip (data_str search) in
    let track_filter := strip (data_str track) in
    let avail_filter := strip (data_str available) in
    let query := filter (fun u => negb (User.id u =? User.id cu)) (users d) in
    let query :=
      if nonempty search_q then
        let like := py "%" ++ search_q ++ py "%" in
        filter (fun u => ilike (Some (User.username u)) like
                         || ilike (User.skills u) like
                         || ilike (User.track u) like) query
      else query in
    let query :=
      if nonempty track_filter
      then filter (fun u => opt_str_eqb (User.track u) (Some track_filter)) query
      else query in
    let query :=
      if str_eqb avail_filter (py "yes")
      then filter User.available_for_project query
      else query in
    page (order_by network_le query)
  end.

(* ================================================================== *)
(** * app.py: comments, profile edit, logout *)
(* ================================================================== *)

(** Committing [db.session.add(comment)]. *)
Definition Comment_insert (d : DB) (content : pystr) (author post : Z)
  : Comment.t * DB :=
  let c := Comment.mk (next_id (map Comment.id (comments d))) content
                      author post in
  (c, mkDB (users d) (posts d) (comments d ++ [c]) (likes d)).

(** [add_comment(post_id)] *)
Definition add_comment (d : DB) (s : Session) (post_id : Z)
    (r : Submission CommentForm) : Outcome * DB :=
  match current_user d s with
  | None => (unauthorized, d)
  | Some cu =>
    match Post_get d post_id with
    | None => (mkOutcome (Abort 404) [], d)
    | Some post =>
      if validate_on_submit CommentForm_validate r then
        let '(_, d') :=
          Comment_insert d (data_str (CommentForm_content_data (form r)))
                         (User.id cu) (Post.id post) in
        (mkOutcome (Redirect (url_post_detail (Post.id post)))
                   [(py "Comment posted.", success)], d')
      else
        (mkOutcome (Redirect (url_post_detail (Post.id post)))
                   [(py "Comment could not be posted.", warning)], d)
    end
  end.

Record EditProfileForm : Type := mkEditProfileForm {
  ep_username : option pystr;
  ep_email : option pystr;
  ep_track : option pystr;
  ep_skills : option pystr;
  ep_available_for_project : bool;
  ep_github_link : option pystr;
  ep_portfolio_link : option pystr;
  ep_linkedin_link : option pystr;
  ep_phone_number : option pystr;
  ep_profile_image : option pystr;    (* filename of the upload *)
  ep_cv_file : option pystr
}.

Definition EditProfileForm_validate (f : EditProfileForm) : bool :=
  DataRequired (strip_filter (ep_username f))
  && Length 3 (Some 50%nat) (strip_filter (ep_username f))
  && DataRequired (strip_filter (ep_email f))
  && Length 0 (Some 120%nat) (strip_filter (ep_email f))
  && DataRequired (ep_track f)
  && DataRequired (strip_filter (ep_skills f))
  && Length 0 (Some 200%nat) (strip_filter (ep_skills f))
  && (Optional_stops (ep_phone_number f)
      || Length 7 (Some 20%nat) (strip_filter (ep_phone_number f))).

(** [data or None] *)
Definition or_None (o : option pystr) : option pystr :=
  if truthy o then o else None.

(** Committing the changed member row: [UPDATE user ... WHERE id = ?];
    [username] and [email] are [unique] against the other rows. *)
Definition User_update (d : DB) (u : User.t) : Exn + DB :=
  if existsb (fun r => negb (User.id r =? User.id u)
                       && (str_eqb (User.username r) (User.username u)
                           || str_eqb (User.email r) (User.email u)))
             (users d)
  then inl IntegrityError
  else inr (mkDB (map (fun r => if User.id r =? User.id u then u else r)
                      (users d))
                 (posts d) (comments d) (likes d)).

(** How [edit_profile] ends. *)
Inductive ProfileEdit : Type :=
| profile_to_login
| profile_saved (user_id : Z)            (* flash, redirect to the profile *)
| profile_form (f : EditProfileForm)     (* edit_profile.html *)
| profile_unhandled (e : Exn).

(** The form [edit_profile] shows on a GET: the member's own values. *)
Definition EditProfileForm_of (u : User.t) : EditProfileForm :=
  mkEditProfileForm (Some (User.username u)) (Some (User.email u))
    (User.track u) (User.skills u) (User.available_for_project u)
    (User.github_link u) (User.portfolio_link u) (User.linkedin_link u)
    (User.phone_number u) None None.

(** [edit_profile()]; the draws name the uploads. *)
Definition edit_profile `{Werkzeug} `{Runtime}
    (d : DB) (s : Session) (r : Submission EditProfileForm)
    (cv_hex picture_hex : pystr) : ProfileEdit * DB :=
  match current_user d s with
  | None => (profile_to_login, d)
  | Some cu =>
    let f := form r in
    if validate_on_submit EditProfileForm_validate r then
      let cv_file :=
        if uploaded (ep_cv_file f)
        then Some (save_cv (data_str (ep_cv_file f)) cv_hex)
        else User.cv_file cu in
      let profile_image :=
        if uploaded (ep_profile_image f)
        then save_picture (data_str (ep_profile_image f)) picture_hex
        else User.profile_image cu in
      let user :=
        User.mk (User.id cu)
          (data_str (strip_filter (ep_username f)))
          (data_str (strip_filter (ep_email f)))
          (User.password_hash cu)
          (ep_track f) (strip_filter (ep_skills f))
          (ep_available_for_project f)
          (or_None (strip_filter (ep_github_link f)))
          (or_None (strip_filter (ep_portfolio_link f)))
          (or_None (strip_filter (ep_linkedin_link f)))
          (or_None (strip_filter (ep_phone_number f)))
          cv_file profile_image in
      match User_update d user with
      | inr d' => (profile_saved (User.id cu), d')
      | inl e => (profile_unhandled e, d)
      end
    else
      match method r with
      | GET => (profile_form (EditProfileForm_of cu), d)
      | POST => (profile_form f, d)
      end
  end.

(** [logout_user()] *)
Definition logout_user (s : Session) : Session :=
  mkSession None (oauth_nonce s).

(** [logout()] *)
Definition logout (d : DB) (s : Session) : Outcome * Session :=
  match current_user d s with
  | None => (unauthorized, s)
  | Some _ =>
    (mkOutcome (Redirect url_login)
               [(py "You have signed out of CS Community.", info)],
     logout_user s)
  end.

(** [clear_session()]: [session.clear()] drops the nonce as well. *)
Definition clear_session (s : Session) : Outcome * Session :=
  (mkOutcome (Redirect url_login) [(py "Session cleared.", info)],
   logout_user (mkSession None None)).

(* ================================================================== *)
(** * oauth.py: the redirect to Google *)
(* ================================================================== *)

(** How [google_login] ends: at home, or at Google's consent screen with the
    nonce. *)
Inductive GoogleRedirect : Type :=
| google_to_home
| google_authorize (nonce : pystr).

(** [google_login()]; [hex] is the [uuid4().hex] drawn for the nonce. *)
Definition google_login (d : DB) (s : Session) (hex : pystr)
  : GoogleRedirect * Session :=
  match current_user d s with
  | Some _ => (google_to_home, s)
  | None =>
    let nonce := hex in
    (google_authorize nonce, mkSession (session_user_id s) (Some nonce))
  end.

(** Primary keys, usernames and emails of [user] are each distinct. *)
Definition identities_unique (d : DB) : Prop :=
  NoDup (map User.id (users d))
  /\ NoDup (map User.username (users d))
  /\ NoDup (map User.email (users d)).

(* ================================================================== *)
(** * Sample data for the worked examples *)
(* ================================================================== *)

(** Stand-ins for the collaborators, used only by the examples at the end:
    a "hash" that is the password itself, upload names kept as they are, the
    ASCII case mapping, and an identity provider whose token is the
    assertion. *)
Definition plain_werkzeug : Werkzeug :=
  {| generate_password_hash := fun password _ => password;
     check_password_hash := fun pwhash password => str_eqb pwhash password;
     secure_filename := fun name => name |}.

Definition ascii_lower (s : pystr) : pystr :=
  map (fun c => if ((65 <=? c) && (c <=? 90))%N then (c + 32)%N else c) s.

Definition ascii_runtime : Runtime :=
  {| lower := ascii_lower; splitext_ext := fun _ => [] |}.

Definition trusting_oidc : OIDC :=
  {| Token := UserInfo; parse_id_token := fun token _ => Some token |}.

Definition member (i : Z) (name mail pwhash : string) : User.t :=
  User.mk i (py name) (py mail) (py pwhash) None None true
          None None None None None (py "default_profile.png").

Definition ann : User.t := member 1 "ann" "ann@example.org" "pw-ann".
Definition bob : User.t := member 2 "bob" "bob@example.org" "pw-bob".

Definition hello : Post.t :=
  Post.mk 1 (py "Hello") (Some (py "Hello world")) None None 1 0.

Definition nice : Comment.t := Comment.mk 1 (py "Nice") 2 1.

(** Two members, one fresh post by ann, one comment by bob, no likes. *)
Definition sample_db : DB := mkDB [ann; bob] [hello] [nice] [].

(** The same with ann's like on her post counted. *)
Definition liked_db : DB :=
  mkDB [ann; bob] [Post.set_likes_count hello 1] [nice] [Like.mk 1 1 1].

(** A members table where a suffixed username is already taken. *)
Definition crowded_db : DB :=
  mkDB [ann; member 2 "ann_abc123" "ann2@example.org" "pw"] [] [] [].

Definition as_ann : Session := mkSession (Some 1) None.
Definition as_bob : Session := mkSession (Some 2) None.
Definition anonymous : Session := mkSession None None.

(** A stand-in for the store: usernames compared by code point, [ILIKE]
    against [%text%] as a case-blind search for [text], and posts dated in
    the order of their keys. *)
Fixpoint codepoint_le (a b : pystr) : bool :=
  match a, b with
  | [], _ => true
  | _ :: _, [] => false
  | x :: a', y :: b' => (x <? y)%N || ((x =? y)%N && codepoint_le a' b')
  end.

Fixpoint starts_with (p s : pystr) : bool :=
  match p, s with
  | [], _ => true
  | _ :: _, [] => false
  | x :: p', y :: s' => (x =? y)%N && starts_with p' s'
  end.

Fixpoint contains (p s : pystr) : bool :=
  starts_with p s
  || match s with
     | [] => false
     | _ :: s' => contains p s'
     end.

Definition contains_ilike (value : option pystr) (pattern : pystr) : bool :=
  match value with
  | Some s => contains (ascii_lower (removelast (tl pattern))) (ascii_lower s)
  | None => false
  end.

Definition simple_store : Store :=
  {| ilike := contains_ilike;
     username_le := codepoint_le;
     post_date := Post.id |}.

(** An identity provider whose token carries the nonce it was asked for. *)
Definition nonce_oidc : OIDC :=
  {| Token := option pystr * UserInfo;
     parse_id_token := fun token nonce =>
       match fst token, nonce with
       | Some a, Some b => if str_eqb a b then Some (snd token) else None
       | _, _ => None
       end |}.

(** Three members with tracks, carol not available; posts by ann, bob and
    carol with counters that agree with the likes. *)
Definition dana : User.t :=
  User.mk 1 (py "dana") (py "dana@example.org") (py "pw-dana")
          (Some (py "Web Development")) (Some (py "Python, React")) true
          None None None None None (py "default_profile.png").

Definition eli : User.t :=
  User.mk 2 (py "eli") (py "eli@example.org") (py "pw-eli")
          (Some (py "Data Science")) (Some (py "Python, R")) true
          None None None None None (py "default_profile.png").

Definition carol : User.t :=
  User.mk 3 (py "carol") (py "carol@example.org") (py "pw-carol")
          (Some (py "Web Development")) (Some (py "Rust")) false
          None None None None None (py "default_profile.png").

Definition team_db : DB :=
  mkDB [dana; eli; carol]
       [Post.mk 1 (py "One") (Some (py "One")) None None 1 2;
        Post.mk 2 (py "Two") (Some (py "Two")) None None 2 0;
        Post.mk 3 (py "Three") (Some (py "Three")) None None 3 0;
        Post.mk 4 (py "Four") (Some (py "Four")) None None 1 1]
       []
       [Like.mk 1 2 1; Like.mk 2 3 1; Like.mk 3 2 4].

Definition as_dana : Session := mkSession (Some 1) None.

(* ================================================================== *)
(** * Facts about tables *)
(* ================================================================== *)

Section Tables.
Context {A : Type}.
Variable key : A -> Z.

Lemma next_id_above (ids : list Z) (i : Z) : In i ids -> i < next_id ids.
Proof.
  unfold next_id. induction ids as [|j ids IH]; cbn [fold_right In]; [tauto|].
  intros [->|Hin]; [lia|]. specialize (IH Hin). lia.
Qed.

Lemma next_id_fresh (l : list A) : ~ In (next_id (map key l)) (map key l).
Proof. intros Hin. apply next_id_above in Hin. lia. Qed.

Lemma find_none_existsb (f : A -> bool) (l : list A) :
  find f l = None -> existsb f l = false.
Proof.
  induction l as [|a l IH]; simpl; [reflexivity|].
  destruct (f a); [discriminate|]. exact IH.
Qed.

Lemma key_determines_row (l : list A) (x r : A) :
  NoDup (map key l) -> In x l -> In r l -> key r = key x -> r = x.
Proof.
  induction l as [|a l IH]; simpl; [tauto|].
  intros Hnd Hx Hr Hk. inversion Hnd as [|? ? Hnot Hnd']; subst.
  destruct Hx as [->|Hx], Hr as [->|Hr]; auto.
  - exfalso. apply Hnot. rewrite <- Hk. now apply in_map.
  - exfalso. apply Hnot. rewrite Hk. now apply in_map.
Qed.

Lemma NoDup_map_filter {B : Type} (f : A -> B) (g : A -> bool) (l : list A) :
  NoDup (map f l) -> NoDup (map f (filter g l)).
Proof.
  induction l as [|a l IH]; simpl; [auto|].
  intros Hnd. inversion Hnd as [|? ? Hnot Hnd']; subst.
  destruct (g a); simpl; [|auto].
  constructor; [|auto].
  intros Hin. apply Hnot. apply in_map_iff in Hin as (r & Hr & Hin).
  apply filter_In in Hin as [Hin _]. rewrite <- Hr. now apply in_map.
Qed.

Lemma filter_comm (P Q : A -> bool) (l : list A) :
  filter P (filter Q l) = filter Q (filter P l).
Proof.
  induction l as [|a l IH]; simpl; [reflexivity|].
  destruct (Q a) eqn:HQ, (P a) eqn:HP; simpl; rewrite ?HQ, ?HP, IH; reflexivity.
Qed.

(** Rows that [Q] drops and [P] does not select leave [filter P] alone. *)
Lemma filter_filter_irrelevant (P Q : A -> bool) (l : list A) :
  (forall r, In r l -> Q r = false -> P r = false) ->
  filter P (filter Q l) = filter P l.
Proof.
  induction l as [|a l IH]; simpl; intros H; [reflexivity|].
  destruct (Q a) eqn:HQ; simpl.
  - destruct (P a); rewrite IH; auto.
  - rewrite (H a) by auto. apply IH; auto.
Qed.

Lemma filter_all (Q : A -> bool) (l : list A) :
  (forall r, In r l -> Q r = true) -> filter Q l = l.
Proof.
  induction l as [|a l IH]; simpl; intros H; [reflexivity|].
  rewrite (H a) by auto. f_equal. apply IH; auto.
Qed.

(** Deleting one row by its key takes exactly that row out of a selection
    it belongs to. *)
Lemma length_filter_delete (P : A -> bool) (l : list A) (x : A) :
  NoDup (map key l) -> In x l -> P x = true ->
  length (filter P l)
  = S (length (filter P (filter (fun r => negb (key r =? key x)) l))).
Proof.
  induction l as [|a l IH]; simpl; [tauto|].
  intros Hnd Hx HP. inversion Hnd as [|? ? Hnot Hnd']; subst.
  destruct (key a =? key x) eqn:Hk; simpl.
  - apply Z.eqb_eq in Hk.
    assert (a = x) as ->.
    { destruct Hx as [|Hx]; [assumption|].
      exfalso. apply Hnot. rewrite Hk. now apply in_map. }
    rewrite HP. simpl. do 2 f_equal. f_equal. symmetry. apply filter_all.
    intros r Hr. apply negb_true_iff, Z.eqb_neq. intros Heq.
    apply Hnot. rewrite <- Heq. now apply in_map.
  - destruct Hx as [->|Hx]; [rewrite Z.eqb_refl in Hk; discriminate|].
    destruct (P a); simpl; rewrite (IH Hnd' Hx HP); reflexivity.
Qed.

Lemma find_update_same (l : list A) (p : A) :
  find (fun r => key r =? key p) l <> None ->
  find (fun r => key r =? key p)
       (map (fun r => if key r =? key p then p else r) l) = Some p.
Proof.
  induction l as [|a l IH]; simpl; [congruence|].
  destruct (key a =? key p) eqn:Hk; simpl.
  - now rewrite Z.eqb_refl.
  - rewrite Hk. exact IH.
Qed.

Lemma find_update_other (l : list A) (p : A) (q : Z) :
  q <> key p ->
  find (fun r => key r =? q)
       (map (fun r => if key r =? key p then p else r) l)
  = find (fun r => key r =? q) l.
Proof.
  intros Hq. induction l as [|a l IH]; simpl; [reflexivity|].
  destruct (key a =? key p) eqn:Hk; simpl.
  - apply Z.eqb_eq in Hk. rewrite Hk.
    destruct (key p =? q) eqn:Hp; [apply Z.eqb_eq in Hp; congruence|].
    exact IH.
  - destruct (key a =? q); [reflexivity|exact IH].
Qed.

(** Rewriting the row of a key with the row it already holds changes
    nothing. *)
Lemma update_same_row (l : list A) (p : A) :
  NoDup (map key l) -> In p l ->
  map (fun r => if key r =? key p then p else r) l = l.
Proof.
  intros Hnd Hin. rewrite <- (map_id l) at 2. apply map_ext_in.
  intros r Hr. destruct (key r =? key p) eqn:Hk; [|reflexivity].
  apply Z.eqb_eq in Hk. symmetry. eapply key_determines_row; eauto.
Qed.

Lemma filter_fresh_row (l : list A) (x : A) :
  ~ In (key x) (map key l) ->
  filter (fun r => negb (key r =? key x)) (l ++ [x]) = l.
Proof.
  intros Hnot. rewrite filter_app. simpl. rewrite Z.eqb_refl. simpl.
  rewrite app_nil_r. apply filter_all.
  intros r Hr. apply negb_true_iff, Z.eqb_neq. intros Heq.
  apply Hnot. rewrite <- Heq. now apply in_map.
Qed.

Lemma find_app_none (f : A -> bool) (l1 l2 : list A) :
  find f l1 = None -> find f (l1 ++ l2) = find f l2.
Proof.
  induction l1 as [|a l1 IH]; simpl; [reflexivity|].
  destruct (f a); [discriminate|]. exact IH.
Qed.
End Tables.

(* ================================================================== *)
(** * Like toggling *)
(* ================================================================== *)

Lemma Post_get_id (d : DB) (pid : Z) (p : Post.t) :
  Post_get d pid = Some p -> Post.id p = pid.
Proof.
  unfold Post_get. intros H. apply find_some in H as [_ H].
  now apply Z.eqb_eq.
Qed.

Lemma Post_get_In (d : DB) (pid : Z) (p : Post.t) :
  Post_get d pid = Some p -> In p (posts d).
Proof. unfold Post_get. intros H. now apply find_some in H. Qed.

Lemma Post_get_update_same (d : DB) (p p0 : Post.t) :
  Post_get d (Post.id p) = Some p0 ->
  Post_get (Post_update d p) (Post.id p) = Some p.
Proof.
  unfold Post_get, Post_update. simpl. intros H.
  apply (find_update_same Post.id). congruence.
Qed.

Lemma Post_get_update_other (d : DB) (p : Post.t) (q : Z) :
  q <> Post.id p -> Post_get (Post_update d p) q = Post_get d q.
Proof.
  unfold Post_get, Post_update. simpl. apply (find_update_other Post.id).
Qed.

Lemma Post_get_recount (d d' : DB) (q n : Z) (post : Post.t) :
  posts d' = posts d -> Post_get d q = Some post ->
  Post_get (Post_update d' (Post.set_likes_count post n)) q
  = Some (Post.set_likes_count post n).
Proof.
  intros Hposts Hpost. pose proof (Post_get_id _ _ _ Hpost) as Hid.
  rewrite <- Hid.
  apply (Post_get_update_same d' (Post.set_likes_count post n) post).
  unfold Post_get in *. simpl. now rewrite Hposts, Hid.
Qed.

Lemma Like_first_spec (d : DB) (uid pid : Z) (l : Like.t) :
  Like_first d uid pid = Some l ->
  In l (likes d) /\ Like.user_id l = uid /\ Like.post_id l = pid.
Proof.
  unfold Like_first. intros H. apply find_some in H as [Hin H].
  apply andb_true_iff in H as [Hu Hp].
  apply Z.eqb_eq in Hu, Hp. auto.
Qed.

Lemma Like_first_none (d : DB) (uid pid : Z) (r : Like.t) :
  Like_first d uid pid = None -> In r (likes d) ->
  Like.post_id r = pid -> Like.user_id r <> uid.
Proof.
  unfold Like_first. intros H Hin Hp Hu.
  apply (find_none _ _ H) in Hin.
  rewrite Hu, Hp, !Z.eqb_refl in Hin. discriminate.
Qed.

(** After the lookup found no Like of the pair, the insertion meets no
    constraint: the [except IntegrityError] branch is not taken. *)
Lemma Like_insert_after_lookup (d : DB) (uid pid : Z) :
  Like_first d uid pid = None ->
  Like_insert d uid pid
  = inr (mkDB (users d) (posts d) (comments d)
              (likes d ++ [Like.mk (next_id (map Like.id (likes d))) uid pid])).
Proof.
  unfold Like_first, Like_insert. intros H.
  now rewrite (find_none_existsb _ _ H).
Qed.

Lemma py_or_0 (x : Z) : py_or x 0 = x.
Proof. unfold py_or. destruct (x =? 0) eqn:H; [apply Z.eqb_eq in H|]; auto. Qed.

Lemma py_or_1_pos (x : Z) : 1 <= x -> py_or x 1 = x.
Proof. unfold py_or. intros H. destruct (x =? 0) eqn:E; [apply Z.eqb_eq in E; lia|auto]. Qed.

(** The two effective branches of [toggle_like], and the two that leave the
    database alone. *)
Lemma toggle_like_cases (d : DB) (s : Session) (q : Z) :
  (snd (toggle_like d s q) = d
   /\ (current_user d s = None \/ Post_get d q = None))
  \/ (exists cu post l,
        current_user d s = Some cu /\ Post_get d q = Some post
        /\ Like_first d (User.id cu) q = Some l
        /\ toggle_like d s q
           = (mkOutcome (Redirect (url_post_detail q)) [(py "Like removed.", info)],
              Post_update (Like_delete d l)
                (Post.set_likes_count post
                   (Z.max (py_or (Post.likes_count post) 1 - 1) 0))))
  \/ (exists cu post,
        current_user d s = Some cu /\ Post_get d q = Some post
        /\ Like_first d (User.id cu) q = None
        /\ toggle_like d s q
           = (mkOutcome (Redirect (url_post_detail q)) [(py "Post liked!", success)],
              Post_update
                (mkDB (users d) (posts d) (comments d)
                   (likes d ++ [Like.mk (next_id (map Like.id (likes d)))
                                        (User.id cu) q]))
                (Post.set_likes_count post (Post.likes_count post + 1)))).
Proof.
  unfold toggle_like.
  destruct (current_user d s) as [cu|] eqn:Hcu; [|left; auto].
  destruct (Post_get d q) as [post|] eqn:Hpost; [|left; auto].
  rewrite (Post_get_id _ _ _ Hpost).
  destruct (Like_first d (User.id cu) q) as [l|] eqn:Hl.
  - right; left. exists cu, post, l. auto.
  - right; right. exists cu, post.
    rewrite (Like_insert_after_lookup _ _ _ Hl), py_or_0. auto.
Qed.

Lemma likes_of_delete_same (d : DB) (l : Like.t) :
  like_keys_unique d -> In l (likes d) ->
  length (likes_of d (Like.post_id l))
  = S (length (likes_of (Like_delete d l) (Like.post_id l))).
Proof.
  intros Hk Hin. unfold likes_of, Like_delete. simpl.
  apply (length_filter_delete Like.id); auto. apply Z.eqb_refl.
Qed.

Lemma likes_of_delete_other (d : DB) (l : Like.t) (pid : Z) :
  like_keys_unique d -> In l (likes d) -> Like.post_id l <> pid ->
  likes_of (Like_delete d l) pid = likes_of d pid.
Proof.
  intros Hk Hin Hne. unfold likes_of, Like_delete. simpl.
  apply filter_filter_irrelevant. intros r Hr HQ.
  apply negb_false_iff, Z.eqb_eq in HQ.
  rewrite (key_determines_row Like.id _ _ _ Hk Hin Hr HQ).
  now apply Z.eqb_neq.
Qed.

Lemma likes_of_delete_NoDup (d : DB) (l : Like.t) (pid : Z) :
  NoDup (map Like.user_id (likes_of d pid)) ->
  NoDup (map Like.user_id (likes_of (Like_delete d l) pid)).
Proof.
  unfold likes_of, Like_delete. simpl. rewrite filter_comm.
  apply NoDup_map_filter.
Qed.

(** One like request keeps the counter of any post equal to the size of its
    Like set, with no member twice in it. *)
Lemma toggle_like_preserves (d : DB) (s : Session) (q pid : Z) :
  like_keys_unique d -> like_count_consistent d pid ->
  like_keys_unique (snd (toggle_like d s q))
  /\ like_count_consistent (snd (toggle_like d s q)) pid.
Proof.
  intros Hk (p & Hp & Hcount & Hnd).
  destruct (toggle_like_cases d s q)
    as [[-> _]|[(cu & post & l & Hcu & Hpost & Hl & ->)
               |(cu & post & Hcu & Hpost & Hl & ->)]]; simpl.
  - split; [assumption|]. exists p. auto.
  - apply Like_first_spec in Hl as (Hin & Hu & Hq).
    pose proof (Post_get_id _ _ _ Hpost) as Hid.
    split.
    { unfold like_keys_unique. simpl. now apply NoDup_map_filter. }
    unfold like_count_consistent.
    change (likes_of (Post_update (Like_delete d l) ?x) pid)
      with (likes_of (Like_delete d l) pid).
    destruct (Z.eq_dec q pid) as [->|Hne].
    + exists (Post.set_likes_count post
                (Z.max (py_or (Post.likes_count post) 1 - 1) 0)).
      split; [|split].
      * now apply (Post_get_recount d).
      * assert (p = post) as -> by congruence.
        pose proof (likes_of_delete_same d l Hk Hin) as Hlen.
        rewrite Hq in Hlen. simpl.
        rewrite py_or_1_pos by lia. lia.
      * now apply likes_of_delete_NoDup.
    + exists p. split; [|split].
      * rewrite Post_get_update_other by (simpl; congruence). exact Hp.
      * rewrite likes_of_delete_other by (auto; congruence). exact Hcount.
      * now apply likes_of_delete_NoDup.
  - pose proof (Post_get_id _ _ _ Hpost) as Hid.
    split.
    { unfold like_keys_unique. simpl. rewrite map_app. simpl.
      apply NoDup_app; [assumption|repeat constructor; simpl; tauto|].
      simpl. intros a Ha [<-|[]]. now apply (next_id_fresh Like.id) in Ha. }
    unfold like_count_consistent, likes_of. simpl. rewrite filter_app. simpl.
    fold (likes_of d pid).
    destruct (Z.eq_dec q pid) as [->|Hne].
    + rewrite Z.eqb_refl.
      exists (Post.set_likes_count post (Post.likes_count post + 1)).
      split; [|split].
      * now apply (Post_get_recount d).
      * assert (p = post) as -> by congruence.
        rewrite length_app. simpl. lia.
      * rewrite map_app. simpl.
        apply NoDup_app; [assumption|repeat constructor; simpl; tauto|].
        simpl. intros a Ha [<-|[]].
        apply in_map_iff in Ha as (r & Hr & Hin).
        apply filter_In in Hin as [Hin Hpidr]. apply Z.eqb_eq in Hpidr.
        exact (Like_first_none _ _ _ r Hl Hin Hpidr Hr).
    + destruct (q =? pid) eqn:E; [apply Z.eqb_eq in E; contradiction|].
      rewrite app_nil_r. exists p. split; [|auto].
      rewrite Post_get_update_other by (simpl; congruence). exact Hp.
Qed.

Lemma run_toggles_preserve (ops : list (Session * Z)) (d : DB) (pid : Z) :
  like_keys_unique d -> like_count_consistent d pid ->
  like_keys_unique (run_toggles ops d)
  /\ like_count_consistent (run_toggles ops d) pid.
Proof.
  revert d. induction ops as [|[s q] ops IH]; intros d Hk Hc; simpl; [auto|].
  destruct (toggle_like_preserves d s q pid Hk Hc) as [Hk' Hc'].
  now apply IH.
Qed.

(** C1. Starting from a freshly created post (counter 0, no Like row), after
    any sequence of like requests by any members on any posts, the post's
    [likes_count] equals the number of Like rows that point at it, and no
    member has two Like rows for it. *)
Theorem like_count_equals_like_set
    (d : DB) (pid : Z) (p : Post.t) (ops : list (Session * Z)) :
  like_keys_unique d ->
  Post_get d pid = Some p ->
  Post.likes_count p = 0 ->
  likes_of d pid = [] ->
  exists p',
    Post_get (run_toggles ops d) pid = Some p'
    /\ Post.likes_count p' = Z.of_nat (length (likes_of (run_toggles ops d) pid))
    /\ NoDup (map Like.user_id (likes_of (run_toggles ops d) pid)).
Proof.
  intros Hk Hp H0 Hnil.
  apply (run_toggles_preserve ops d pid Hk).
  exists p. rewrite Hnil. simpl. repeat split; auto. constructor.
Qed.

(** One like request never takes the counter of a post below
    [min(0, counter)]. *)
Lemma toggle_like_floor (d : DB) (s : Session) (q pid : Z) (p : Post.t) :
  Post_get d pid = Some p ->
  exists p', Post_get (snd (toggle_like d s q)) pid = Some p'
             /\ Z.min 0 (Post.likes_count p) <= Post.likes_count p'.
Proof.
  intros Hp.
  destruct (toggle_like_cases d s q)
    as [[-> _]|[(cu & post & l & Hcu & Hpost & Hl & ->)
               |(cu & post & Hcu & Hpost & Hl & ->)]]; cbn [snd].
  - exists p. split; [exact Hp|lia].
  - destruct (Z.eq_dec q pid) as [->|Hne].
    + eexists. split; [now apply (Post_get_recount d)|]. cbn. lia.
    + exists p. rewrite Post_get_update_other; [split; [exact Hp|lia]|].
      cbn. rewrite (Post_get_id _ _ _ Hpost). congruence.
  - destruct (Z.eq_dec q pid) as [->|Hne].
    + eexists. split; [now apply (Post_get_recount d)|].
      assert (p = post) as -> by congruence. cbn. lia.
    + exists p. rewrite Post_get_update_other; [split; [exact Hp|lia]|].
      cbn. rewrite (Post_get_id _ _ _ Hpost). congruence.
Qed.

Lemma run_toggles_floor (ops : list (Session * Z)) (d : DB) (pid : Z)
    (p : Post.t) :
  Post_get d pid = Some p ->
  exists p', Post_get (run_toggles ops d) pid = Some p'
             /\ Z.min 0 (Post.likes_count p) <= Post.likes_count p'.
Proof.
  revert d p. induction ops as [|[s q] ops IH]; intros d p Hp; cbn [run_toggles fold_left].
  - exists p. split; [exact Hp|lia].
  - destruct (toggle_like_floor d s q pid p Hp) as (p1 & Hp1 & Hle1).
    destruct (IH _ p1 Hp1) as (p2 & Hp2 & Hle2).
    exists p2. split; [exact Hp2|]. cbn [fst snd]. lia.
Qed.

(** C3. Whatever the like requests and whatever the Like set holds, the
    counter of a post never drops below [min(0, counter)]: a counter that is
    not negative stays so, and a negative stored value (which no handler
    writes) is never lowered. The removal branch leaves the counter at 0 or
    above from any stored value at all, since it clamps with [max(..., 0)]. *)
Theorem like_count_never_negative (d : DB) (pid : Z) (p : Post.t) :
  Post_get d pid = Some p ->
  (forall ops, exists p',
     Post_get (run_toggles ops d) pid = Some p'
     /\ Z.min 0 (Post.likes_count p) <= Post.likes_count p'
     /\ (0 <= Post.likes_count p -> 0 <= Post.likes_count p'))
  /\ (forall s cu l,
        current_user d s = Some cu ->
        Like_first d (User.id cu) pid = Some l ->
        exists p',
          Post_get (snd (toggle_like d s pid)) pid = Some p'
          /\ Post.likes_count p'
             = Z.max (py_or (Post.likes_count p) 1 - 1) 0
          /\ 0 <= Post.likes_count p').
Proof.
  intros Hp. split.
  - intros ops. destruct (run_toggles_floor ops d pid p Hp) as (p' & Hp' & Hle).
    exists p'. split; [exact Hp'|]. split; [exact Hle|lia].
  - intros s cu l Hcu Hl. unfold toggle_like.
    rewrite Hcu, Hp, (Post_get_id _ _ _ Hp), Hl. cbn [snd].
    eexists. split; [now apply (Post_get_recount d)|]. cbn. split; lia.
Qed.

Lemma toggle_like_add (d : DB) (s : Session) (q : Z) (cu : User.t) (post : Post.t) :
  current_user d s = Some cu -> Post_get d q = Some post ->
  Like_first d (User.id cu) q = None ->
  toggle_like d s q
  = (mkOutcome (Redirect (url_post_detail q)) [(py "Post liked!", success)],
     Post_update
       (mkDB (users d) (posts d) (comments d)
          (likes d ++ [Like.mk (next_id (map Like.id (likes d))) (User.id cu) q]))
       (Post.set_likes_count post (Post.likes_count post + 1))).
Proof.
  intros Hcu Hpost Hl. unfold toggle_like.
  rewrite Hcu, Hpost, (Post_get_id _ _ _ Hpost), Hl.
  now rewrite (Like_insert_after_lookup _ _ _ Hl), py_or_0.
Qed.

Lemma toggle_like_remove (d : DB) (s : Session) (q : Z) (cu : User.t)
    (post : Post.t) (l : Like.t) :
  current_user d s = Some cu -> Post_get d q = Some post ->
  Like_first d (User.id cu) q = Some l ->
  toggle_like d s q
  = (mkOutcome (Redirect (url_post_detail q)) [(py "Like removed.", info)],
     Post_update (Like_delete d l)
       (Post.set_likes_count post
          (Z.max (py_or (Post.likes_count post) 1 - 1) 0))).
Proof.
  intros Hcu Hpost Hl. unfold toggle_like.
  now rewrite Hcu, Hpost, (Post_get_id _ _ _ Hpost), Hl.
Qed.

Lemma set_likes_count_same (p : Post.t) :
  Post.set_likes_count p (Post.likes_count p) = p.
Proof. now destruct p. Qed.

Lemma find_none_intro {A} (f : A -> bool) (l : list A) :
  (forall x, In x l -> f x = false) -> find f l = None.
Proof.
  induction l as [|a l IH]; simpl; intros H; [reflexivity|].
  rewrite (H a) by auto. apply IH. auto.
Qed.

Lemma Like_first_added (d d' : DB) (n uid pid : Z) :
  Like_first d uid pid = None ->
  likes d' = likes d ++ [Like.mk n uid pid] ->
  Like_first d' uid pid = Some (Like.mk n uid pid).
Proof.
  unfold Like_first. intros H E. rewrite E, find_app_none by exact H.
  simpl. now rewrite !Z.eqb_refl.
Qed.

Lemma post_detail_liked_spec (d : DB) (s : Session) (q : Z)
    (cu : User.t) (post : Post.t) :
  current_user d s = Some cu -> Post_get d q = Some post ->
  post_detail_liked d s q
  = Some (match Like_first d (User.id cu) q with Some _ => true | None => false end).
Proof.
  intros Hcu Hpost. unfold post_detail_liked.
  rewrite Hcu, Hpost, (Post_get_id _ _ _ Hpost).
  now destruct (Like_first d (User.id cu) q).
Qed.

(** Liking and then unliking puts the whole database back. *)
Lemma toggle_twice_from_unliked (d : DB) (s : Session) (q : Z)
    (cu : User.t) (post : Post.t) :
  post_keys_unique d ->
  current_user d s = Some cu -> Post_get d q = Some post ->
  Like_first d (User.id cu) q = None -> 0 <= Post.likes_count post ->
  toggle_like (snd (toggle_like d s q)) s q
  = (mkOutcome (Redirect (url_post_detail q)) [(py "Like removed.", info)], d).
Proof.
  intros Hpk Hcu Hpost Hl Hge.
  rewrite (toggle_like_add d s q cu post Hcu Hpost Hl). cbn [snd].
  set (new := Like.mk (next_id (map Like.id (likes d))) (User.id cu) q).
  set (d1 := Post_update _ _).
  assert (Hcu1 : current_user d1 s = Some cu) by exact Hcu.
  assert (Hpost1 : Post_get d1 q
                   = Some (Post.set_likes_count post (Post.likes_count post + 1))).
  { now apply (Post_get_recount d). }
  assert (Hl1 : Like_first d1 (User.id cu) q = Some new).
  { now apply (Like_first_added d). }
  rewrite (toggle_like_remove d1 s q cu _ new Hcu1 Hpost1 Hl1).
  f_equal.
  replace (Z.max (py_or (Post.likes_count
             (Post.set_likes_count post (Post.likes_count post + 1))) 1 - 1) 0)
    with (Post.likes_count post)
    by (cbn [Post.likes_count Post.set_likes_count];
        rewrite py_or_1_pos by lia; lia).
  replace (Post.set_likes_count
             (Post.set_likes_count post (Post.likes_count post + 1))
             (Post.likes_count post))
    with post by now destruct post.
  pose proof (Post_get_In _ _ _ Hpost) as Hin.
  subst d1 new. unfold Post_update, Like_delete. cbn.
  destruct d as [us ps cs ls]. cbn in *. f_equal.
  - rewrite map_map.
    rewrite <- (update_same_row Post.id ps post Hpk Hin) at 2.
    apply map_ext. intros r.
    destruct (Post.id r =? Post.id post) eqn:E.
    + cbn. now rewrite Z.eqb_refl.
    + now rewrite E.
  - apply (filter_fresh_row Like.id ls
             (Like.mk (next_id (map Like.id ls)) (User.id cu) q)).
    apply (next_id_fresh Like.id).
Qed.

Lemma toggle_n_add (a b : nat) (d : DB) (s : Session) (q : Z) :
  toggle_n (a + b) d s q = toggle_n b (toggle_n a d s q) s q.
Proof. revert d. induction a as [|a IH]; intros d; simpl; auto. Qed.

Lemma toggle_n_even_from_unliked (n : nat) (d : DB) (s : Session) (q : Z)
    (cu : User.t) (post : Post.t) :
  post_keys_unique d ->
  current_user d s = Some cu -> Post_get d q = Some post ->
  Like_first d (User.id cu) q = None -> 0 <= Post.likes_count post ->
  toggle_n (2 * n) d s q = d.
Proof.
  intros Hpk Hcu Hpost Hl Hge. induction n as [|n IH]; [reflexivity|].
  replace (2 * S n)%nat with (S (S (2 * n))) by lia. cbn [toggle_n].
  rewrite (toggle_twice_from_unliked d s q cu post Hpk Hcu Hpost Hl Hge).
  exact IH.
Qed.

(** Unliking and then liking again leaves the counter and the member's Like
    as they were, under a new row. *)
Lemma toggle_twice_from_liked (d : DB) (s : Session) (q : Z)
    (cu : User.t) (post : Post.t) (l : Like.t) :
  current_user d s = Some cu -> Post_get d q = Some post ->
  Like_first d (User.id cu) q = Some l ->
  NoDup (map Like.user_id (likes_of d q)) -> 1 <= Post.likes_count post ->
  flashed (fst (toggle_like (snd (toggle_like d s q)) s q))
  = [(py "Post liked!", success)]
  /\ post_detail_liked (snd (toggle_like (snd (toggle_like d s q)) s q)) s q
     = Some true
  /\ exists p',
       Post_get (snd (toggle_like (snd (toggle_like d s q)) s q)) q = Some p'
       /\ Post.likes_count p' = Post.likes_count post.
Proof.
  intros Hcu Hpost Hl Hnd Hge.
  rewrite (toggle_like_remove d s q cu post l Hcu Hpost Hl). cbn [snd].
  set (d1 := Post_update _ _).
  assert (Hcu1 : current_user d1 s = Some cu) by exact Hcu.
  assert (Hpost1 : Post_get d1 q
                   = Some (Post.set_likes_count post
                             (Z.max (py_or (Post.likes_count post) 1 - 1) 0))).
  { now apply (Post_get_recount d). }
  assert (Hl1 : Like_first d1 (User.id cu) q = None).
  { unfold Like_first, d1. cbn [likes Post_update Like_delete].
    apply find_none_intro.
    intros r Hr. apply filter_In in Hr as [Hr Hne].
    apply negb_true_iff, Z.eqb_neq in Hne.
    destruct ((Like.user_id r =? User.id cu) && (Like.post_id r =? q)) eqn:E;
      [|reflexivity].
    apply andb_true_iff in E as [Eu Ep]. apply Z.eqb_eq in Eu, Ep.
    apply Like_first_spec in Hl as (Hin & Hu & Hq).
    exfalso. apply Hne. f_equal.
    apply (key_determines_row Like.user_id (likes_of d q)); auto.
    - apply filter_In. split; [assumption|now apply Z.eqb_eq].
    - apply filter_In. split; [assumption|now apply Z.eqb_eq].
    - congruence. }
  rewrite (toggle_like_add d1 s q cu _ Hcu1 Hpost1 Hl1). cbn [fst snd flashed].
  set (d2 := Post_update _ _).
  assert (Hcu2 : current_user d2 s = Some cu) by exact Hcu.
  assert (Hpost2 : Post_get d2 q
            = Some (Post.set_likes_count
                      (Post.set_likes_count post
                         (Z.max (py_or (Post.likes_count post) 1 - 1) 0))
                      (Post.likes_count
                         (Post.set_likes_count post
                            (Z.max (py_or (Post.likes_count post) 1 - 1) 0)) + 1))).
  { now apply (Post_get_recount d1). }
  split; [reflexivity|]. split.
  - rewrite (post_detail_liked_spec d2 s q cu _ Hcu2 Hpost2).
    now rewrite (Like_first_added d1 d2 _ _ _ Hl1 eq_refl).
  - eexists. split; [exact Hpost2|].
    cbn [Post.likes_count Post.set_likes_count].
    rewrite py_or_1_pos by lia. lia.
Qed.

(** C2 (amended). Two like requests in a row by one member on one post put
    things back: from a state where the member has no Like on the post and the
    counter is not negative, the database is exactly as before and the second
    request reports the removal ([liked = false]); an odd number of requests
    from counter 0 leaves the counter at 1 with the member's Like present.
    From a state where the member already has a Like (the only one of the
    pair, counter at least 1), the counter and the Like are back as well, but
    the second request reports a like ([liked = true]). *)
Theorem toggle_like_twice (d : DB) (s : Session) (q : Z)
    (cu : User.t) (post : Post.t) :
  post_keys_unique d ->
  current_user d s = Some cu ->
  Post_get d q = Some post ->
  (Like_first d (User.id cu) q = None -> 0 <= Post.likes_count post ->
     toggle_like (snd (toggle_like d s q)) s q
     = (mkOutcome (Redirect (url_post_detail q)) [(py "Like removed.", info)], d)
     /\ post_detail_liked (snd (toggle_like (snd (toggle_like d s q)) s q)) s q
        = Some false
     /\ (Post.likes_count post = 0 ->
         forall n, exists p',
           Post_get (toggle_n (2 * n + 1) d s q) q = Some p'
           /\ Post.likes_count p' = 1
           /\ post_detail_liked (toggle_n (2 * n + 1) d s q) s q = Some true))
  /\ (forall l,
        Like_first d (User.id cu) q = Some l ->
        NoDup (map Like.user_id (likes_of d q)) ->
        1 <= Post.likes_count post ->
        flashed (fst (toggle_like (snd (toggle_like d s q)) s q))
        = [(py "Post liked!", success)]
        /\ post_detail_liked (snd (toggle_like (snd (toggle_like d s q)) s q)) s q
           = Some true
        /\ exists p',
             Post_get (snd (toggle_like (snd (toggle_like d s q)) s q)) q
             = Some p'
             /\ Post.likes_count p' = Post.likes_count post).
Proof.
  intros Hpk Hcu Hpost. split.
  - intros Hl Hge.
    rewrite (toggle_twice_from_unliked d s q cu post Hpk Hcu Hpost Hl Hge).
    split; [reflexivity|]. split.
    + cbn [snd]. rewrite (post_detail_liked_spec d s q cu post Hcu Hpost).
      now rewrite Hl.
    + intros H0 n. rewrite toggle_n_add.
      rewrite (toggle_n_even_from_unliked n d s q cu post Hpk Hcu Hpost Hl Hge).
      cbn [toggle_n].
      rewrite (toggle_like_add d s q cu post Hcu Hpost Hl). cbn [snd].
      set (d1 := Post_update _ _).
      assert (Hcu1 : current_user d1 s = Some cu) by exact Hcu.
      assert (Hpost1 : Post_get d1 q
                = Some (Post.set_likes_count post (Post.likes_count post + 1))).
      { now apply (Post_get_recount d). }
      exists (Post.set_likes_count post (Post.likes_count post + 1)).
      split; [exact Hpost1|]. split; [cbn; lia|].
      rewrite (post_detail_liked_spec d1 s q cu _ Hcu1 Hpost1).
      now rewrite (Like_first_added d d1 _ _ _ Hl eq_refl).
  - intros l Hl Hnd Hge. now apply (toggle_twice_from_liked d s q cu post l).
Qed.

(* ================================================================== *)
(** * Strings *)
(* ================================================================== *)

Lemma str_eqb_eq (a b : pystr) : str_eqb a b = true <-> a = b.
Proof.
  revert b. induction a as [|x a IH]; intros [|y b]; simpl;
    try (split; [discriminate|congruence]); [tauto|].
  rewrite andb_true_iff, N.eqb_eq, IH. split; [intros [-> ->]|intros [= -> ->]]; auto.
Qed.

Lemma str_eqb_refl (a : pystr) : str_eqb a a = true.
Proof. now apply str_eqb_eq. Qed.

Lemma lstrip_head (s : pystr) :
  lstrip s = [] \/ exists c t, lstrip s = c :: t /\ isspace c = false.
Proof.
  induction s as [|c s IH]; simpl; [auto|].
  destruct (isspace c) eqn:E; [exact IH|]. right. eauto.
Qed.

Lemma lstrip_cons (c : N) (t : pystr) :
  isspace c = false -> lstrip (c :: t) = c :: t.
Proof. intros E. simpl. now rewrite E. Qed.

Lemma lstrip_snoc (l : pystr) (c : N) :
  isspace c = false -> exists l', lstrip (l ++ [c]) = l' ++ [c].
Proof.
  intros E. induction l as [|a l IH]; simpl.
  - rewrite E. now exists [].
  - destruct (isspace a); [exact IH|]. now exists (a :: l).
Qed.

Lemma rstrip_cons (c : N) (t : pystr) :
  isspace c = false -> exists t', rstrip (c :: t) = c :: t'.
Proof.
  intros E. unfold rstrip. simpl.
  destruct (lstrip_snoc (rev t) c E) as [l' ->].
  rewrite rev_app_distr. simpl. eauto.
Qed.

Lemma rstrip_snoc (l : pystr) (c : N) :
  isspace c = false -> rstrip (l ++ [c]) = l ++ [c].
Proof.
  intros E. unfold rstrip. rewrite rev_app_distr. simpl. rewrite E.
  simpl. now rewrite rev_involutive.
Qed.

Lemma strip_head (s : pystr) :
  strip s = [] \/ exists c t, strip s = c :: t /\ isspace c = false.
Proof.
  unfold strip. destruct (lstrip_head s) as [->|(c & t & -> & E)]; [now left|].
  right. destruct (rstrip_cons c t E) as [t' ->]. eauto.
Qed.

Lemma rstrip_idem (s : pystr) : rstrip (rstrip s) = rstrip s.
Proof.
  unfold rstrip. rewrite rev_involutive. f_equal.
  destruct (lstrip_head (rev s)) as [->|(c & t & -> & E)]; [reflexivity|].
  now apply lstrip_cons.
Qed.

(** What [strip] returns is already stripped. *)
Lemma strip_idem (s : pystr) : strip (strip s) = strip s.
Proof.
  destruct (strip_head s) as [->|(c & t & H & E)]; [reflexivity|].
  unfold strip at 1. rewrite H, (lstrip_cons c t E), <- H.
  unfold strip. apply rstrip_idem.
Qed.

Lemma lstrip_nil_iff (s : pystr) : lstrip s = [] <-> forallb isspace s = true.
Proof.
  induction s as [|c s IH]; simpl; [tauto|].
  destruct (isspace c); simpl; [exact IH|]. split; discriminate.
Qed.

Lemma strip_nil_iff (s : pystr) : strip s = [] <-> forallb isspace s = true.
Proof.
  rewrite <- lstrip_nil_iff. unfold strip. split.
  - intros H. destruct (lstrip_head s) as [E|(c & t & E & Hc)]; [exact E|].
    rewrite E in H. destruct (rstrip_cons c t Hc) as [t' Ht].
    rewrite Ht in H. discriminate.
  - intros ->. reflexivity.
Qed.

Lemma DataRequired_strip_filter (raw : option pystr) :
  DataRequired (strip_filter raw) = negb (forallb isspace (data_str raw)).
Proof.
  destruct raw as [[|c t]|]; simpl; try reflexivity.
  rewrite strip_idem. destruct (strip (c :: t)) eqn:E; simpl.
  - apply strip_nil_iff in E. simpl in E. now rewrite E.
  - destruct (isspace c && forallb isspace t) eqn:F; [|reflexivity].
    apply (strip_nil_iff (c :: t)) in F. congruence.
Qed.

Lemma strip_firstn_nonempty (n : nat) (c : N) (t : pystr) :
  isspace c = false -> nonempty (strip (firstn (S n) (c :: t))) = true.
Proof.
  intros E. unfold strip. cbn [firstn]. rewrite (lstrip_cons _ _ E).
  now destruct (rstrip_cons c (firstn n t) E) as [t' ->].
Qed.

Lemma firstn_succ_snoc {A} (n : nat) (l : list A) (x : A) :
  (n < length l)%nat -> firstn (S n) l = firstn n l ++ [nth n l x].
Proof.
  revert l. induction n as [|n IH]; intros [|a l] Hlen; simpl in *; try lia.
  - reflexivity.
  - f_equal. apply IH. lia.
Qed.

(** A slice whose first and last characters are not blank is its own
    [strip]. *)
Lemma strip_firstn_exact (n : nat) (s : pystr) :
  (n < length s)%nat ->
  isspace (nth 0 s 0%N) = false -> isspace (nth n s 0%N) = false ->
  strip (firstn (S n) s) = firstn (S n) s.
Proof.
  intros Hlen H0 Hn. unfold strip.
  destruct s as [|c t]; [simpl in Hlen; lia|]. simpl in H0.
  cbn [firstn]. rewrite (lstrip_cons _ _ H0).
  change (c :: firstn n t) with (firstn (S n) (c :: t)).
  rewrite (firstn_succ_snoc n (c :: t) 0%N Hlen).
  now apply rstrip_snoc.
Qed.

(* ================================================================== *)
(** * Post titles *)
(* ================================================================== *)

(** The content of a form that validated: a stripped, non-empty string. *)
Lemma PostForm_valid_content (f : PostForm) :
  PostForm_validate f = true ->
  exists c t,
    PostForm_content_data f = Some (c :: t)
    /\ isspace c = false /\ strip (c :: t) = c :: t.
Proof.
  unfold PostForm_validate, PostForm_content_data, strip_filter.
  intros H. apply andb_true_iff in H as [H _].
  apply andb_true_iff in H as [_ H].
  destruct (post_content f) as [[|c0 s0]|]; simpl in H; try discriminate.
  destruct (strip_head (c0 :: s0)) as [E|(c & t & E & Hc)].
  - rewrite E in H. discriminate.
  - exists c, t. rewrite <- E. rewrite strip_idem. auto.
Qed.

Lemma new_post_title_derived (title_data : option pystr) (c : N) (t : pystr) :
  title_data = None \/ title_data = Some [] ->
  isspace c = false ->
  new_post_title title_data (Some (c :: t))
  = strip (firstn 80 (c :: t))
    ++ (if Nat.ltb 80 (length (c :: t)) then ellipsis else []).
Proof.
  intros Ht Hc. unfold new_post_title.
  assert (strip (or_empty title_data) = []) as -> by (destruct Ht as [->| ->]; reflexivity).
  cbn [nonempty or_empty].
  pose proof (strip_firstn_nonempty 79 c t Hc) as Hne.
  destruct (Nat.ltb 80 (length (c :: t))).
  - destruct (strip (firstn 80 (c :: t))); [discriminate|reflexivity].
  - rewrite Hne. now rewrite app_nil_r.
Qed.

(** C4. A post created with the title absent, empty or blank is stored with
    the submitted content, stripped, and with a title that is the first 80
    characters of that content, stripped, followed by the ellipsis exactly
    when the content has more than 80 characters: content of length 100
    gives the stripped first 80 characters and the ellipsis (the first 80
    characters themselves when the 80th is not blank), content of at most 80
    characters, so of length 50, gives the whole content. The content of a
    post that is created is never empty and neither is its title: a request
    whose content is empty or blank stores nothing, and ["Untitled"] is what
    the title expression gives for empty content. *)
Theorem new_post_title_from_content `{Werkzeug}
    (d : DB) (s : Session) (r : Submission PostForm) (cu : User.t) :
  current_user d s = Some cu ->
  validate_on_submit PostForm_validate r = true ->
  forallb isspace (data_str (post_title (form r))) = true ->
  let content := strip (data_str (post_content (form r))) in
  let title :=
    strip (firstn 80 content)
    ++ (if Nat.ltb 80 (length content) then ellipsis else []) in
  let post :=
    Post.mk (next_id (map Post.id (posts d))) title (Some content)
            (stored_upload (post_image (form r)))
            (stored_upload (post_video (form r))) (User.id cu) 0 in
  new_post d s r
  = (mkOutcome (Redirect (url_post_detail (Post.id post)))
               [(py "Post published to CS Community.", success)],
     mkDB (users d) (posts d ++ [post]) (comments d) (likes d))
  /\ content <> []
  /\ title <> []
  /\ (length content = 100%nat ->
      title = strip (firstn 80 content) ++ ellipsis
      /\ (isspace (nth 79 content 0%N) = false ->
          title = firstn 80 content ++ ellipsis))
  /\ ((length content <= 80)%nat -> title = content)
  /\ (length content = 50%nat -> title = content)
  /\ (forall r0 : Submission PostForm,
        forallb isspace (data_str (post_content (form r0))) = true ->
        snd (new_post d s r0) = d)
  /\ new_post_title (PostForm_title_data (form r)) None = py "Untitled"
  /\ new_post_title (PostForm_title_data (form r)) (Some []) = py "Untitled".
Proof.
  intros Hcu Hv Hblank content title post.
  assert (Hf : PostForm_validate (form r) = true).
  { unfold validate_on_submit in Hv. now apply andb_true_iff in Hv as [_ Hv]. }
  destruct (PostForm_valid_content _ Hf) as (c & t & Hc & Hsp & Hstrip).
  assert (Econtent : content = c :: t).
  { unfold content. unfold PostForm_content_data in Hc.
    destruct (post_content (form r)) as [[|a u]|]; simpl in Hc |- *;
      congruence. }
  assert (Ht : PostForm_title_data (form r) = None
               \/ PostForm_title_data (form r) = Some []).
  { unfold PostForm_title_data.
    destruct (post_title (form r)) as [[|a u]|]; cbn [strip_filter]; auto.
    right. f_equal. now apply strip_nil_iff. }
  pose proof (new_post_title_derived _ c t Ht Hsp) as Htitle.
  fold title in Htitle. rewrite <- Econtent in Htitle. fold title in Htitle.
  assert (Hshort : (length content <= 80)%nat -> title = content).
  { intros Hle. unfold title.
    replace (Nat.ltb 80 (length content)) with false
      by (symmetry; apply Nat.ltb_ge; exact Hle).
    rewrite app_nil_r, firstn_all2 by exact Hle.
    rewrite Econtent. exact Hstrip. }
  split.
  { unfold new_post. rewrite Hcu, Hv, Hc. cbn [Post_insert or_empty].
    rewrite <- Econtent, Htitle. reflexivity. }
  split; [rewrite Econtent; discriminate|].
  split.
  { unfold title. rewrite Econtent.
    pose proof (strip_firstn_nonempty 79 c t Hsp) as Hne.
    destruct (strip (firstn 80 (c :: t))); [discriminate|discriminate]. }
  split; [|split; [exact Hshort|split; [|split]]].
  - intros Hlen. unfold title. rewrite Hlen. split; [reflexivity|].
    intros H80. cbn [Nat.ltb Nat.leb]. f_equal.
    apply (strip_firstn_exact 79); [lia| |exact H80].
    rewrite Econtent. exact Hsp.
  - intros Hlen. apply Hshort. lia.
  - intros r0 Hempty. unfold new_post. rewrite Hcu.
    replace (validate_on_submit PostForm_validate r0) with false;
      [reflexivity|].
    symmetry. unfold validate_on_submit, PostForm_validate,
      PostForm_content_data.
    rewrite DataRequired_strip_filter, Hempty. cbn [negb].
    now rewrite !andb_false_r.
  - destruct Ht as [->| ->]; split; reflexivity.
Qed.

(* ================================================================== *)
(** * Registration and login *)
(* ================================================================== *)

Lemma find_some_intro {A} (f : A -> bool) (l : list A) (x : A) :
  In x l -> f x = true -> exists y, find f l = Some y.
Proof.
  induction l as [|a l IH]; simpl; [tauto|].
  intros Hin Hf. destruct (f a) eqn:E; [eauto|].
  destruct Hin as [->|Hin]; [congruence|auto].
Qed.

Lemma register_rejects_duplicate `{Werkzeug} `{Runtime}
    (d : DB) (s : Session) (r : Submission RegistrationForm)
    (rnd : RegisterDraws) (existing : User.t) :
  current_user d s = None ->
  validate_on_submit RegistrationForm_validate r = true ->
  In existing (users d) ->
  User.username existing = data_str (strip_filter (reg_username (form r)))
  \/ User.email existing = data_str (strip_filter (reg_email (form r))) ->
  register d s r rnd = (mkOutcome (Render (register_html (form r)))
       [(py "Username or email already registered.", warning)], d).
Proof.
  intros Hanon Hv Hin Hdup. unfold register. rewrite Hanon, Hv.
  destruct (find_some_intro
              (fun u => str_eqb (User.username u)
                          (data_str (strip_filter (reg_username (form r))))
                        || str_eqb (User.email u)
                             (data_str (strip_filter (reg_email (form r)))))
              (users d) existing Hin) as [y Hy].
  { apply orb_true_iff. destruct Hdup as [->| ->]; [left|right];
      apply str_eqb_refl. }
  unfold User_by_username_or_email. now rewrite Hy.
Qed.

(** A registration that meets no taken username or email stores the new
    member with the submitted username and email, and sends to the login
    page. *)
Lemma register_accepts_new `{Werkzeug} `{Runtime}
    (d : DB) (s : Session) (r : Submission RegistrationForm)
    (rnd : RegisterDraws) :
  current_user d s = None ->
  validate_on_submit RegistrationForm_validate r = true ->
  User_by_username_or_email d
    (data_str (strip_filter (reg_username (form r))))
    (data_str (strip_filter (reg_email (form r)))) = None ->
  exists u,
    register d s r rnd
    = (mkOutcome (Redirect url_login)
         [(py "Welcome to CS Community! Your account is ready.", success)],
       mkDB (users d ++ [u]) (posts d) (comments d) (likes d))
    /\ User.username u = data_str (strip_filter (reg_username (form r)))
    /\ User.email u = data_str (strip_filter (reg_email (form r))).
Proof.
  intros Hanon Hv Hnone. unfold register. rewrite Hanon, Hv, Hnone.
  unfold User_insert. cbn [User.username User.email].
  unfold User_by_username_or_email in Hnone.
  rewrite (find_none_existsb _ _ Hnone).
  eexists. split; [reflexivity|]. split; reflexivity.
Qed.

(** C8. A valid registration by an anonymous client fails with the one
    message "Username or email already registered." whenever some member
    already has the requested username or the requested email, whichever it
    is, and leaves the database as it was; so after a first registration went
    through, a second one with the same email or the same username fails that
    way and adds no member. *)
Theorem register_duplicate_identity `{Werkzeug} `{Runtime}
    (d : DB) (s : Session) (r : Submission RegistrationForm)
    (rnd : RegisterDraws) :
  session_user_id s = None ->
  validate_on_submit RegistrationForm_validate r = true ->
  (forall existing,
     In existing (users d) ->
     User.username existing = data_str (strip_filter (reg_username (form r)))
     \/ User.email existing = data_str (strip_filter (reg_email (form r))) ->
     register d s r rnd = (mkOutcome (Render (register_html (form r)))
       [(py "Username or email already registered.", warning)], d))
  /\ (forall r0 rnd0,
        validate_on_submit RegistrationForm_validate r0 = true ->
        response (fst (register d s r0 rnd0)) = Redirect url_login ->
        strip_filter (reg_email (form r)) = strip_filter (reg_email (form r0))
        \/ strip_filter (reg_username (form r))
           = strip_filter (reg_username (form r0)) ->
        register (snd (register d s r0 rnd0)) s r rnd
        = (mkOutcome (Render (register_html (form r)))
       [(py "Username or email already registered.", warning)], snd (register d s r0 rnd0))).
Proof.
  intros Hs Hv.
  assert (Hanon : forall d0, current_user d0 s = None).
  { intros d0. unfold current_user. now rewrite Hs. }
  split.
  - intros existing Hin Hdup.
    now apply (register_rejects_duplicate d s r rnd existing).
  - intros r0 rnd0 Hv0 Hok Hsame.
    destruct (User_by_username_or_email d
                (data_str (strip_filter (reg_username (form r0))))
                (data_str (strip_filter (reg_email (form r0))))) eqn:Hfree.
    { exfalso. revert Hok. unfold register.
      rewrite (Hanon d), Hv0, Hfree. discriminate. }
    destruct (register_accepts_new d s r0 rnd0 (Hanon d) Hv0 Hfree)
      as (u & -> & Hu & He).
    cbn [snd].
    apply (register_rejects_duplicate _ s r rnd u (Hanon _) Hv).
    + cbn [users]. apply in_or_app. right. now left.
    + destruct Hsame as [E|E]; [right|left]; rewrite E; auto.
Qed.

(** C10. A login with an email that no member has and a login with a
    member's email and a wrong password end the same way: each returns the
    "Incorrect email or password." page built from the submitted form alone,
    logs nobody in and leaves the database as it was; for the same submitted
    form the two outcomes are equal. *)
Theorem login_failures_indistinguishable `{Werkzeug}
    (d1 d2 : DB) (s1 s2 : Session) (r1 r2 : Submission LoginForm)
    (next1 next2 : option pystr) (member : User.t) :
  current_user d1 s1 = None ->
  current_user d2 s2 = None ->
  validate_on_submit LoginForm_validate r1 = true ->
  validate_on_submit LoginForm_validate r2 = true ->
  User_by_email d1 (data_str (LoginForm_email_data (form r1))) = None ->
  User_by_email d2 (data_str (LoginForm_email_data (form r2))) = Some member ->
  check_password member (data_str (login_password (form r2))) = false ->
  login d1 s1 r1 next1 = (mkOutcome (Render (login_html (form r1)))
       [(py "Incorrect email or password.", danger)], d1, s1)
  /\ login d2 s2 r2 next2 = (mkOutcome (Render (login_html (form r2)))
       [(py "Incorrect email or password.", danger)], d2, s2)
  /\ (form r1 = form r2 ->
      fst (fst (login d1 s1 r1 next1)) = fst (fst (login d2 s2 r2 next2))).
Proof.
  intros Ha1 Ha2 Hv1 Hv2 Hnone Hsome Hwrong.
  assert (E1 : login d1 s1 r1 next1 = (mkOutcome (Render (login_html (form r1)))
       [(py "Incorrect email or password.", danger)], d1, s1)).
  { unfold login. now rewrite Ha1, Hv1, Hnone. }
  assert (E2 : login d2 s2 r2 next2 = (mkOutcome (Render (login_html (form r2)))
       [(py "Incorrect email or password.", danger)], d2, s2)).
  { unfold login. now rewrite Ha2, Hv2, Hsome, Hwrong. }
  rewrite E1, E2. repeat split. cbn [fst]. now intros ->.
Qed.

(* ================================================================== *)
(** * Ownership of posts and comments *)
(* ================================================================== *)

Lemma Post_owner_check (post : Post.t) (cu : User.t) :
  Post.user_id post <> User.id cu ->
  negb (Post.user_id post =? User.id cu) = true.
Proof. intros H. now apply negb_true_iff, Z.eqb_neq. Qed.

Lemma Comment_owner_check (c : Comment.t) (cu : User.t) :
  Comment.user_id c <> User.id cu ->
  negb (Comment.user_id c =? User.id cu) = true.
Proof. intros H. now apply negb_true_iff, Z.eqb_neq. Qed.

(** C9. An edit or delete request on a post or a comment by a logged-in
    member who is not its author is aborted with 403 and the database is left
    exactly as it was; and whenever one of the four handlers changes the
    database, the requester is the author of the post or comment. *)
Theorem only_author_edits_or_deletes `{Werkzeug} (d : DB) (s : Session) :
  (forall cu pid post r,
     current_user d s = Some cu ->
     Post_get d pid = Some post ->
     Post.user_id post <> User.id cu ->
     edit_post d s pid r = (mkOutcome (Abort 403) [], d)
     /\ delete_post d s pid = (mkOutcome (Abort 403) [], d))
  /\ (forall cu cid comment r,
        current_user d s = Some cu ->
        Comment_get d cid = Some comment ->
        Comment.user_id comment <> User.id cu ->
        edit_comment d s cid r = (mkOutcome (Abort 403) [], d)
        /\ delete_comment d s cid = (mkOutcome (Abort 403) [], d))
  /\ (forall pid r,
        snd (edit_post d s pid r) <> d \/ snd (delete_post d s pid) <> d ->
        exists cu post,
          current_user d s = Some cu /\ Post_get d pid = Some post
          /\ Post.user_id post = User.id cu)
  /\ (forall cid r,
        snd (edit_comment d s cid r) <> d \/ snd (delete_comment d s cid) <> d ->
        exists cu comment,
          current_user d s = Some cu /\ Comment_get d cid = Some comment
          /\ Comment.user_id comment = User.id cu).
Proof.
  split; [|split; [|split]].
  - intros cu pid post r Hcu Hpost Hne.
    unfold edit_post, delete_post.
    now rewrite Hcu, Hpost, (Post_owner_check _ _ Hne).
  - intros cu cid comment r Hcu Hc Hne.
    unfold edit_comment, delete_comment.
    now rewrite Hcu, Hc, (Comment_owner_check _ _ Hne).
  - intros pid r. unfold edit_post, delete_post.
    destruct (current_user d s) as [cu|]; [|intros [[]|[]]; reflexivity].
    destruct (Post_get d pid) as [post|]; [|intros [[]|[]]; reflexivity].
    destruct (Post.user_id post =? User.id cu) eqn:E;
      [|intros [[]|[]]; reflexivity].
    intros _. apply Z.eqb_eq in E. eauto.
  - intros cid r. unfold edit_comment, delete_comment.
    destruct (current_user d s) as [cu|]; [|intros [[]|[]]; reflexivity].
    destruct (Comment_get d cid) as [comment|]; [|intros [[]|[]]; reflexivity].
    destruct (Comment.user_id comment =? User.id cu) eqn:E;
      [|intros [[]|[]]; reflexivity].
    intros _. apply Z.eqb_eq in E. eauto.
Qed.

Lemma find_filter_out {A} (key : A -> Z) (k : Z) (l : list A) :
  find (fun r => key r =? k) (filter (fun r => negb (key r =? k)) l) = None.
Proof.
  apply find_none_intro. intros r Hr. apply filter_In in Hr as [_ Hr].
  now apply negb_true_iff in Hr.
Qed.

Lemma find_filter_other {A} (key : A -> Z) (k q : Z) (l : list A) :
  q <> k ->
  find (fun r => key r =? q) (filter (fun r => negb (key r =? k)) l)
  = find (fun r => key r =? q) l.
Proof.
  intros Hne. induction l as [|a l IH]; simpl; [reflexivity|].
  destruct (key a =? k) eqn:Ek; simpl.
  - apply Z.eqb_eq in Ek.
    destruct (key a =? q) eqn:Eq; [apply Z.eqb_eq in Eq; congruence|exact IH].
  - destruct (key a =? q); [reflexivity|exact IH].
Qed.

(** X1. When its author deletes a post, the post, its comments and its likes
    are gone; the members, the other posts and the comments and likes of other
    posts stay as they were. *)
Theorem delete_post_cascades (d : DB) (s : Session) (pid : Z)
    (cu : User.t) (post : Post.t) :
  current_user d s = Some cu ->
  Post_get d pid = Some post ->
  Post.user_id post = User.id cu ->
  let d' := snd (delete_post d s pid) in
  fst (delete_post d s pid)
  = mkOutcome (Redirect url_home) [(py "Post deleted.", info)]
  /\ Post_get d' pid = None
  /\ (forall c, In c (comments d') <->
                In c (comments d) /\ Comment.post_id c <> pid)
  /\ (forall l, In l (likes d') <-> In l (likes d) /\ Like.post_id l <> pid)
  /\ (forall q, q <> pid -> Post_get d' q = Post_get d q)
  /\ users d' = users d.
Proof.
  intros Hcu Hpost Hown. unfold delete_post. rewrite Hcu, Hpost, Hown.
  rewrite Z.eqb_refl. cbn [negb fst snd].
  pose proof (Post_get_id _ _ _ Hpost) as Hid.
  unfold Post_delete, Post_get. cbn [posts comments likes users]. rewrite Hid.
  split; [reflexivity|]. split; [apply (find_filter_out Post.id)|].
  split; [|split; [|split; [|reflexivity]]].
  - intros c. rewrite filter_In, negb_true_iff, Z.eqb_neq. tauto.
  - intros l. rewrite filter_In, negb_true_iff, Z.eqb_neq. tauto.
  - intros q Hq. now apply (find_filter_other Post.id).
Qed.

(** A request that validates as a new post and has a title field is, for
    [edit_post], the submitted form itself. *)
Lemma PostForm_of_submitted (r : Submission PostForm) (p : Post.t) :
  validate_on_submit PostForm_validate r = true ->
  post_title (form r) <> None ->
  PostForm_of r p = form r
  /\ is_submitted r && extra_ok r && PostForm_validate_of (form r) (form r)
     = true.
Proof.
  intros Hv Ht. split; [|exact Hv].
  unfold validate_on_submit in Hv.
  apply andb_true_iff in Hv as [Hv Hf]. apply andb_true_iff in Hv as [Hsub _].
  destruct (PostForm_valid_content _ Hf) as (c & t & Hc & _).
  unfold PostForm_of. rewrite Hsub.
  unfold PostForm_content_data in Hc.
  destruct (form r) as [title content image video]. cbn in *.
  destruct title; [|now elim Ht]. destruct content; [reflexivity|discriminate].
Qed.

(** X2. When its author edits a post and uploads nothing, the stored image
    and video names stay; so do the author and the like counter. *)
Theorem edit_post_keeps_media `{Werkzeug} (d : DB) (s : Session) (pid : Z)
    (r : Submission PostForm) (cu : User.t) (post : Post.t) (title : pystr) :
  current_user d s = Some cu ->
  Post_get d pid = Some post ->
  Post.user_id post = User.id cu ->
  validate_on_submit PostForm_validate r = true ->
  PostForm_title_data (form r) = Some title ->
  uploaded (post_image (form r)) = false ->
  uploaded (post_video (form r)) = false ->
  exists post',
    Post_get (snd (edit_post d s pid r)) pid = Some post'
    /\ Post.title post' = title
    /\ Post.content post' = PostForm_content_data (form r)
    /\ Post.image_file post' = Post.image_file post
    /\ Post.video_file post' = Post.video_file post
    /\ Post.user_id post' = Post.user_id post
    /\ Post.likes_count post' = Post.likes_count post.
Proof.
  intros Hcu Hpost Hown Hv Ht Hi Hvid. unfold edit_post.
  rewrite Hcu, Hpost.
  replace (Post.user_id post =? User.id cu) with true
    by (symmetry; now apply Z.eqb_eq).
  cbn [negb].
  assert (Hraw : post_title (form r) <> None).
  { intros E. unfold PostForm_title_data in Ht. rewrite E in Ht. discriminate. }
  destruct (PostForm_of_submitted r post Hv Hraw) as [-> ->].
  rewrite Ht, Hi, Hvid. cbn [snd].
  pose proof (Post_get_id _ _ _ Hpost) as Hid.
  exists (Post.mk (Post.id post) title (PostForm_content_data (form r))
                  (Post.image_file post) (Post.video_file post)
                  (Post.user_id post) (Post.likes_count post)).
  split; [|cbn; repeat split].
  rewrite <- Hid.
  apply (Post_get_update_same d
           (Post.mk (Post.id post) title (PostForm_content_data (form r))
                    (Post.image_file post) (Post.video_file post)
                    (Post.user_id post) (Post.likes_count post)) post).
  cbn [Post.id]. now rewrite Hid.
Qed.

(* ================================================================== *)
(** * Google sign-in *)
(* ================================================================== *)

Lemma User_filter_by_google_id (d : DB) (g : pystr) :
  User_filter_by d "google_id" g = inl InvalidRequestError.
Proof. reflexivity. Qed.

Lemma User_filter_by_email (d : DB) (e : pystr) :
  User_filter_by d "email" e = inr (User_by_email d e).
Proof. reflexivity. Qed.

Lemma User_filter_by_username (d : DB) (n : pystr) :
  User_filter_by d "username" n = inr (User_by_username d n).
Proof. reflexivity. Qed.

(** C5 (the code at the failing input). Whatever the members stored, a
    callback whose token exchange and ID token check out and whose assertion
    carries a subject id and an email ends in the unhandled
    [InvalidRequestError] of the lookup by [google_id]: nobody is
    authenticated, no member is linked or created. *)
Theorem google_callback_lookup_raises `{OIDC} `{Runtime}
    (d : DB) (s : Session) (c : Callback) (token : Token) (info : UserInfo) :
  exchanged c = Some token ->
  parse_id_token token (oauth_nonce s) = Some info ->
  truthy (ui_sub info) = true ->
  nonempty (data_str (ui_email info)) = true ->
  google_callback d s c
  = (mkOutcome (Unhandled InvalidRequestError) [], d, s).
Proof.
  intros Hex Hparse Hsub Hemail. unfold google_callback.
  rewrite Hex, Hparse, Hsub, Hemail. reflexivity.
Qed.


Lemma length_py_user : length (py "user") = 4%nat.
Proof. reflexivity. Qed.

(** C7 (amended). The candidate username of the new-account path is the
    asserted display name with spaces replaced by underscores, lower-cased
    and cut to 40 characters, or ["user"] when that is empty. When no member
    has the candidate as username, [_unique_username] returns it unchanged;
    otherwise it returns the candidate followed by an underscore and the
    first 6 characters of one random hexadecimal draw, without looking up
    the result: the suffixed name is unique exactly when no member happens to
    have it. Either way the name has at most 47 characters. *)
Theorem unique_username_one_suffix `{Runtime}
    (d : DB) (name hex : pystr) :
  let base := base_username name in
  let candidate := if nonempty base then base else py "user" in
  base = firstn 40 (lower (replace_spaces name))
  /\ (User_by_username d candidate = None ->
      _unique_username d base hex = candidate
      /\ forall u, In u (users d) -> User.username u <> candidate)
  /\ (User_by_username d candidate <> None ->
      _unique_username d base hex = candidate ++ py "_" ++ firstn 6 hex
      /\ (User_by_username d (candidate ++ py "_" ++ firstn 6 hex) = None
          <-> forall u, In u (users d) ->
                User.username u <> _unique_username d base hex))
  /\ (length (_unique_username d base hex) <= 47)%nat.
Proof.
  intros base candidate.
  assert (Hcand : (length candidate <= 40)%nat).
  { unfold candidate, base, base_username.
    destruct (nonempty _); [apply firstn_le_length|rewrite length_py_user; lia]. }
  assert (Hfree : forall n, User_by_username d n = None <->
                    forall u, In u (users d) -> User.username u <> n).
  { intros n. unfold User_by_username. split.
    - intros Hnone u Hin Heq. apply (find_none _ _ Hnone) in Hin.
      rewrite Heq, str_eqb_refl in Hin. discriminate.
    - intros Hall. apply find_none_intro. intros u Hin.
      destruct (str_eqb (User.username u) n) eqn:E; [|reflexivity].
      apply str_eqb_eq in E. now apply Hall in Hin. }
  split; [reflexivity|]. unfold _unique_username. fold candidate.
  split; [|split].
  - intros Hnone. rewrite Hnone. split; [reflexivity|]. now apply Hfree.
  - intros Hsome. destruct (User_by_username d candidate); [|congruence].
    split; [reflexivity|]. apply Hfree.
  - destruct (User_by_username d candidate); [|lia].
    rewrite !length_app. pose proof (firstn_le_length 6 hex).
    change (length (py "_")) with 1%nat. lia.
Qed.

(* ================================================================== *)
(** * Ordering *)
(* ================================================================== *)

Section OrderBy.
Context {A : Type}.
Variable le : A -> A -> bool.

Lemma insert_by_perm (x : A) (l : list A) :
  Permutation (insert_by le x l) (x :: l).
Proof.
  induction l as [|y l IH]; simpl; [reflexivity|].
  destruct (le x y); [reflexivity|].
  rewrite IH. apply perm_swap.
Qed.

Lemma order_by_perm (l : list A) : Permutation (order_by le l) l.
Proof.
  induction l as [|x l IH]; simpl; [reflexivity|].
  rewrite insert_by_perm. now constructor.
Qed.

Lemma order_by_In (l : list A) (x : A) : In x (order_by le l) <-> In x l.
Proof.
  split; apply Permutation_in; [|symmetry]; apply order_by_perm.
Qed.

Hypothesis le_total : forall a b, le a b = true \/ le b a = true.
Hypothesis le_trans :
  forall a b c, le a b = true -> le b c = true -> le a c = true.

Lemma insert_by_sorted (x : A) (l : list A) :
  StronglySorted (fun a b => le a b = true) l ->
  StronglySorted (fun a b => le a b = true) (insert_by le x l).
Proof.
  induction 1 as [|y l Hs IH Hall]; simpl; [repeat constructor|].
  destruct (le x y) eqn:E.
  - constructor; [now constructor|]. constructor; [exact E|].
    eapply Forall_impl; [|exact Hall]. intros b Hb. eapply le_trans; eauto.
  - constructor; [exact IH|].
    eapply Permutation_Forall; [symmetry; apply insert_by_perm|].
    constructor; [|exact Hall].
    destruct (le_total x y) as [H|H]; [congruence|exact H].
Qed.

Lemma order_by_sorted (l : list A) :
  StronglySorted (fun a b => le a b = true) (order_by le l).
Proof.
  induction l as [|x l IH]; simpl; [constructor|].
  now apply insert_by_sorted.
Qed.
End OrderBy.

Lemma sum_perm (l1 l2 : list Z) :
  Permutation l1 l2 -> fold_right Z.add 0 l1 = fold_right Z.add 0 l2.
Proof. induction 1; simpl; lia. Qed.

(* ================================================================== *)
(** * Registration, login and logout together *)
(* ================================================================== *)

Lemma register_cases `{Werkzeug} `{Runtime}
    (d : DB) (s : Session) (r : Submission RegistrationForm)
    (rnd : RegisterDraws) :
  snd (register d s r rnd) = d
  /\ (forall e, response (fst (register d s r rnd)) <> Unhandled e)
  /\ response (fst (register d s r rnd)) <> Redirect url_login
  \/ exists u,
       register d s r rnd
       = (mkOutcome (Redirect url_login)
            [(py "Welcome to CS Community! Your account is ready.", success)],
          mkDB (users d ++ [u]) (posts d) (comments d) (likes d))
       /\ validate_on_submit RegistrationForm_validate r = true
       /\ User.id u = next_id (map User.id (users d))
       /\ User.username u = data_str (strip_filter (reg_username (form r)))
       /\ User.email u = data_str (strip_filter (reg_email (form r)))
       /\ User.password_hash u
          = generate_password_hash (data_str (reg_password (form r))) (salt rnd)
       /\ User_by_username_or_email d (User.username u) (User.email u) = None.
Proof.
  unfold register.
  destruct (current_user d s); [left; repeat split; discriminate|].
  destruct (validate_on_submit RegistrationForm_validate r) eqn:Hv;
    [|left; repeat split; discriminate].
  destruct (User_by_username_or_email d _ _) eqn:Hfree;
    [left; repeat split; discriminate|].
  unfold User_insert. cbn [User.username User.email].
  unfold User_by_username_or_email in Hfree.
  rewrite (find_none_existsb _ _ Hfree).
  right. eexists. split; [reflexivity|]. cbn. repeat split. exact Hfree.
Qed.

Lemma free_identity (d : DB) (n e : pystr) (u : User.t) :
  User_by_username_or_email d n e = None -> In u (users d) ->
  User.username u <> n /\ User.email u <> e.
Proof.
  unfold User_by_username_or_email. intros Hnone Hin.
  apply (find_none _ _ Hnone) in Hin. apply orb_false_iff in Hin as [Hn He].
  split; intros E; [rewrite E, str_eqb_refl in Hn|rewrite E, str_eqb_refl in He];
    discriminate.
Qed.

Lemma NoDup_snoc {B} (l : list B) (x : B) :
  NoDup l -> ~ In x l -> NoDup (l ++ [x]).
Proof.
  intros Hnd Hx. apply NoDup_app; [exact Hnd|repeat constructor; simpl; tauto|].
  intros a Ha [<-|[]]. contradiction.
Qed.

Lemma DataRequired_Length (lo hi : nat) (raw : option pystr) :
  DataRequired (strip_filter raw) = true ->
  Length lo (Some hi) (strip_filter raw) = true ->
  (lo <= length (data_str (strip_filter raw)) <= hi)%nat
  /\ strip (data_str (strip_filter raw)) = data_str (strip_filter raw)
  /\ data_str (strip_filter raw) <> [].
Proof.
  unfold strip_filter. destruct raw as [[|c t]|]; simpl; try discriminate.
  intros Hd Hl. unfold Length in Hl. apply andb_true_iff in Hl as [Hlo Hhi].
  apply Nat.leb_le in Hlo, Hhi. split; [lia|]. split; [apply strip_idem|].
  intros E. rewrite E in Hd. discriminate.
Qed.

(** X4. Registration keeps the primary keys, the usernames and the emails
    of the members distinct and never ends in an unhandled error; the
    members already stored are not touched, and a member it adds has a
    username of 3 to 50 characters and an email of at most 120, both without
    blanks around them, as the columns of [User] expect. *)
Theorem register_keeps_identities_unique `{Werkzeug} `{Runtime}
    (d : DB) (s : Session) (r : Submission RegistrationForm)
    (rnd : RegisterDraws) :
  identities_unique d ->
  identities_unique (snd (register d s r rnd))
  /\ (forall e, response (fst (register d s r rnd)) <> Unhandled e)
  /\ (users (snd (register d s r rnd)) = users d
      \/ exists u,
           users (snd (register d s r rnd)) = users d ++ [u]
           /\ (3 <= length (User.username u) <= 50)%nat
           /\ strip (User.username u) = User.username u
           /\ (1 <= length (User.email u) <= 120)%nat
           /\ strip (User.email u) = User.email u).
Proof.
  intros (Hid & Hname & Hmail).
  destruct (register_cases d s r rnd)
    as [(-> & Hex & _)|(u & E & Hv & Hi & Hu & He & _ & Hfree)].
  - split; [now repeat split|]. split; [exact Hex|now left].
  - rewrite E. cbn [fst snd response users]. split; [|split].
    + unfold identities_unique. cbn [users]. rewrite !map_app. cbn [map].
      repeat split; apply NoDup_snoc; auto.
      * rewrite Hi. apply (next_id_fresh User.id).
      * intros Hin. apply in_map_iff in Hin as (x & Hx & Hin).
        now apply (free_identity _ _ _ _ Hfree) in Hin as [Hin _].
      * intros Hin. apply in_map_iff in Hin as (x & Hx & Hin).
        now apply (free_identity _ _ _ _ Hfree) in Hin as [_ Hin].
    + discriminate.
    + right. exists u. split; [reflexivity|].
      unfold validate_on_submit in Hv. apply andb_true_iff in Hv as [_ Hv].
      unfold RegistrationForm_validate in Hv.
      repeat (apply andb_true_iff in Hv as [Hv ?]).
      destruct (DataRequired_Length 3 50 (reg_username (form r)))
        as (Hlen & Hstrip & _); [assumption..|].
      destruct (DataRequired_Length 0 120 (reg_email (form r)))
        as (Hlen' & Hstrip' & Hne); [assumption..|].
      rewrite Hu, He. repeat split; try tauto; try lia.
      destruct (data_str (strip_filter (reg_email (form r))));
        [congruence|simpl; lia].
Qed.

Lemma User_by_email_appended (d : DB) (u : User.t) :
  (forall x, In x (users d) -> User.email x <> User.email u) ->
  find (fun x => str_eqb (User.email x) (User.email u)) (users d ++ [u])
  = Some u.
Proof.
  intros Hfree. rewrite find_app_none.
  - simpl. now rewrite str_eqb_refl.
  - apply find_none_intro. intros x Hx.
    destruct (str_eqb (User.email x) (User.email u)) eqn:E; [|reflexivity].
    apply str_eqb_eq in E. now apply Hfree in Hx.
Qed.

(** X3. After a registration went through, a login with the registered
    email and password is accepted and the session is that of the new
    member, provided the password hash verifies the password it was made
    from. *)
Theorem register_then_login `{Werkzeug} `{Runtime}
    (d : DB) (s : Session) (r : Submission RegistrationForm)
    (rnd : RegisterDraws) (lr : Submission LoginForm) (next : option pystr) :
  session_user_id s = None ->
  response (fst (register d s r rnd)) = Redirect url_login ->
  check_password_hash
    (generate_password_hash (data_str (reg_password (form r))) (salt rnd))
    (data_str (reg_password (form r))) = true ->
  validate_on_submit LoginForm_validate lr = true ->
  LoginForm_email_data (form lr) = strip_filter (reg_email (form r)) ->
  login_password (form lr) = reg_password (form r) ->
  exists u,
    In u (users (snd (register d s r rnd)))
    /\ User.username u = data_str (strip_filter (reg_username (form r)))
    /\ login (snd (register d s r rnd)) s lr next
       = (mkOutcome (Redirect (if truthy next then url_next (data_str next)
                               else url_home))
            [(py "Welcome back, " ++ User.username u ++ py "!", success)],
          snd (register d s r rnd), mkSession (Some (User.id u)) (oauth_nonce s)).
Proof.
  intros Hs Hok Hhash Hv Hmail Hpw.
  destruct (register_cases d s r rnd)
    as [(_ & _ & Hno)|(u & E & _ & _ & Hu & He & Hh & Hfree)];
    [contradiction|].
  rewrite E. cbn [snd users]. exists u.
  split; [apply in_or_app; right; now left|]. split; [exact Hu|].
  unfold login, current_user. rewrite Hs, Hv, Hmail, <- He.
  unfold User_by_email. cbn [users].
  rewrite User_by_email_appended
    by (intros x Hx; now apply (free_identity _ _ _ _ Hfree) in Hx).
  unfold check_password. now rewrite Hh, Hpw, Hhash.
Qed.

Lemma User_get_unique (d : DB) (u : User.t) :
  NoDup (map User.id (users d)) -> In u (users d) ->
  User_get d (User.id u) = Some u.
Proof.
  intros Hnd Hin. unfold User_get.
  destruct (find_some_intro (fun x => User.id x =? User.id u) (users d) u Hin
              (Z.eqb_refl _)) as [y Hy].
  rewrite Hy. f_equal. apply find_some in Hy as [Hyin Hyid].
  apply Z.eqb_eq in Hyid.
  now apply (key_determines_row User.id (users d) u y).
Qed.

(** X5. A login with a member's email and password makes that member the
    current user and leaves the database alone; the logout that follows
    makes the session anonymous again, so that liking, posting, commenting
    and deleting are turned away to the login page without any change. *)
Theorem login_then_logout `{Werkzeug}
    (d : DB) (s : Session) (r : Submission LoginForm) (next : option pystr)
    (member : User.t) :
  NoDup (map User.id (users d)) ->
  current_user d s = None ->
  validate_on_submit LoginForm_validate r = true ->
  User_by_email d (data_str (LoginForm_email_data (form r))) = Some member ->
  check_password member (data_str (login_password (form r))) = true ->
  let s1 := snd (login d s r next) in
  let s2 := snd (logout d s1) in
  snd (fst (login d s r next)) = d
  /\ current_user d s1 = Some member
  /\ response (fst (logout d s1)) = Redirect url_login
  /\ current_user d s2 = None
  /\ oauth_nonce s2 = oauth_nonce s
  /\ (forall q c,
        toggle_like d s2 q = (unauthorized, d)
        /\ delete_post d s2 q = (unauthorized, d)
        /\ add_comment d s2 q c = (unauthorized, d)
        /\ delete_comment d s2 q = (unauthorized, d)).
Proof.
  intros Hnd Hanon Hv Hfound Hpw s1 s2.
  assert (Hin : In member (users d)).
  { unfold User_by_email in Hfound. now apply find_some in Hfound. }
  assert (E : login d s r next
              = (mkOutcome
                   (Redirect (if truthy next then url_next (data_str next)
                              else url_home))
                   [(py "Welcome back, " ++ User.username member ++ py "!",
                     success)],
                 d, login_user s member)).
  { unfold login. now rewrite Hanon, Hv, Hfound, Hpw. }
  assert (Hcu : current_user d s1 = Some member).
  { unfold s1. rewrite E. cbn [snd]. unfold current_user, login_user.
    cbn [session_user_id]. now apply User_get_unique. }
  assert (El : logout d s1
               = (mkOutcome (Redirect url_login)
                    [(py "You have signed out of CS Community.", info)],
                  logout_user s1)).
  { unfold logout. now rewrite Hcu. }
  assert (Hout : forall d0, current_user d0 s2 = None).
  { intros d0. unfold s2. now rewrite El. }
  split; [now rewrite E|]. split; [exact Hcu|].
  split; [now rewrite El|]. split; [apply Hout|].
  split; [unfold s2; rewrite El; unfold s1; now rewrite E|].
  intros q c. unfold toggle_like, delete_post, add_comment, delete_comment.
  now rewrite Hout.
Qed.

(* ================================================================== *)
(** * Form fields *)
(* ================================================================== *)

Lemma length_lstrip (s : pystr) : (length (lstrip s) <= length s)%nat.
Proof.
  induction s as [|c s IH]; simpl; [lia|]. destruct (isspace c); simpl; lia.
Qed.

Lemma length_strip (s : pystr) : (length (strip s) <= length s)%nat.
Proof.
  unfold strip, rstrip. rewrite length_rev.
  pose proof (length_lstrip (rev (lstrip s))) as H1.
  rewrite length_rev in H1. pose proof (length_lstrip s). lia.
Qed.

Lemma strip_filter_Some (raw : option pystr) (s : pystr) :
  strip_filter raw = Some s -> s = strip (data_str raw).
Proof. destruct raw as [[|c t]|]; simpl; congruence. Qed.

(** X15. A text field with [strip_filter] and [DataRequired] validates
    exactly when the input has a character that is not white space; the data
    the handler then reads is the input without the white space around it.
    Input of white space only becomes the empty string, absent or empty
    input becomes [None]. *)
Theorem strip_filter_data (raw : option pystr) :
  DataRequired (strip_filter raw) = negb (forallb isspace (data_str raw))
  /\ (strip_filter raw = None <-> data_str raw = [])
  /\ (forall s, strip_filter raw = Some s ->
        s = strip (data_str raw) /\ strip s = s
        /\ (length s <= length (data_str raw))%nat
        /\ (s = [] <-> forallb isspace (data_str raw) = true)).
Proof.
  split; [apply DataRequired_strip_filter|]. split.
  - destruct raw as [[|c t]|]; simpl; split; congruence.
  - intros s Hs. apply strip_filter_Some in Hs. subst s.
    split; [reflexivity|]. split; [apply strip_idem|].
    split; [apply length_strip|apply strip_nil_iff].
Qed.

(* ================================================================== *)
(** * Comments *)
(* ================================================================== *)

Lemma CommentForm_valid_content (f : CommentForm) :
  CommentForm_validate f = true ->
  exists s, CommentForm_content_data f = Some s
            /\ s <> [] /\ strip s = s /\ (length s <= 2000)%nat.
Proof.
  unfold CommentForm_validate. intros H. apply andb_true_iff in H as [Hd Hl].
  destruct (DataRequired_Length 1 2000 (comment_content f) Hd Hl)
    as (Hlen & Hstrip & Hne).
  unfold CommentForm_content_data in *.
  destruct (strip_filter (comment_content f)) as [s|]; [|discriminate].
  exists s. simpl in *. repeat split; auto. lia.
Qed.

Lemma add_comment_accepts
    (d : DB) (s : Session) (pid : Z) (r : Submission CommentForm)
    (cu : User.t) (post : Post.t) :
  current_user d s = Some cu ->
  Post_get d pid = Some post ->
  validate_on_submit CommentForm_validate r = true ->
  exists c,
    add_comment d s pid r
    = (mkOutcome (Redirect (url_post_detail pid))
                 [(py "Comment posted.", success)],
       mkDB (users d) (posts d) (comments d ++ [c]) (likes d))
    /\ Comment.content c = strip (data_str (comment_content (form r)))
    /\ Comment.content c <> []
    /\ (length (Comment.content c) <= 2000)%nat
    /\ Comment.user_id c = User.id cu
    /\ Comment.post_id c = pid
    /\ ~ In (Comment.id c) (map Comment.id (comments d)).
Proof.
  intros Hcu Hpost Hv. pose proof (Post_get_id _ _ _ Hpost) as Hid.
  unfold add_comment. rewrite Hcu, Hpost, Hid, Hv. cbn [Comment_insert].
  assert (Hf : CommentForm_validate (form r) = true).
  { unfold validate_on_submit in Hv. now apply andb_true_iff in Hv as [_ Hv]. }
  destruct (CommentForm_valid_content _ Hf) as (t & Ht & Hne & Hstrip & Hlen).
  eexists. split; [reflexivity|]. cbn. rewrite Ht. cbn [data_str].
  unfold CommentForm_content_data in Ht.
  pose proof (strip_filter_Some _ _ Ht) as Heq.
  repeat split; auto. apply (next_id_fresh Comment.id).
Qed.

(** X6. A comment request on an existing post stores one new comment, by
    the requester and on that post, whose text is the submitted text
    without the white space around it, not empty and of at most 2000
    characters; a text of white space only (or none) stores nothing and
    flashes the warning. Members, posts, likes and the comments already
    there are not touched. *)
Theorem add_comment_stores_stripped_text
    (d : DB) (s : Session) (pid : Z) (r : Submission CommentForm)
    (cu : User.t) (post : Post.t) :
  current_user d s = Some cu ->
  Post_get d pid = Some post ->
  (validate_on_submit CommentForm_validate r = true ->
   exists c,
     add_comment d s pid r
     = (mkOutcome (Redirect (url_post_detail pid))
                  [(py "Comment posted.", success)],
        mkDB (users d) (posts d) (comments d ++ [c]) (likes d))
     /\ Comment.content c = strip (data_str (comment_content (form r)))
     /\ Comment.content c <> []
     /\ (length (Comment.content c) <= 2000)%nat
     /\ Comment.user_id c = User.id cu
     /\ Comment.post_id c = pid
     /\ ~ In (Comment.id c) (map Comment.id (comments d)))
  /\ (forallb isspace (data_str (comment_content (form r))) = true ->
      add_comment d s pid r
      = (mkOutcome (Redirect (url_post_detail pid))
                   [(py "Comment could not be posted.", warning)], d)).
Proof.
  intros Hcu Hpost. split; [now apply (add_comment_accepts d s pid r cu post)|].
  pose proof (Post_get_id _ _ _ Hpost) as Hid.
  unfold add_comment. rewrite Hcu, Hpost, Hid.
  intros Hblank.
  assert (Hv : validate_on_submit CommentForm_validate r = false).
  { unfold validate_on_submit, CommentForm_validate, CommentForm_content_data.
    rewrite DataRequired_strip_filter, Hblank. cbn. now rewrite andb_false_r. }
  now rewrite Hv.
Qed.

Lemma Comment_get_appended (d : DB) (c : Comment.t) :
  ~ In (Comment.id c) (map Comment.id (comments d)) ->
  find (fun x => Comment.id x =? Comment.id c) (comments d ++ [c]) = Some c.
Proof.
  intros Hfresh. rewrite find_app_none.
  - simpl. now rewrite Z.eqb_refl.
  - apply find_none_intro. intros x Hx. apply Z.eqb_neq. intros E.
    apply Hfresh. rewrite <- E. now apply in_map.
Qed.

(** X7. A comment that was just posted can be deleted by the member who
    posted it, and the database is then exactly what it was before the
    comment. *)
Theorem add_then_delete_comment
    (d : DB) (s : Session) (pid : Z) (r : Submission CommentForm)
    (cu : User.t) (post : Post.t) :
  current_user d s = Some cu ->
  Post_get d pid = Some post ->
  validate_on_submit CommentForm_validate r = true ->
  exists c,
    comments (snd (add_comment d s pid r)) = comments d ++ [c]
    /\ Comment_get (snd (add_comment d s pid r)) (Comment.id c) = Some c
    /\ delete_comment (snd (add_comment d s pid r)) s (Comment.id c)
       = (mkOutcome (Redirect (url_post_detail pid))
                    [(py "Comment deleted.", info)], d).
Proof.
  intros Hcu Hpost Hv.
  destruct (add_comment_accepts d s pid r cu post Hcu Hpost Hv)
    as (c & E & _ & _ & _ & Hu & Hp & Hfresh).
  exists c. rewrite E. cbn [snd comments].
  assert (Hget : Comment_get
                   (mkDB (users d) (posts d) (comments d ++ [c]) (likes d))
                   (Comment.id c) = Some c).
  { unfold Comment_get. cbn [comments]. now apply Comment_get_appended. }
  split; [reflexivity|]. split; [exact Hget|].
  unfold delete_comment.
  replace (current_user (mkDB (users d) (posts d) (comments d ++ [c]) (likes d)) s)
    with (Some cu) by (symmetry; exact Hcu).
  rewrite Hget, Hu, Z.eqb_refl, Hp. cbn [negb]. f_equal.
  unfold Comment_delete. cbn [users posts comments likes].
  rewrite (filter_fresh_row Comment.id (comments d) c Hfresh).
  now destruct d.
Qed.

(* ================================================================== *)
(** * Likes seen from the member *)
(* ================================================================== *)

Lemma has_liked_Like_first (d : DB) (u : User.t) (post : Post.t) :
  has_liked d u post
  = match Like_first d (User.id u) (Post.id post) with
    | Some _ => true
    | None => false
    end.
Proof.
  unfold has_liked, User_likes, Like_first.
  induction (likes d) as [|l ls IH]; simpl; [reflexivity|].
  destruct (Like.user_id l =? User.id u); simpl; [|exact IH].
  destruct (Like.post_id l =? Post.id post); simpl; [reflexivity|exact IH].
Qed.

Lemma Like_first_removed (d : DB) (uid q : Z) (l : Like.t) :
  Like_first d uid q = Some l ->
  NoDup (map Like.user_id (likes_of d q)) ->
  forall d', likes d' = likes (Like_delete d l) -> Like_first d' uid q = None.
Proof.
  intros Hl Hnd d' E. unfold Like_first. rewrite E.
  cbn [likes Like_delete]. apply find_none_intro.
  intros r Hr. apply filter_In in Hr as [Hr Hne].
  apply negb_true_iff, Z.eqb_neq in Hne.
  destruct ((Like.user_id r =? uid) && (Like.post_id r =? q)) eqn:F;
    [|reflexivity].
  apply andb_true_iff in F as [Eu Ep]. apply Z.eqb_eq in Eu, Ep.
  apply Like_first_spec in Hl as (Hin & Hu & Hq).
  exfalso. apply Hne. f_equal.
  apply (key_determines_row Like.user_id (likes_of d q)); auto.
  - apply filter_In. split; [assumption|now apply Z.eqb_eq].
  - apply filter_In. split; [assumption|now apply Z.eqb_eq].
  - congruence.
Qed.

(** X8. [User.has_liked] and the [liked] flag of the post page are the same
    answer, reached through the member's likes and through the like table;
    and one like request by the member flips it, when the post holds at most
    one like per member. *)
Theorem has_liked_agrees_with_post_page
    (d : DB) (s : Session) (pid : Z) (cu : User.t) (post : Post.t) :
  current_user d s = Some cu ->
  Post_get d pid = Some post ->
  post_detail_liked d s pid = Some (has_liked d cu post)
  /\ (has_liked d cu post = true
      <-> exists l, In l (likes d) /\ Like.user_id l = User.id cu
                    /\ Like.post_id l = pid)
  /\ (NoDup (map Like.user_id (likes_of d pid)) ->
      has_liked (snd (toggle_like d s pid)) cu post
      = negb (has_liked d cu post)).
Proof.
  intros Hcu Hpost. pose proof (Post_get_id _ _ _ Hpost) as Hid.
  rewrite has_liked_Like_first, Hid.
  rewrite (post_detail_liked_spec d s pid cu post Hcu Hpost).
  split; [reflexivity|]. split.
  - destruct (Like_first d (User.id cu) pid) as [l|] eqn:Hl.
    + split; [intros _|reflexivity]. exists l. now apply Like_first_spec.
    + split; [discriminate|]. intros (l & Hin & Hu & Hp). exfalso.
      exact (Like_first_none _ _ _ l Hl Hin Hp Hu).
  - intros Hnd. rewrite has_liked_Like_first, Hid.
    destruct (Like_first d (User.id cu) pid) as [l|] eqn:Hl.
    + rewrite (toggle_like_remove d s pid cu post l Hcu Hpost Hl). cbn [snd].
      now rewrite (Like_first_removed d _ _ l Hl Hnd
                     (Post_update (Like_delete d l) _) eq_refl).
    + rewrite (toggle_like_add d s pid cu post Hcu Hpost Hl). cbn [snd].
      set (d1 := Post_update _ _).
      now rewrite (Like_first_added d d1 _ _ _ Hl eq_refl).
Qed.

Lemma toggle_like_never_reports_database_error (d : DB) (s : Session) (q : Z) :
  ~ In (py "Database error. Please try again.", danger)
       (flashed (fst (toggle_like d s q))).
Proof.
  unfold toggle_like.
  destruct (current_user d s) as [cu|]; [|simpl; intuition discriminate].
  destruct (Post_get d q) as [post|]; [|simpl; tauto].
  destruct (Like_first d (User.id cu) (Post.id post)) eqn:Hl;
    [simpl; intuition discriminate|].
  rewrite (Like_insert_after_lookup _ _ _ Hl). simpl. intuition discriminate.
Qed.

(** X19. A like request touches nothing but the like of the requester on
    that post and the counter of that post: members, comments, the rows of
    other posts, the other fields of the post and every other like stay;
    a counter that is not negative moves by at most one; and the "Database
    error" message is never flashed. *)
Theorem toggle_like_frame (d : DB) (s : Session) (q : Z) :
  like_keys_unique d ->
  let d' := snd (toggle_like d s q) in
  users d' = users d
  /\ comments d' = comments d
  /\ (forall p, p <> q -> Post_get d' p = Post_get d p)
  /\ (forall post, Post_get d q = Some post ->
        exists n, Post_get d' q = Some (Post.set_likes_count post n)
                  /\ (0 <= Post.likes_count post ->
                      Post.likes_count post - 1 <= n
                      <= Post.likes_count post + 1))
  /\ (forall l, In l (likes d) ->
        (forall cu, current_user d s = Some cu ->
                    Like.user_id l <> User.id cu \/ Like.post_id l <> q) ->
        In l (likes d'))
  /\ (forall l, In l (likes d') ->
        In l (likes d)
        \/ exists cu, current_user d s = Some cu
                      /\ Like.user_id l = User.id cu /\ Like.post_id l = q)
  /\ ~ In (py "Database error. Please try again.", danger)
          (flashed (fst (toggle_like d s q))).
Proof.
  intros Hk d'. subst d'.
  destruct (toggle_like_cases d s q)
    as [[E H]|[(cu & post & l & Hcu & Hpost & Hl & E)
              |(cu & post & Hcu & Hpost & Hl & E)]].
  - rewrite E. repeat split; auto.
    + intros post Hp. exists (Post.likes_count post).
      rewrite set_likes_count_same. split; [exact Hp|lia].
    + apply toggle_like_never_reports_database_error.
  - rewrite E. cbn [fst snd flashed].
    pose proof (Post_get_id _ _ _ Hpost) as Hid.
    apply Like_first_spec in Hl as (Hin & Hu & Hq).
    split; [reflexivity|]. split; [reflexivity|]. split; [|split; [|split; [|split]]].
    + intros p Hp. rewrite Post_get_update_other by (cbn; congruence).
      reflexivity.
    + intros post0 Hp0. assert (post0 = post) as -> by congruence.
      eexists. split; [now apply (Post_get_recount d)|].
      intros Hge. unfold py_or. destruct (Post.likes_count post =? 0) eqn:Z0;
        [apply Z.eqb_eq in Z0|apply Z.eqb_neq in Z0]; lia.
    + intros r Hr Hother. cbn [likes Post_update Like_delete].
      apply filter_In. split; [exact Hr|].
      apply negb_true_iff, Z.eqb_neq. intros Eid.
      assert (r = l) as -> by now apply (key_determines_row Like.id (likes d)).
      destruct (Hother cu Hcu); congruence.
    + intros r Hr. cbn [likes Post_update Like_delete] in Hr.
      apply filter_In in Hr as [Hr _]. now left.
    + simpl. intuition discriminate.
  - rewrite E. cbn [fst snd flashed].
    pose proof (Post_get_id _ _ _ Hpost) as Hid.
    split; [reflexivity|]. split; [reflexivity|]. split; [|split; [|split; [|split]]].
    + intros p Hp. rewrite Post_get_update_other by (cbn; congruence).
      reflexivity.
    + intros post0 Hp0. assert (post0 = post) as -> by congruence.
      eexists. split; [now apply (Post_get_recount d)|]. lia.
    + intros r Hr _. cbn [likes Post_update]. apply in_or_app. now left.
    + intros r Hr. cbn [likes Post_update] in Hr.
      apply in_app_or in Hr as [Hr|[<-|[]]]; [now left|].
      right. exists cu. auto.
    + simpl. intuition discriminate.
Qed.

(* ================================================================== *)
(** * Titles on creation and on edit *)
(* ================================================================== *)

Lemma PostForm_valid_title (f : PostForm) :
  PostForm_validate f = true ->
  PostForm_title_data f = None
  \/ PostForm_title_data f = Some []
  \/ exists c t,
       PostForm_title_data f = Some (c :: t)
       /\ strip (c :: t) = c :: t /\ (length (c :: t) <= 200)%nat
       /\ c :: t = strip (data_str (post_title f)).
Proof.
  unfold PostForm_validate, PostForm_title_data. intros H.
  apply andb_true_iff in H as [H _]. apply andb_true_iff in H as [H _].
  destruct (strip_filter (post_title f)) as [[|c t]|] eqn:E; auto.
  right; right. exists c, t. split; [reflexivity|].
  pose proof (strip_filter_Some _ _ E) as Hs.
  split; [rewrite Hs; apply strip_idem|]. split; [|exact Hs].
  apply orb_true_iff in H as [H|H].
  - exfalso. unfold Optional_stops in H.
    destruct (post_title f) as [raw|]; [|discriminate].
    simpl in Hs. rewrite <- Hs in H. discriminate.
  - unfold Length in H. apply andb_true_iff in H as [_ H].
    now apply Nat.leb_le in H.
Qed.

(** X17. Every post that [new_post] stores has a title that is not empty and
    has at most 200 characters, the size of the column: a submitted title
    that is not blank is stored without the white space around it, otherwise
    the title is derived from the content (at most 81 characters). The post
    starts with no likes, under a new key, as the requester's. *)
Theorem new_post_title_fits_column `{Werkzeug}
    (d : DB) (s : Session) (r : Submission PostForm) (cu : User.t) :
  current_user d s = Some cu ->
  validate_on_submit PostForm_validate r = true ->
  exists post,
    new_post d s r
    = (mkOutcome (Redirect (url_post_detail (Post.id post)))
                 [(py "Post published to CS Community.", success)],
       mkDB (users d) (posts d ++ [post]) (comments d) (likes d))
    /\ Post.title post <> []
    /\ (length (Post.title post) <= 200)%nat
    /\ (forallb isspace (data_str (post_title (form r))) = false ->
        Post.title post = strip (data_str (post_title (form r))))
    /\ (forallb isspace (data_str (post_title (form r))) = true ->
        (length (Post.title post) <= 81)%nat)
    /\ ~ In (Post.id post) (map Post.id (posts d))
    /\ Post.user_id post = User.id cu
    /\ Post.likes_count post = 0.
Proof.
  intros Hcu Hv.
  assert (Hf : PostForm_validate (form r) = true).
  { unfold validate_on_submit in Hv. now apply andb_true_iff in Hv as [_ Hv]. }
  destruct (PostForm_valid_content _ Hf) as (c & t & Hc & Hsp & Hstrip).
  unfold new_post. rewrite Hcu, Hv, Hc. cbn [Post_insert or_empty].
  eexists. split; [reflexivity|].
  cbn [Post.title Post.id Post.user_id Post.likes_count].
  assert (Hblank : forall td, td = None \/ td = Some [] ->
            new_post_title td (Some (c :: t)) <> []
            /\ (length (new_post_title td (Some (c :: t))) <= 81)%nat).
  { intros td Htd. rewrite (new_post_title_derived td c t Htd Hsp).
    pose proof (strip_firstn_nonempty 79 c t Hsp) as Hne.
    pose proof (length_strip (firstn 80 (c :: t))) as Hl.
    pose proof (firstn_le_length 80 (c :: t)) as Hl'.
    split.
    - destruct (strip (firstn 80 (c :: t))); [discriminate|]. discriminate.
    - rewrite length_app.
      destruct (Nat.ltb 80 (length (c :: t))); cbn [length ellipsis]; lia. }
  pose proof (strip_nil_iff (data_str (post_title (form r)))) as Hnil.
  destruct (PostForm_valid_title _ Hf)
    as [Ht|[Ht|(c0 & t0 & Ht & Hst & Hlen & Hraw)]].
  - rewrite Ht. destruct (Hblank None (or_introl eq_refl)) as [Hne Hle].
    assert (Hsp' : forallb isspace (data_str (post_title (form r))) = true).
    { unfold PostForm_title_data in Ht.
      destruct (post_title (form r)) as [[|? ?]|]; try reflexivity; discriminate. }
    split; [exact Hne|].
    split; [apply (Nat.le_trans _ 81); [exact Hle|lia]|]. split; [congruence|].
    split; [intros _; exact Hle|].
    split; [apply (next_id_fresh Post.id)|split; reflexivity].
  - rewrite Ht.
    destruct (Hblank (Some []) (or_intror eq_refl)) as [Hne Hle].
    assert (Hsp' : forallb isspace (data_str (post_title (form r))) = true).
    { apply Hnil. unfold PostForm_title_data in Ht.
      now apply strip_filter_Some in Ht. }
    split; [exact Hne|].
    split; [apply (Nat.le_trans _ 81); [exact Hle|lia]|]. split; [congruence|].
    split; [intros _; exact Hle|].
    split; [apply (next_id_fresh Post.id)|split; reflexivity].
  - rewrite Ht.
    assert (E : new_post_title (Some (c0 :: t0)) (Some (c :: t)) = c0 :: t0).
    { unfold new_post_title. cbn [or_empty]. now rewrite Hst. }
    rewrite E.
    assert (Hsp' : forallb isspace (data_str (post_title (form r))) = false).
    { destruct (forallb isspace (data_str (post_title (form r)))) eqn:F;
        [|reflexivity].
      apply strip_nil_iff in F. congruence. }
    split; [discriminate|]. split; [exact Hlen|]. split; [intros _; exact Hraw|].
    split; [congruence|].
    split; [apply (next_id_fresh Post.id)|split; reflexivity].
Qed.

(** X18. [edit_post] derives no title: when the author submits a valid form
    whose title field is empty, [strip_filter] turns it into [None], the
    commit is refused ([title] is [nullable=False]) and the request ends in
    the unhandled [IntegrityError] with the post unchanged; a title of white
    space only is accepted and stored as the empty string. *)
Theorem edit_post_blank_title `{Werkzeug}
    (d : DB) (s : Session) (pid : Z) (r : Submission PostForm)
    (cu : User.t) (post : Post.t) :
  current_user d s = Some cu ->
  Post_get d pid = Some post ->
  Post.user_id post = User.id cu ->
  validate_on_submit PostForm_validate r = true ->
  (post_title (form r) = Some [] ->
   edit_post d s pid r = (mkOutcome (Unhandled IntegrityError) [], d))
  /\ (data_str (post_title (form r)) <> [] ->
      forallb isspace (data_str (post_title (form r))) = true ->
      response (fst (edit_post d s pid r)) = Redirect (url_post_detail pid)
      /\ exists post',
           Post_get (snd (edit_post d s pid r)) pid = Some post'
           /\ Post.title post' = []).
Proof.
  intros Hcu Hpost Hown Hv.
  pose proof (Post_get_id _ _ _ Hpost) as Hid.
  unfold edit_post. rewrite Hcu, Hpost.
  replace (Post.user_id post =? User.id cu) with true
    by (symmetry; now apply Z.eqb_eq).
  cbn [negb]. split.
  - intros Hempty.
    assert (Hraw : post_title (form r) <> None) by (rewrite Hempty; discriminate).
    destruct (PostForm_of_submitted r post Hv Hraw) as [-> ->].
    unfold PostForm_title_data. now rewrite Hempty.
  - intros Hne Hblank.
    assert (Hraw0 : post_title (form r) <> None)
      by (intros E; rewrite E in Hne; now apply Hne).
    destruct (PostForm_of_submitted r post Hv Hraw0) as [-> ->].
    unfold PostForm_title_data.
    destruct (post_title (form r)) as [[|c t]|] eqn:Hraw;
      try (exfalso; now apply Hne).
    cbn [strip_filter data_str] in *.
    apply strip_nil_iff in Hblank. rewrite Hblank. cbn [fst snd response].
    rewrite Hid. split; [reflexivity|].
    eexists. split.
    + rewrite <- Hid.
      match goal with
      | |- Post_get (Post_update d ?p) _ = _ =>
        apply (Post_get_update_same d p post)
      end.
      cbn [Post.id]. now rewrite Hid.
    + reflexivity.
Qed.

(* ================================================================== *)
(** * Upload names *)
(* ================================================================== *)

Lemma after_last_dot_none (s : pystr) :
  has_dot s = false -> after_last_dot s = None.
Proof.
  unfold has_dot. induction s as [|c s IH]; cbn [existsb after_last_dot];
    [reflexivity|].
  intros H. apply orb_false_iff in H as [Hc Hs].
  rewrite (IH Hs). apply N.eqb_neq in Hc.
  destruct (N.eqb_spec c 46); [congruence|reflexivity].
Qed.

Lemma after_last_dot_app (stem ext : pystr) :
  has_dot ext = false ->
  after_last_dot (stem ++ 46%N :: ext) = Some ext.
Proof.
  intros H. induction stem as [|c stem IH]; cbn [app after_last_dot].
  - rewrite (after_last_dot_none ext H). now rewrite N.eqb_refl.
  - now rewrite IH.
Qed.

(** X14. [_allowed_file] judges a name by what follows its last dot,
    lower-cased: ["a.b.EXT"] is allowed exactly when [lower("EXT")] is in the
    set, and a name without a dot is never allowed. *)
Theorem allowed_file_by_last_extension `{Runtime}
    (stem ext : pystr) (allowed : list pystr) :
  has_dot ext = false ->
  _allowed_file (stem ++ py "." ++ ext) allowed
  = existsb (str_eqb (lower ext)) allowed
  /\ (_allowed_file (stem ++ py "." ++ ext) allowed = true
      <-> In (lower ext) allowed)
  /\ _allowed_file ext allowed = false.
Proof.
  intros Hext.
  assert (E : _allowed_file (stem ++ py "." ++ ext) allowed
              = existsb (str_eqb (lower ext)) allowed).
  { unfold _allowed_file. change (py "." ++ ext) with (46%N :: ext).
    rewrite (after_last_dot_app stem ext Hext).
    replace (has_dot (stem ++ 46%N :: ext)) with true; [reflexivity|].
    symmetry. unfold has_dot. rewrite existsb_app. cbn [existsb].
    rewrite N.eqb_refl. apply orb_true_r. }
  split; [exact E|]. split.
  - rewrite E, existsb_exists. split.
    + intros (x & Hin & Hx). apply str_eqb_eq in Hx. now subst.
    + intros Hin. exists (lower ext). split; [exact Hin|apply str_eqb_refl].
  - unfold _allowed_file. now rewrite Hext.
Qed.

(* ================================================================== *)
(** * Feed, discovery and profile pages *)
(* ================================================================== *)

Lemma StronglySorted_impl {A} (R S : A -> A -> Prop) (l : list A) :
  (forall a b, R a b -> S a b) -> StronglySorted R l -> StronglySorted S l.
Proof.
  intros HRS. induction 1 as [|a l Hs IH Hall]; constructor; [exact IH|].
  eapply Forall_impl; [|exact Hall]. auto.
Qed.

Lemma newest_first_sorted `{Store} (l : list Post.t) :
  StronglySorted (fun a b => post_date b <= post_date a)
    (order_by (fun a b => post_date b <=? post_date a) l).
Proof.
  apply (StronglySorted_impl
           (fun a b => (post_date b <=? post_date a) = true)).
  - intros a b. apply Z.leb_le.
  - apply order_by_sorted.
    + intros a b. rewrite !Z.leb_le. lia.
    + intros a b c. rewrite !Z.leb_le. lia.
Qed.

Lemma In_posts_join_users (d : DB) (p : Post.t) (u : User.t) :
  In (p, u) (posts_join_users d)
  <-> In p (posts d) /\ In u (users d) /\ User.id u = Post.user_id p.
Proof.
  unfold posts_join_users. rewrite in_flat_map. split.
  - intros (p0 & Hp0 & Hin). apply in_map_iff in Hin as (u0 & [= <- <-] & Hu).
    apply filter_In in Hu as [Hu E]. apply Z.eqb_eq in E. auto.
  - intros (Hp & Hu & E). exists p. split; [exact Hp|].
    apply in_map. apply filter_In. split; [exact Hu|now apply Z.eqb_eq].
Qed.

(** X11. The feed lists, newest first, exactly the posts whose author is a
    stored member and, when a track is asked for, has that track, and, when
    [available=yes] is asked for, is available for a project; blanks around
    the parameters do not count. *)
Theorem home_feed `{Store}
    (d : DB) (s : Session) (track available : option pystr) (viewer : User.t) :
  current_user d s = Some viewer ->
  exists feed,
    home d s track available = page feed
    /\ (forall p,
          In p feed <->
          In p (posts d)
          /\ exists u,
               In u (users d) /\ User.id u = Post.user_id p
               /\ (strip (data_str track) <> [] ->
                   User.track u = Some (strip (data_str track)))
               /\ (strip (data_str available) = py "yes" ->
                   User.available_for_project u = true))
    /\ StronglySorted (fun a b => post_date b <= post_date a) feed.
Proof.
  intros Hcu. unfold home. rewrite Hcu. eexists. split; [reflexivity|].
  split; [|apply newest_first_sorted].
  intros p. rewrite order_by_In, in_map_iff.
  set (t := strip (data_str track)). set (a := strip (data_str available)).
  assert (Ht : forall u, opt_str_eqb (User.track u) (Some t) = true
                         <-> User.track u = Some t).
  { intros u. destruct (User.track u) as [x|]; simpl.
    - rewrite str_eqb_eq. split; congruence.
    - split; discriminate. }
  split.
  - intros ([p0 u] & <- & Hin). cbn [fst].
    assert (Hj : In (p0, u) (posts_join_users d)
                 /\ (t <> [] -> User.track u = Some t)
                 /\ (a = py "yes" -> User.available_for_project u = true)).
    { destruct (str_eqb a (py "yes")) eqn:Ea.
      - apply filter_In in Hin as [Hin Hav]. cbn [snd] in Hav.
        destruct (nonempty t) eqn:Et.
        + apply filter_In in Hin as [Hin Htr]. cbn [snd] in Htr.
          apply Ht in Htr. auto.
        + split; [exact Hin|]. split; [|auto].
          intros Hne. destruct t; [congruence|discriminate].
      - assert (Hno : a <> py "yes").
        { intros E. apply str_eqb_eq in E. congruence. }
        destruct (nonempty t) eqn:Et.
        + apply filter_In in Hin as [Hin Htr]. cbn [snd] in Htr.
          apply Ht in Htr. split; [exact Hin|]. split; [auto|tauto].
        + split; [exact Hin|]. split; [|tauto].
          intros Hne. destruct t; [congruence|discriminate]. }
    destruct Hj as (Hj & Htr & Hav).
    apply In_posts_join_users in Hj as (Hp & Hu & E).
    split; [exact Hp|]. exists u. auto.
  - intros (Hp & u & Hu & E & Htr & Hav). exists (p, u).
    split; [reflexivity|].
    assert (Hj : In (p, u) (posts_join_users d))
      by now apply In_posts_join_users.
    destruct (str_eqb a (py "yes")) eqn:Ea.
    + apply str_eqb_eq in Ea. apply filter_In. split; [|now apply Hav].
      destruct (nonempty t) eqn:Et; [|exact Hj].
      apply filter_In. split; [exact Hj|]. apply Ht, Htr.
      intros E0. rewrite E0 in Et. discriminate.
    + destruct (nonempty t) eqn:Et; [|exact Hj].
      apply filter_In. split; [exact Hj|]. apply Ht, Htr.
      intros E0. rewrite E0 in Et. discriminate.
Qed.

Lemma length_filter_orb {A} (f g : A -> bool) (l : list A) :
  (forall x, In x l -> f x && g x = false) ->
  length (filter (fun x => f x || g x) l)
  = (length (filter f l) + length (filter g l))%nat.
Proof.
  induction l as [|a l IH]; simpl; intros H; [reflexivity|].
  pose proof (H a (or_introl eq_refl)) as Ha.
  assert (IH' := IH (fun x Hx => H x (or_intror Hx))).
  destruct (f a), (g a); simpl in *; try discriminate; lia.
Qed.

(** Summing the sizes of the Like sets of posts with distinct keys counts
    each like of one of these posts once. *)
Lemma likes_of_posts_total (d : DB) (ps : list Post.t) :
  NoDup (map Post.id ps) ->
  fold_right Z.add 0
    (map (fun p => Z.of_nat (length (likes_of d (Post.id p)))) ps)
  = Z.of_nat (length (filter (fun l => existsb (fun p => Post.id p
                                                          =? Like.post_id l) ps)
                             (likes d))).
Proof.
  induction ps as [|a ps IH]; intros Hnd.
  - simpl. induction (likes d); simpl; auto.
  - inversion Hnd as [|? ? Hnot Hnd']; subst. cbn [map fold_right existsb].
    rewrite (IH Hnd').
    rewrite (length_filter_orb
               (fun l => Post.id a =? Like.post_id l)
               (fun l => existsb (fun p => Post.id p =? Like.post_id l) ps)).
    + unfold likes_of. rewrite Nat2Z.inj_add. f_equal. f_equal. f_equal.
      apply filter_ext. intros l. apply Z.eqb_sym.
    + intros l _. destruct (Post.id a =? Like.post_id l) eqn:E; [|reflexivity].
      apply Z.eqb_eq in E. cbn [andb].
      destruct (existsb (fun p => Post.id p =? Like.post_id l) ps) eqn:F;
        [|reflexivity].
      apply existsb_exists in F as (p & Hp & Ep). apply Z.eqb_eq in Ep.
      exfalso. apply Hnot. rewrite E, <- Ep. now apply in_map.
Qed.

Lemma existsb_filter {A} (f g : A -> bool) (l : list A) :
  existsb f (filter g l) = existsb (fun x => f x && g x) l.
Proof.
  induction l as [|a l IH]; simpl; [reflexivity|].
  destruct (g a); simpl; rewrite IH; [now rewrite andb_true_r|].
  now rewrite andb_false_r.
Qed.

(** X9. The profile page shows the member's posts, newest first, and a
    [total_likes] that is the sum of their counters; when each of these
    counters agrees with the Like set of its post, the total is the number
    of likes given to the member's posts. *)
Theorem profile_total_likes `{Store}
    (d : DB) (s : Session) (uid : Z) (viewer member : User.t) :
  current_user d s = Some viewer ->
  User_get d uid = Some member ->
  post_keys_unique d ->
  exists shown total,
    profile d s uid = page (member, shown, total)
    /\ (forall p, In p shown <-> In p (posts d) /\ Post.user_id p = uid)
    /\ StronglySorted (fun a b => post_date b <= post_date a) shown
    /\ total
       = fold_right Z.add 0
           (map Post.likes_count
                (filter (fun p => Post.user_id p =? uid) (posts d)))
    /\ ((forall p, In p (posts d) -> Post.user_id p = uid ->
           Post.likes_count p = Z.of_nat (length (likes_of d (Post.id p)))) ->
        total
        = Z.of_nat (length (filter
            (fun l => existsb (fun p => (Post.id p =? Like.post_id l)
                                        && (Post.user_id p =? uid)) (posts d))
            (likes d)))).
Proof.
  intros Hcu Hget Hpk.
  assert (Hid : User.id member = uid).
  { unfold User_get in Hget. apply find_some in Hget as [_ E].
    now apply Z.eqb_eq. }
  unfold profile. rewrite Hcu, Hget, Hid.
  set (mine := filter (fun p => Post.user_id p =? uid) (posts d)).
  set (shown := order_by _ mine).
  exists shown. eexists. split; [reflexivity|].
  assert (Hsum : fold_right Z.add 0
                   (map (fun p => py_or (Post.likes_count p) 0) shown)
                 = fold_right Z.add 0 (map Post.likes_count mine)).
  { rewrite (map_ext _ Post.likes_count) by (intros; apply py_or_0).
    apply sum_perm, Permutation_map, order_by_perm. }
  split; [|split; [apply newest_first_sorted|split; [exact Hsum|]]].
  - intros p. unfold shown. rewrite order_by_In. unfold mine.
    rewrite filter_In, Z.eqb_eq. tauto.
  - intros Hok. rewrite Hsum.
    rewrite (map_ext_in Post.likes_count
               (fun p => Z.of_nat (length (likes_of d (Post.id p))))).
    + rewrite likes_of_posts_total by (apply NoDup_map_filter; exact Hpk).
      f_equal. f_equal. apply filter_ext. intros l. apply existsb_filter.
    + intros p Hp. apply filter_In in Hp as [Hp E]. apply Z.eqb_eq in E.
      now apply Hok.
Qed.

Lemma network_le_total `{Store} :
  (forall a b, username_le a b = true \/ username_le b a = true) ->
  forall a b, network_le a b = true \/ network_le b a = true.
Proof.
  intros Htot a b. unfold network_le.
  destruct (User.available_for_project a), (User.available_for_project b);
    simpl; auto.
Qed.

Lemma network_le_trans `{Store} :
  (forall a b c, username_le a b = true -> username_le b c = true ->
                 username_le a c = true) ->
  forall a b c, network_le a b = true -> network_le b c = true ->
                network_le a c = true.
Proof.
  intros Htr a b c. unfold network_le.
  destruct (User.available_for_project a), (User.available_for_project b),
    (User.available_for_project c); simpl; auto; try discriminate.
  - apply Htr.
  - apply Htr.
Qed.

(** X10. The discovery page never lists the requester; it lists each other
    member that passes the search text, the track and the availability asked
    for, and no one else, the available members before the others and by
    username within each group, for a collation that is a total order. A
    search text of white space only is no search. *)
Theorem network_lists_matching_others `{Store}
    (d : DB) (s : Session) (search track available : option pystr)
    (cu : User.t) :
  (forall a b, username_le a b = true \/ username_le b a = true) ->
  (forall a b c, username_le a b = true -> username_le b c = true ->
                 username_le a c = true) ->
  current_user d s = Some cu ->
  exists listed,
    network d s search track available = page listed
    /\ (forall u,
          In u listed <->
          In u (users d) /\ User.id u <> User.id cu
          /\ (strip (data_str search) <> [] ->
              ilike (Some (User.username u))
                    (py "%" ++ strip (data_str search) ++ py "%") = true
              \/ ilike (User.skills u)
                       (py "%" ++ strip (data_str search) ++ py "%") = true
              \/ ilike (User.track u)
                       (py "%" ++ strip (data_str search) ++ py "%") = true)
          /\ (strip (data_str track) <> [] ->
              User.track u = Some (strip (data_str track)))
          /\ (strip (data_str available) = py "yes" ->
              User.available_for_project u = true))
    /\ StronglySorted
         (fun a b =>
            (User.available_for_project a = true
             \/ User.available_for_project b = false)
            /\ (User.available_for_project a = User.available_for_project b ->
                username_le (User.username a) (User.username b) = true))
         listed
    /\ (NoDup (map User.id (users d)) -> NoDup (map User.id listed))
    /\ (forallb isspace (data_str search) = true ->
        network d s search track available = network d s None track available).
Proof.
  intros Htot Htr Hcu. unfold network. rewrite Hcu.
  set (q := strip (data_str search)). set (t := strip (data_str track)).
  set (a := strip (data_str available)).
  set (like := py "%" ++ q ++ py "%").
  set (others := filter (fun u => negb (User.id u =? User.id cu)) (users d)).
  set (found := if nonempty q then filter _ others else others).
  set (tracked := if nonempty t then filter _ found else found).
  set (avail := if str_eqb a (py "yes") then filter _ tracked else tracked).
  exists (order_by network_le avail). split; [reflexivity|].
  assert (Hne : forall x : pystr, nonempty x = true <-> x <> []).
  { intros [|? ?]; simpl; split; congruence. }
  assert (Hfound : forall u, In u found <->
            In u others
            /\ (q <> [] -> ilike (Some (User.username u)) like = true
                           \/ ilike (User.skills u) like = true
                           \/ ilike (User.track u) like = true)).
  { intros u. unfold found. destruct (nonempty q) eqn:E.
    - rewrite filter_In, !orb_true_iff. apply Hne in E. tauto.
    - assert (q = []) as -> by (destruct q; [reflexivity|discriminate]).
      tauto. }
  assert (Htracked : forall u, In u tracked <->
            In u found /\ (t <> [] -> User.track u = Some t)).
  { intros u. unfold tracked. destruct (nonempty t) eqn:E.
    - rewrite filter_In. apply Hne in E.
      destruct (User.track u) as [x|]; simpl.
      + rewrite str_eqb_eq. split; [intros [? ->]; auto|].
        intros [? Hx]. split; [assumption|]. specialize (Hx E). congruence.
      + split; [intros [_ [=]]|]. intros [_ Hx]. specialize (Hx E). discriminate.
    - assert (t = []) as Et by (destruct t; [reflexivity|discriminate]).
      rewrite Et. tauto. }
  assert (Havail : forall u, In u avail <->
            In u tracked
            /\ (a = py "yes" -> User.available_for_project u = true)).
  { intros u. unfold avail. destruct (str_eqb a (py "yes")) eqn:E.
    - rewrite filter_In. apply str_eqb_eq in E. tauto.
    - assert (a <> py "yes") by (intros E0; apply str_eqb_eq in E0; congruence).
      tauto. }
  split; [|split; [|split]].
  - intros u. rewrite order_by_In, Havail, Htracked, Hfound.
    unfold others. rewrite filter_In, negb_true_iff, Z.eqb_neq. tauto.
  - apply (StronglySorted_impl (fun x y => network_le x y = true)).
    + intros x y. unfold network_le.
      destruct (User.available_for_project x), (User.available_for_project y);
        simpl; intros E; split; auto; try discriminate; congruence.
    + apply order_by_sorted;
        [now apply network_le_total|now apply network_le_trans].
  - intros Hnd. apply (Permutation_NoDup
                         (l := map User.id avail)).
    + apply Permutation_map. symmetry. apply order_by_perm.
    + unfold avail, tracked, found, others.
      destruct (str_eqb a (py "yes")), (nonempty t), (nonempty q);
        repeat apply NoDup_map_filter; exact Hnd.
  - intros Hblank. apply strip_nil_iff in Hblank.
    unfold avail, tracked, found, like, q. rewrite Hblank. reflexivity.
Qed.


(* ================================================================== *)
(** * Editing the profile *)
(* ================================================================== *)

Lemma current_user_In (d : DB) (s : Session) (cu : User.t) :
  current_user d s = Some cu -> In cu (users d).
Proof.
  unfold current_user, User_get. destruct (session_user_id s); [|discriminate].
  intros H. now apply find_some in H.
Qed.

Lemma map_update_ids (l : list User.t) (u : User.t) :
  map User.id (map (fun r => if User.id r =? User.id u then u else r) l)
  = map User.id l.
Proof.
  rewrite map_map. apply map_ext. intros r.
  destruct (User.id r =? User.id u) eqn:E; [|reflexivity].
  apply Z.eqb_eq in E. congruence.
Qed.

(** Replacing the row of one key keeps a column distinct when the new value
    is not held by a row of another key. *)
Lemma NoDup_map_update {B} (col : User.t -> B) (l : list User.t) (u : User.t) :
  NoDup (map User.id l) -> NoDup (map col l) ->
  (forall r, In r l -> User.id r <> User.id u -> col r <> col u) ->
  NoDup (map col (map (fun r => if User.id r =? User.id u then u else r) l)).
Proof.
  induction l as [|a l IH]; simpl; intros Hid Hcol Hfree; [constructor|].
  inversion Hid as [|? ? Hnotid Hid']; subst.
  inversion Hcol as [|? ? Hnotcol Hcol']; subst.
  constructor; [|apply IH; auto].
  intros Hin. apply in_map_iff in Hin as (x & Hx & Hin).
  apply in_map_iff in Hin as (r & Hr & Hin). subst x.
  destruct (Z.eqb_spec (User.id a) (User.id u)) as [Ea|Ea];
    destruct (Z.eqb_spec (User.id r) (User.id u)) as [Er|Er].
  - apply Hnotid. rewrite Ea, <- Er. now apply in_map.
  - apply (Hfree r); auto.
  - apply (Hfree a); auto.
  - apply Hnotcol. rewrite <- Hx. now apply in_map.
Qed.

(** X12. [edit_profile] does not look up the new username and email before
    it commits: when another member holds either, a valid form ends in the
    unhandled [IntegrityError] of the unique constraint and nothing is
    changed. *)
Theorem edit_profile_taken_identity `{Werkzeug} `{Runtime}
    (d : DB) (s : Session) (r : Submission EditProfileForm)
    (cv_hex picture_hex : pystr) (cu other : User.t) :
  current_user d s = Some cu ->
  validate_on_submit EditProfileForm_validate r = true ->
  In other (users d) ->
  User.id other <> User.id cu ->
  User.username other = data_str (strip_filter (ep_username (form r)))
  \/ User.email other = data_str (strip_filter (ep_email (form r))) ->
  edit_profile d s r cv_hex picture_hex
  = (profile_unhandled IntegrityError, d).
Proof.
  intros Hcu Hv Hin Hne Hdup. unfold edit_profile. rewrite Hcu, Hv.
  unfold User_update. cbn [User.id User.username User.email].
  replace (existsb _ (users d)) with true; [reflexivity|].
  symmetry. apply existsb_exists. exists other. split; [exact Hin|].
  apply andb_true_iff. split; [now apply negb_true_iff, Z.eqb_neq|].
  apply orb_true_iff. destruct Hdup as [->| ->]; [left|right];
    apply str_eqb_refl.
Qed.

(** X13. When no other member holds the submitted username or email, a
    valid profile edit is saved: the member keeps key and password hash and
    gets the submitted identity, a link or phone number left blank is stored
    as [None], the resume and picture stay when nothing is uploaded, the
    other members, the posts, comments and likes are untouched, keys,
    usernames and emails stay distinct, and the session is still that
    member's. *)
Theorem edit_profile_saves `{Werkzeug} `{Runtime}
    (d : DB) (s : Session) (r : Submission EditProfileForm)
    (cv_hex picture_hex : pystr) (cu : User.t) :
  identities_unique d ->
  current_user d s = Some cu ->
  validate_on_submit EditProfileForm_validate r = true ->
  (forall other, In other (users d) -> User.id other <> User.id cu ->
     User.username other <> data_str (strip_filter (ep_username (form r)))
     /\ User.email other <> data_str (strip_filter (ep_email (form r)))) ->
  exists u,
    fst (edit_profile d s r cv_hex picture_hex) = profile_saved (User.id cu)
    /\ current_user (snd (edit_profile d s r cv_hex picture_hex)) s = Some u
    /\ User.id u = User.id cu
    /\ User.password_hash u = User.password_hash cu
    /\ User.username u = strip (data_str (ep_username (form r)))
    /\ User.email u = strip (data_str (ep_email (form r)))
    /\ (forall link,
          In link [User.github_link u; User.portfolio_link u;
                   User.linkedin_link u; User.phone_number u] ->
          link = None \/ exists t, link = Some t /\ t <> [] /\ strip t = t)
    /\ (uploaded (ep_cv_file (form r)) = false ->
        User.cv_file u = User.cv_file cu)
    /\ (uploaded (ep_profile_image (form r)) = false ->
        User.profile_image u = User.profile_image cu)
    /\ identities_unique (snd (edit_profile d s r cv_hex picture_hex))
    /\ (forall i, i <> User.id cu ->
          User_get (snd (edit_profile d s r cv_hex picture_hex)) i
          = User_get d i)
    /\ posts (snd (edit_profile d s r cv_hex picture_hex)) = posts d
    /\ comments (snd (edit_profile d s r cv_hex picture_hex)) = comments d
    /\ likes (snd (edit_profile d s r cv_hex picture_hex)) = likes d.
Proof.
  intros (Hid & Hname & Hmail) Hcu Hv Hfree.
  assert (Hf : EditProfileForm_validate (form r) = true).
  { unfold validate_on_submit in Hv. now apply andb_true_iff in Hv as [_ Hv]. }
  unfold EditProfileForm_validate in Hf.
  repeat (apply andb_true_iff in Hf as [Hf ?]).
  destruct (DataRequired_Length 3 50 (ep_username (form r)))
    as (_ & _ & Hun); [assumption..|].
  destruct (DataRequired_Length 0 120 (ep_email (form r)))
    as (_ & _ & Hem); [assumption..|].
  assert (Hsf : forall raw, data_str (strip_filter raw) <> [] ->
                            data_str (strip_filter raw) = strip (data_str raw)).
  { intros raw Hne. destruct (strip_filter raw) as [x|] eqn:E;
      [|now elim Hne]. now apply strip_filter_Some in E. }
  assert (Hlink : forall raw,
            or_None (strip_filter raw) = None
            \/ exists t, or_None (strip_filter raw) = Some t
                         /\ t <> [] /\ strip t = t).
  { intros raw. unfold or_None.
    destruct (strip_filter raw) as [[|c t]|] eqn:E; simpl; auto.
    right. exists (c :: t). split; [reflexivity|]. split; [discriminate|].
    apply strip_filter_Some in E. rewrite E. apply strip_idem. }
  unfold edit_profile. rewrite Hcu, Hv.
  set (u := User.mk (User.id cu) _ _ _ _ _ _ _ _ _ _ _ _).
  assert (Hnone : existsb
            (fun x => negb (User.id x =? User.id u)
                      && (str_eqb (User.username x) (User.username u)
                          || str_eqb (User.email x) (User.email u)))
            (users d) = false).
  { apply not_true_is_false. intros E.
    apply existsb_exists in E as (x & Hx & E).
    apply andb_true_iff in E as [E1 E2].
    apply negb_true_iff, Z.eqb_neq in E1.
    destruct (Hfree x Hx E1) as [Hn He].
    apply orb_true_iff in E2 as [E2|E2]; apply str_eqb_eq in E2; auto. }
  unfold User_update. rewrite Hnone. cbn [fst snd users posts comments likes].
  exists u.
  assert (Hget : forall dd, users dd
                   = map (fun x => if User.id x =? User.id u then u else x)
                         (users d) ->
                 User_get dd (User.id cu) = Some u).
  { intros dd E. unfold User_get. rewrite E.
    apply (find_update_same User.id (users d) u).
    pose proof (current_user_In _ _ _ Hcu) as Hin.
    destruct (find_some_intro (fun x => User.id x =? User.id u) (users d) cu
                Hin (Z.eqb_refl _)) as [y Hy].
    cbn [User.id] in *. rewrite Hy. discriminate. }
  assert (Hsess : session_user_id s = Some (User.id cu)).
  { unfold current_user in Hcu. destruct (session_user_id s) as [i|];
      [|discriminate].
    unfold User_get in Hcu. apply find_some in Hcu as [_ E].
    apply Z.eqb_eq in E. now rewrite E. }
  split; [reflexivity|]. split.
  { unfold current_user. rewrite Hsess. now apply Hget. }
  split; [reflexivity|]. split; [reflexivity|].
  split; [now apply Hsf|]. split; [now apply Hsf|].
  split.
  { intros link [<-|[<-|[<-|[<-|[]]]]]; apply Hlink. }
  split.
  { intros E. subst u. cbn [User.cv_file]. now rewrite E. }
  split.
  { intros E. subst u. cbn [User.profile_image]. now rewrite E. }
  split.
  { unfold identities_unique. cbn [users]. split; [|split].
    - now rewrite map_update_ids.
    - apply NoDup_map_update; auto. intros x Hx Hne. now apply Hfree.
    - apply NoDup_map_update; auto. intros x Hx Hne. now apply Hfree. }
  split; [|repeat split].
  intros i Hi. unfold User_get. cbn [users].
  now apply (find_update_other User.id).
Qed.

(* ================================================================== *)
(** * The nonce of the Google redirect *)
(* ================================================================== *)

(** X16. [google_login] hands Google the nonce it stores in the session, and
    the ID token of the callback is validated against exactly that nonce.
    A callback whose token exchange succeeded and that answers with a
    redirect has used the nonce up: a token that does not validate ends at
    the login page with "Authentication error.", an assertion without
    subject id or email with "Could not retrieve your Google account
    details.", nobody logged in either way. A failed exchange leaves the
    session as it was, and so does the unhandled error of the lookup that a
    complete assertion runs into: that nonce is still in the session. *)
Theorem google_nonce_lifecycle `{OIDC} `{Runtime}
    (d : DB) (s : Session) (hex : pystr) (c : Callback) (token : Token) :
  current_user d s = None ->
  exchanged c = Some token ->
  let s1 := snd (google_login d s hex) in
  fst (google_login d s hex) = google_authorize hex
  /\ oauth_nonce s1 = Some hex
  /\ session_user_id s1 = session_user_id s
  /\ (parse_id_token token (Some hex) = None ->
      google_callback d s1 c
      = (mkOutcome (Redirect url_login)
                   [(py "Authentication error. Please try again.", danger)],
         d, mkSession (session_user_id s) None))
  /\ (forall info,
        parse_id_token token (Some hex) = Some info ->
        truthy (ui_sub info) = false
        \/ nonempty (data_str (ui_email info)) = false ->
        google_callback d s1 c
        = (mkOutcome (Redirect url_login)
             [(py "Could not retrieve your Google account details.", danger)],
           d, mkSession (session_user_id s) None))
  /\ (forall info,
        parse_id_token token (Some hex) = Some info ->
        truthy (ui_sub info) = true ->
        nonempty (data_str (ui_email info)) = true ->
        google_callback d s1 c
        = (mkOutcome (Unhandled InvalidRequestError) [], d, s1))
  /\ ((exists to, response (fst (fst (google_callback d s1 c))) = Redirect to)
      <-> oauth_nonce (snd (google_callback d s1 c)) = None)
  /\ (forall c', exchanged c' = None ->
        google_callback d s1 c'
        = (mkOutcome (Redirect url_login)
                     [(py "Google sign-in failed. Please try again.", danger)],
           d, s1)).
Proof.
  intros Hanon Hex s1. subst s1. unfold google_login. rewrite Hanon.
  cbn [fst snd oauth_nonce session_user_id].
  split; [reflexivity|]. split; [reflexivity|]. split; [reflexivity|].
  unfold google_callback. rewrite Hex. cbn [oauth_nonce session_user_id].
  split; [|split; [|split; [|split]]].
  - intros Hbad. now rewrite Hbad.
  - intros info Hok Hmiss. rewrite Hok.
    destruct Hmiss as [E|E]; rewrite E; [reflexivity|].
    now rewrite orb_true_r.
  - intros info Hok Hsub Hmail. rewrite Hok, Hsub, Hmail. reflexivity.
  - destruct (parse_id_token token (Some hex)) as [info|].
    + destruct (negb (truthy (ui_sub info))
                || negb (nonempty (data_str (ui_email info)))).
      * cbn. split; [reflexivity|eauto].
      * cbn. split; [intros [to E]|]; discriminate.
    + cbn. split; [reflexivity|eauto].
  - intros c' Hfail. now rewrite Hfail.
Qed.

(* ================================================================== *)
(** * Worked examples *)
(* ================================================================== *)

(** Ann likes her post, bob likes it, ann takes her like back: the counter
    and the Like set agree. *)
Lemma like_count_equals_like_set_example :
  like_keys_unique sample_db
  /\ Post_get sample_db 1 = Some hello
  /\ Post.likes_count hello = 0
  /\ likes_of sample_db 1 = []
  /\ exists p',
       Post_get (run_toggles [(as_ann, 1); (as_bob, 1); (as_ann, 1)] sample_db) 1
       = Some p'
       /\ Post.likes_count p'
          = Z.of_nat (length (likes_of
               (run_toggles [(as_ann, 1); (as_bob, 1); (as_ann, 1)] sample_db) 1))
       /\ NoDup (map Like.user_id (likes_of
               (run_toggles [(as_ann, 1); (as_bob, 1); (as_ann, 1)] sample_db) 1)).
Proof.
  assert (Hk : like_keys_unique sample_db) by constructor.
  split; [exact Hk|]. split; [reflexivity|]. split; [reflexivity|].
  split; [reflexivity|].
  exact (like_count_equals_like_set sample_db 1 hello
           [(as_ann, 1); (as_bob, 1); (as_ann, 1)]
           Hk eq_refl eq_refl eq_refl).
Defined.

(** C2 as stated fails: when ann already likes the post, the
    second of two like requests likes it again, so it reports
    [liked = true]. *)
Lemma second_toggle_likes_again :
  current_user liked_db as_ann = Some ann
  /\ Post_get liked_db 1 = Some (Post.set_likes_count hello 1)
  /\ post_detail_liked liked_db as_ann 1 = Some true
  /\ flashed (fst (toggle_like (snd (toggle_like liked_db as_ann 1)) as_ann 1))
     = [(py "Post liked!", success)]
  /\ post_detail_liked (snd (toggle_like (snd (toggle_like liked_db as_ann 1))
                                         as_ann 1)) as_ann 1
     = Some true.
Proof. repeat split; vm_compute; reflexivity. Qed.

(** Two requests do not bring back a counter that was out of step: a
    counter of 0 beside ann's like ends at 1, a counter of -3 ends at 0. *)
Lemma toggle_twice_from_wrong_counter :
  Post_get (toggle_n 2 (mkDB [ann; bob] [hello] [nice] [Like.mk 1 1 1])
                     as_ann 1) 1
  = Some (Post.set_likes_count hello 1)
  /\ Post_get (toggle_n 2 (mkDB [ann; bob] [Post.set_likes_count hello (-3)]
                                [nice] [])
                        as_ann 1) 1
     = Some hello.
Proof. split; vm_compute; reflexivity. Qed.

Lemma post_keys_unique_sample : post_keys_unique sample_db.
Proof. repeat constructor. simpl. tauto. Defined.

(** Ann likes and unlikes her fresh post: the database is back, and three
    requests leave one like. *)
Lemma toggle_like_twice_example :
  post_keys_unique sample_db
  /\ current_user sample_db as_ann = Some ann
  /\ Post_get sample_db 1 = Some hello
  /\ Like_first sample_db (User.id ann) 1 = None
  /\ 0 <= Post.likes_count hello
  /\ toggle_like (snd (toggle_like sample_db as_ann 1)) as_ann 1
     = (mkOutcome (Redirect (url_post_detail 1)) [(py "Like removed.", info)],
        sample_db).
Proof.
  split; [exact post_keys_unique_sample|].
  split; [reflexivity|]. split; [reflexivity|]. split; [reflexivity|].
  split; [discriminate|].
  exact (proj1 (proj1 (toggle_like_twice sample_db as_ann 1 ann hello
                         post_keys_unique_sample eq_refl eq_refl)
                  eq_refl (Z.le_refl 0))).
Defined.

(** A counter that starts at 0 stays at 0 or above under any requests. *)
Lemma like_count_never_negative_example :
  Post_get sample_db 1 = Some hello
  /\ exists p',
       Post_get (run_toggles [(as_bob, 1); (as_bob, 1); (as_ann, 1)] sample_db) 1
       = Some p'
       /\ Z.min 0 (Post.likes_count hello) <= Post.likes_count p'
       /\ (0 <= Post.likes_count hello -> 0 <= Post.likes_count p').
Proof.
  split; [reflexivity|].
  exact (proj1 (like_count_never_negative sample_db 1 hello eq_refl)
           [(as_bob, 1); (as_bob, 1); (as_ann, 1)]).
Defined.

(** A counter left at 0 beside two likes stays at 0 when a like is taken
    back, and a negative counter is only ever raised. *)
Lemma like_count_clamped_at_zero :
  Post_get (run_toggles [(as_ann, 1); (as_bob, 1)]
              (mkDB [ann; bob] [hello] [] [Like.mk 1 1 1; Like.mk 2 2 1])) 1
  = Some hello
  /\ Post_get (run_toggles [(as_ann, 1); (as_ann, 1)]
                 (mkDB [ann; bob] [Post.set_likes_count hello (-5)] [] [])) 1
     = Some hello.
Proof. split; vm_compute; reflexivity. Qed.

(** Content of 100 characters and of 50 characters, no title. *)
Lemma new_post_title_100_and_50 :
  new_post_title None (Some (repeat 97%N 100))
  = repeat 97%N 80 ++ ellipsis
  /\ new_post_title (Some []) (Some (repeat 97%N 50)) = repeat 97%N 50
  /\ new_post_title None (Some (repeat 97%N 79 ++ [32%N] ++ repeat 98%N 20))
     = repeat 97%N 79 ++ ellipsis.
Proof. repeat split; vm_compute; reflexivity. Qed.

(** Ann publishes a text of 100 characters and one of 50, without a title:
    the first gets its first 80 characters and the ellipsis, the second is
    its own title. *)
Lemma new_post_title_from_content_example :
  let long := mkSubmission POST
                (mkPostForm None (Some (repeat 97%N 100)) None None) true in
  let short := mkSubmission POST
                 (mkPostForm (Some (py "  ")) (Some (repeat 98%N 50)) None None)
                 true in
  current_user sample_db as_ann = Some ann
  /\ validate_on_submit PostForm_validate long = true
  /\ validate_on_submit PostForm_validate short = true
  /\ snd (@new_post plain_werkzeug sample_db as_ann long)
     = mkDB [ann; bob]
            [hello;
             Post.mk 2 (repeat 97%N 80 ++ ellipsis) (Some (repeat 97%N 100))
                     None None 1 0]
            [nice] []
  /\ snd (@new_post plain_werkzeug sample_db as_ann short)
     = mkDB [ann; bob]
            [hello;
             Post.mk 2 (repeat 98%N 50) (Some (repeat 98%N 50)) None None 1 0]
            [nice] [].
Proof.
  intros long short.
  split; [reflexivity|]. split; [reflexivity|]. split; [reflexivity|].
  pose proof (@new_post_title_from_content plain_werkzeug sample_db as_ann
                long ann eq_refl eq_refl eq_refl) as Hlong.
  pose proof (@new_post_title_from_content plain_werkzeug sample_db as_ann
                short ann eq_refl eq_refl eq_refl) as Hshort.
  cbv zeta in Hlong, Hshort.
  destruct Hlong as (Hlong & _). destruct Hshort as (Hshort & _).
  split.
  - exact (f_equal snd Hlong).
  - exact (f_equal snd Hshort).
Defined.

(** A first sign-in with Google for an address no member has. *)
Lemma google_callback_lookup_raises_example :
  let info := mkUserInfo (Some (py "g-1")) (Some (py "new@example.org"))
                         (Some (py "New User")) None None in
  let c := @mkCallback trusting_oidc (Some info) false [] (py "abc123") in
  @exchanged trusting_oidc c = Some info
  /\ @parse_id_token trusting_oidc info (oauth_nonce anonymous) = Some info
  /\ truthy (ui_sub info) = true
  /\ nonempty (data_str (ui_email info)) = true
  /\ @google_callback trusting_oidc ascii_runtime sample_db anonymous c
     = (mkOutcome (Unhandled InvalidRequestError) [], sample_db, anonymous).
Proof.
  intros info c. repeat (split; [reflexivity|]).
  exact (@google_callback_lookup_raises trusting_oidc ascii_runtime
           sample_db anonymous c info info eq_refl eq_refl eq_refl eq_refl).
Defined.

(** A sign-in with Google for ann's address, and a repeated one for a known
    subject id, end the same way: no member is linked or found. *)
Lemma google_callback_cannot_link :
  let info := mkUserInfo (Some (py "g-ann")) (Some (py "ann@example.org"))
                         (Some (py "Ann")) None (Some (py "Ann")) in
  let c := @mkCallback trusting_oidc (Some info) false [] (py "abc123") in
  User_by_email sample_db (py "ann@example.org") = Some ann
  /\ @google_callback trusting_oidc ascii_runtime sample_db anonymous c
     = (mkOutcome (Unhandled InvalidRequestError) [], sample_db, anonymous)
  /\ User_accepts ["username"; "email"; "google_id"; "profile_image";
                   "available_for_project"]%string = false.
Proof. repeat split; vm_compute; reflexivity. Qed.


(** C7 as stated fails: "ann" is taken and so is the one suffixed
    name tried; [_unique_username] returns it all the same. *)
Lemma unique_username_returns_taken_name :
  @base_username ascii_runtime (py "Ann") = py "ann"
  /\ User_by_username crowded_db (py "ann") = Some ann
  /\ _unique_username crowded_db (@base_username ascii_runtime (py "Ann"))
                      (py "abc123def4567890abc123def4567890")
     = py "ann_abc123"
  /\ User_by_username crowded_db (py "ann_abc123")
     = Some (member 2 "ann_abc123" "ann2@example.org" "pw").
Proof. repeat split; vm_compute; reflexivity. Qed.

(** The username handed to the [User] constructor is the asserted given
    name when there is one, not the name [_unique_username] returned. *)
Lemma new_user_username_prefers_given_name :
  new_user_username
    (mkUserInfo (Some (py "g-1")) (Some (py "ann.lee@example.org"))
                (Some (py "Ann Lee")) None (Some (py "Ann")))
    (py "ann_lee")
  = py "Ann"
  /\ new_user_username
       (mkUserInfo (Some (py "g-1")) (Some (py "ann.lee@example.org"))
                   (Some (py "Ann Lee")) None None)
       (py "ann_lee")
     = py "ann_lee".
Proof. split; reflexivity. Qed.

(** "Ann Lee" on the sample members: the candidate is free and used as is;
    on the crowded table "Ann" gets one suffix. *)
Lemma unique_username_one_suffix_example :
  User_by_username sample_db (py "ann_lee") = None
  /\ _unique_username sample_db (@base_username ascii_runtime (py "Ann Lee"))
                      (py "abc123def4567890abc123def4567890")
     = py "ann_lee"
  /\ (length (_unique_username crowded_db
                (@base_username ascii_runtime (py "Ann"))
                (py "abc123def4567890abc123def4567890")) <= 47)%nat.
Proof.
  split; [reflexivity|]. split.
  - exact (proj1 (proj1 (proj2 (@unique_username_one_suffix ascii_runtime
                                  sample_db (py "Ann Lee")
                                  (py "abc123def4567890abc123def4567890")))
                    eq_refl)).
  - exact (proj2 (proj2 (proj2 (@unique_username_one_suffix ascii_runtime
                                  crowded_db (py "Ann")
                                  (py "abc123def4567890abc123def4567890"))))).
Defined.

(** Registering "ann" again under another address. *)
Lemma register_duplicate_identity_example :
  let f := mkRegistrationForm
             (Some (py "ann")) (Some (py "other@example.org"))
             (Some (py "Other")) (Some (py "Rocq")) true
             (Some (py "secret")) (Some (py "secret")) None None in
  let r := mkSubmission POST f true in
  let rnd := mkRegisterDraws (py "salt") (py "c0ffee") (py "f00d") in
  session_user_id anonymous = None
  /\ validate_on_submit RegistrationForm_validate r = true
  /\ In ann (users sample_db)
  /\ User.username ann = data_str (strip_filter (reg_username (form r)))
  /\ @register plain_werkzeug ascii_runtime sample_db anonymous r rnd
     = (mkOutcome (Render (register_html f))
          [(py "Username or email already registered.", warning)],
        sample_db).
Proof.
  intros f r rnd. split; [reflexivity|]. split; [reflexivity|].
  split; [now left|]. split; [reflexivity|].
  exact (proj1 (@register_duplicate_identity plain_werkzeug ascii_runtime
                  sample_db anonymous r rnd eq_refl eq_refl)
           ann (or_introl eq_refl) (or_introl eq_refl)).
Defined.

(** Two registrations in a row with one address and two usernames. *)
Lemma register_twice_same_email :
  let f1 := mkRegistrationForm
              (Some (py "carol")) (Some (py "carol@example.org"))
              (Some (py "Other")) (Some (py "Rocq")) true
              (Some (py "secret")) (Some (py "secret")) None None in
  let f2 := mkRegistrationForm
              (Some (py "carla")) (Some (py "carol@example.org"))
              (Some (py "Other")) (Some (py "Rocq")) true
              (Some (py "secret")) (Some (py "secret")) None None in
  let rnd := mkRegisterDraws (py "salt") (py "c0ffee") (py "f00d") in
  let first := @register plain_werkzeug ascii_runtime sample_db anonymous
                 (mkSubmission POST f1 true) rnd in
  response (fst first) = Redirect url_login
  /\ length (users (snd first)) = 3%nat
  /\ @register plain_werkzeug ascii_runtime (snd first) anonymous
       (mkSubmission POST f2 true) rnd
     = (mkOutcome (Render (register_html f2))
          [(py "Username or email already registered.", warning)],
        snd first).
Proof. repeat split; vm_compute; reflexivity. Qed.

(** Bob asks to edit and to delete ann's post. *)
Lemma only_author_edits_or_deletes_example :
  let r := mkSubmission POST
             (mkPostForm (Some (py "Mine now")) (Some (py "Hello")) None None)
             true in
  current_user sample_db as_bob = Some bob
  /\ Post_get sample_db 1 = Some hello
  /\ Post.user_id hello <> User.id bob
  /\ @edit_post plain_werkzeug sample_db as_bob 1 r
     = (mkOutcome (Abort 403) [], sample_db)
  /\ delete_post sample_db as_bob 1 = (mkOutcome (Abort 403) [], sample_db).
Proof.
  intros r.
  assert (Hne : Post.user_id hello <> User.id bob) by discriminate.
  split; [reflexivity|]. split; [reflexivity|]. split; [exact Hne|].
  exact (proj1 (@only_author_edits_or_deletes plain_werkzeug sample_db as_bob)
           bob 1 hello r eq_refl eq_refl Hne).
Defined.

(** Ann, the author, does edit and delete; the post is changed, then gone
    with its comment. *)
Lemma author_edits_and_deletes :
  let r := mkSubmission POST
             (mkPostForm (Some (py "Hi")) (Some (py "Hello")) None None)
             true in
  snd (@edit_post plain_werkzeug sample_db as_ann 1 r)
  = mkDB [ann; bob]
         [Post.mk 1 (py "Hi") (Some (py "Hello")) None None 1 0] [nice] []
  /\ snd (delete_post sample_db as_ann 1) = mkDB [ann; bob] [] [] [].
Proof. split; vm_compute; reflexivity. Qed.

(** A request to [edit_post] without a title field keeps the stored title,
    and a request to [edit_comment] without the text keeps the text. *)
Lemma edits_keep_omitted_fields :
  snd (@edit_post plain_werkzeug sample_db as_ann 1
         (mkSubmission POST (mkPostForm None (Some (py "Changed")) None None)
                       true))
  = mkDB [ann; bob]
         [Post.mk 1 (py "Hello") (Some (py "Changed")) None None 1 0] [nice] []
  /\ edit_comment sample_db as_bob 1
       (mkSubmission POST (mkCommentForm None) true)
     = (mkOutcome (Redirect (url_post_detail 1))
                  [(py "Comment updated.", success)], sample_db)
  /\ edit_comment sample_db as_bob 1
       (mkSubmission POST (mkCommentForm (Some (py " Fine "))) true)
     = (mkOutcome (Redirect (url_post_detail 1))
                  [(py "Comment updated.", success)],
        mkDB [ann; bob] [hello] [Comment.mk 1 (py "Fine") 2 1] []).
Proof. repeat split; vm_compute; reflexivity. Qed.

(** One login form, ann's address with a wrong password, against a table
    without ann and a table with her. *)
Lemma login_failures_indistinguishable_example :
  let r := mkSubmission POST
             (mkLoginForm (Some (py "ann@example.org")) (Some (py "wrong")))
             true in
  let without_ann := mkDB [bob] [] [] [] in
  current_user without_ann anonymous = None
  /\ current_user sample_db anonymous = None
  /\ validate_on_submit LoginForm_validate r = true
  /\ User_by_email without_ann (data_str (LoginForm_email_data (form r))) = None
  /\ User_by_email sample_db (data_str (LoginForm_email_data (form r)))
     = Some ann
  /\ @check_password plain_werkzeug ann (data_str (login_password (form r)))
     = false
  /\ fst (fst (@login plain_werkzeug without_ann anonymous r None))
     = fst (fst (@login plain_werkzeug sample_db anonymous r None)).
Proof.
  intros r without_ann. repeat (split; [reflexivity|]).
  exact (proj2 (proj2 (@login_failures_indistinguishable plain_werkzeug
                         without_ann sample_db anonymous anonymous r r
                         None None ann
                         eq_refl eq_refl eq_refl eq_refl eq_refl eq_refl
                         eq_refl))
           eq_refl).
Defined.

(** The right password does log ann in. *)
Lemma login_succeeds :
  @login plain_werkzeug sample_db anonymous
    (mkSubmission POST
       (mkLoginForm (Some (py "ann@example.org")) (Some (py "pw-ann"))) true)
    None
  = (mkOutcome (Redirect url_home) [(py "Welcome back, ann!", success)],
     sample_db, as_ann).
Proof. vm_compute. reflexivity. Qed.

(** Ann deletes her post: bob's comment on it goes with it. *)
Lemma delete_post_cascades_example :
  current_user sample_db as_ann = Some ann
  /\ Post_get sample_db 1 = Some hello
  /\ Post.user_id hello = User.id ann
  /\ Post_get (snd (delete_post sample_db as_ann 1)) 1 = None
  /\ (In nice (comments (snd (delete_post sample_db as_ann 1)))
      <-> In nice (comments sample_db) /\ Comment.post_id nice <> 1).
Proof.
  split; [reflexivity|]. split; [reflexivity|]. split; [reflexivity|].
  pose proof (delete_post_cascades sample_db as_ann 1 ann hello
                eq_refl eq_refl eq_refl) as (_ & Hgone & Hcomments & _).
  split; [exact Hgone|exact (Hcomments nice)].
Defined.

(** Ann retitles her post and uploads nothing. *)
Lemma edit_post_keeps_media_example :
  let r := mkSubmission POST
             (mkPostForm (Some (py "Hi")) (Some (py "Hello")) None None)
             true in
  current_user sample_db as_ann = Some ann
  /\ Post_get sample_db 1 = Some hello
  /\ Post.user_id hello = User.id ann
  /\ validate_on_submit PostForm_validate r = true
  /\ PostForm_title_data (form r) = Some (py "Hi")
  /\ uploaded (post_image (form r)) = false
  /\ uploaded (post_video (form r)) = false
  /\ exists post',
       Post_get (snd (@edit_post plain_werkzeug sample_db as_ann 1 r)) 1
       = Some post'
       /\ Post.image_file post' = Post.image_file hello
       /\ Post.video_file post' = Post.video_file hello.
Proof.
  intros r. repeat (split; [reflexivity|]).
  destruct (@edit_post_keeps_media plain_werkzeug sample_db as_ann 1 r ann
              hello (py "Hi") eq_refl eq_refl eq_refl eq_refl eq_refl
              eq_refl eq_refl)
    as (post' & Hget & _ & _ & Himg & Hvid & _).
  exists post'. auto.
Defined.

(* ------------------------------------------------------------------ *)
(** ** The sample store and the sample tables *)
(* ------------------------------------------------------------------ *)

Lemma codepoint_le_total (a b : pystr) :
  codepoint_le a b = true \/ codepoint_le b a = true.
Proof.
  revert b. induction a as [|x a IH]; intros [|y b]; simpl; auto.
  destruct (N.ltb_spec x y); [now left|].
  destruct (N.ltb_spec y x); [now right|].
  assert (x = y) by lia. subst. rewrite N.eqb_refl. simpl. apply IH.
Qed.

Lemma codepoint_le_trans (a b c : pystr) :
  codepoint_le a b = true -> codepoint_le b c = true ->
  codepoint_le a c = true.
Proof.
  revert b c. induction a as [|x a IH]; intros [|y b] [|z c]; simpl;
    try congruence; auto.
  intros H1 H2. apply orb_true_iff in H1, H2. apply orb_true_iff.
  destruct H1 as [H1|H1], H2 as [H2|H2].
  - left. apply N.ltb_lt in H1, H2. apply N.ltb_lt. lia.
  - apply andb_true_iff in H2 as [H2 _]. apply N.eqb_eq in H2. subst.
    now left.
  - apply andb_true_iff in H1 as [H1 _]. apply N.eqb_eq in H1. subst.
    now left.
  - apply andb_true_iff in H1 as [E1 H1]. apply andb_true_iff in H2 as [E2 H2].
    apply N.eqb_eq in E1, E2. subst. right. rewrite N.eqb_refl. simpl.
    eapply IH; eauto.
Qed.

Lemma identities_unique_sample : identities_unique sample_db.
Proof.
  repeat split; repeat constructor; cbv; intuition discriminate.
Qed.

Lemma post_keys_unique_team : post_keys_unique team_db.
Proof. repeat constructor; cbv; intuition discriminate. Qed.

(* ------------------------------------------------------------------ *)
(** ** Registration, login, logout *)
(* ------------------------------------------------------------------ *)

(** Carol registers with a blank before her address and then logs in. *)
Lemma register_then_login_example :
  let f := mkRegistrationForm
             (Some (py "carol")) (Some (py " carol@example.org"))
             (Some (py "Other")) (Some (py "Rocq")) true
             (Some (py "secret")) (Some (py "secret")) None None in
  let r := mkSubmission POST f true in
  let rnd := mkRegisterDraws (py "salt") (py "c0ffee") (py "f00d") in
  let lr := mkSubmission POST
              (mkLoginForm (Some (py "carol@example.org"))
                           (Some (py "secret"))) true in
  let d1 := snd (@register plain_werkzeug ascii_runtime sample_db anonymous
                   r rnd) in
  response (fst (@register plain_werkzeug ascii_runtime sample_db anonymous
                   r rnd)) = Redirect url_login
  /\ validate_on_submit LoginForm_validate lr = true
  /\ exists u,
       In u (users d1) /\ User.username u = py "carol"
       /\ snd (@login plain_werkzeug d1 anonymous lr None)
          = mkSession (Some (User.id u)) None.
Proof.
  intros f r rnd lr d1. split; [reflexivity|]. split; [reflexivity|].
  destruct (@register_then_login plain_werkzeug ascii_runtime sample_db
              anonymous r rnd lr None
              eq_refl eq_refl eq_refl eq_refl eq_refl eq_refl)
    as (u & Hin & Hname & Hlogin).
  exists u. split; [exact Hin|]. split; [exact Hname|].
  unfold d1. now rewrite Hlogin.
Defined.

(** The sample members stay distinct when carol registers. *)
Lemma register_keeps_identities_unique_example :
  let f := mkRegistrationForm
             (Some (py "carol")) (Some (py "carol@example.org"))
             (Some (py "Other")) (Some (py "Rocq")) true
             (Some (py "secret")) (Some (py "secret")) None None in
  let r := mkSubmission POST f true in
  let rnd := mkRegisterDraws (py "salt") (py "c0ffee") (py "f00d") in
  identities_unique sample_db
  /\ length (users (snd (@register plain_werkzeug ascii_runtime sample_db
                           anonymous r rnd))) = 3%nat
  /\ identities_unique
       (snd (@register plain_werkzeug ascii_runtime sample_db anonymous r rnd)).
Proof.
  intros f r rnd. split; [exact identities_unique_sample|].
  split; [reflexivity|].
  exact (proj1 (@register_keeps_identities_unique plain_werkzeug ascii_runtime
                  sample_db anonymous r rnd identities_unique_sample)).
Defined.

(** Ann logs in and out again. *)
Lemma login_then_logout_example :
  let r := mkSubmission POST
             (mkLoginForm (Some (py "ann@example.org")) (Some (py "pw-ann")))
             true in
  let s1 := snd (@login plain_werkzeug sample_db anonymous r None) in
  current_user sample_db anonymous = None
  /\ validate_on_submit LoginForm_validate r = true
  /\ current_user sample_db s1 = Some ann
  /\ current_user sample_db (snd (logout sample_db s1)) = None
  /\ toggle_like sample_db (snd (logout sample_db s1)) 1
     = (unauthorized, sample_db).
Proof.
  intros r s1. split; [reflexivity|]. split; [reflexivity|].
  pose proof (@login_then_logout plain_werkzeug sample_db anonymous r None ann
                (proj1 identities_unique_sample)
                eq_refl eq_refl eq_refl eq_refl) as H.
  cbv zeta in H. destruct H as (_ & Hin & _ & Hout & _ & Hoff).
  split; [exact Hin|]. split; [exact Hout|].
  exact (proj1 (Hoff 1 (mkSubmission POST (mkCommentForm None) true))).
Defined.

(* ------------------------------------------------------------------ *)
(** ** Comments *)
(* ------------------------------------------------------------------ *)

(** Bob comments on ann's post with blanks around the text. *)
Lemma add_comment_stores_stripped_text_example :
  let r := mkSubmission POST (mkCommentForm (Some (py "  Thanks  "))) true in
  current_user sample_db as_bob = Some bob
  /\ Post_get sample_db 1 = Some hello
  /\ validate_on_submit CommentForm_validate r = true
  /\ exists c,
       snd (add_comment sample_db as_bob 1 r)
       = mkDB (users sample_db) (posts sample_db) (comments sample_db ++ [c])
              (likes sample_db)
       /\ Comment.content c = py "Thanks"
       /\ Comment.user_id c = 2.
Proof.
  intros r. repeat (split; [reflexivity|]).
  destruct (proj1 (add_comment_stores_stripped_text sample_db as_bob 1 r
                     bob hello eq_refl eq_refl) eq_refl)
    as (c & Hrun & Hcontent & _ & _ & Hauthor & _).
  exists c. rewrite Hrun. split; [reflexivity|].
  split; [exact Hcontent|exact Hauthor].
Defined.

(** Bob comments and takes the comment back. *)
Lemma add_then_delete_comment_example :
  let r := mkSubmission POST (mkCommentForm (Some (py "Thanks"))) true in
  current_user sample_db as_bob = Some bob
  /\ Post_get sample_db 1 = Some hello
  /\ validate_on_submit CommentForm_validate r = true
  /\ exists c,
       delete_comment (snd (add_comment sample_db as_bob 1 r)) as_bob
                      (Comment.id c)
       = (mkOutcome (Redirect (url_post_detail 1))
                    [(py "Comment deleted.", info)], sample_db).
Proof.
  intros r. repeat (split; [reflexivity|]).
  destruct (add_then_delete_comment sample_db as_bob 1 r bob hello
              eq_refl eq_refl eq_refl) as (c & _ & _ & Hback).
  exists c. exact Hback.
Defined.

(* ------------------------------------------------------------------ *)
(** ** Likes *)
(* ------------------------------------------------------------------ *)

(** Ann has liked her post; the post page says so. *)
Lemma has_liked_agrees_with_post_page_example :
  current_user liked_db as_ann = Some ann
  /\ Post_get liked_db 1 = Some (Post.set_likes_count hello 1)
  /\ has_liked liked_db ann (Post.set_likes_count hello 1) = true
  /\ post_detail_liked liked_db as_ann 1
     = Some (has_liked liked_db ann (Post.set_likes_count hello 1)).
Proof.
  repeat (split; [reflexivity|]).
  exact (proj1 (has_liked_agrees_with_post_page liked_db as_ann 1 ann
                  (Post.set_likes_count hello 1) eq_refl eq_refl)).
Defined.

(** Bob likes ann's post: members and comments stay, ann's like stays. *)
Lemma toggle_like_frame_example :
  like_keys_unique liked_db
  /\ users (snd (toggle_like liked_db as_bob 1)) = users liked_db
  /\ comments (snd (toggle_like liked_db as_bob 1)) = comments liked_db
  /\ In (Like.mk 1 1 1) (likes (snd (toggle_like liked_db as_bob 1))).
Proof.
  assert (Hk : like_keys_unique liked_db)
    by (repeat constructor; cbv; intuition discriminate).
  split; [exact Hk|].
  pose proof (toggle_like_frame liked_db as_bob 1 Hk) as H.
  cbv zeta in H. destruct H as (Hu & Hc & _ & _ & Hkept & _).
  split; [exact Hu|]. split; [exact Hc|].
  apply Hkept; [now left|].
  intros cu [= <-]. left. discriminate.
Defined.

(* ------------------------------------------------------------------ *)
(** ** Posts *)
(* ------------------------------------------------------------------ *)

(** Ann publishes with a title in blanks. *)
Lemma new_post_title_fits_column_example :
  let r := mkSubmission POST
             (mkPostForm (Some (py " News ")) (Some (py "Hello world"))
                         None None) true in
  current_user sample_db as_ann = Some ann
  /\ validate_on_submit PostForm_validate r = true
  /\ exists post,
       snd (@new_post plain_werkzeug sample_db as_ann r)
       = mkDB (users sample_db) (posts sample_db ++ [post])
              (comments sample_db) (likes sample_db)
       /\ Post.title post = py "News"
       /\ (length (Post.title post) <= 200)%nat.
Proof.
  intros r. repeat (split; [reflexivity|]).
  destruct (@new_post_title_fits_column plain_werkzeug sample_db as_ann r ann
              eq_refl eq_refl)
    as (post & Hrun & _ & Hlen & Htitle & _).
  exists post. rewrite Hrun. split; [reflexivity|].
  split; [exact (Htitle eq_refl)|exact Hlen].
Defined.

(** Ann saves her post with the title field emptied. *)
Lemma edit_post_blank_title_example :
  let r := mkSubmission POST
             (mkPostForm (Some []) (Some (py "Hello world")) None None)
             true in
  current_user sample_db as_ann = Some ann
  /\ Post_get sample_db 1 = Some hello
  /\ Post.user_id hello = User.id ann
  /\ validate_on_submit PostForm_validate r = true
  /\ @edit_post plain_werkzeug sample_db as_ann 1 r
     = (mkOutcome (Unhandled IntegrityError) [], sample_db).
Proof.
  intros r. repeat (split; [reflexivity|]).
  exact (proj1 (@edit_post_blank_title plain_werkzeug sample_db as_ann 1 r
                  ann hello eq_refl eq_refl eq_refl eq_refl)
           eq_refl).
Defined.

(* ------------------------------------------------------------------ *)
(** ** Uploads *)
(* ------------------------------------------------------------------ *)

(** "cv.final.PDF" is a PDF; "PDF" is not. *)
Lemma allowed_file_by_last_extension_example :
  has_dot (py "PDF") = false
  /\ @_allowed_file ascii_runtime (py "cv.final" ++ py "." ++ py "PDF")
                    [py "pdf"] = true
  /\ @_allowed_file ascii_runtime (py "PDF") [py "pdf"] = false.
Proof.
  split; [reflexivity|].
  pose proof (@allowed_file_by_last_extension ascii_runtime
                (py "cv.final") (py "PDF") [py "pdf"] eq_refl)
    as (Hext & _ & Hplain).
  split; [exact Hext|exact Hplain].
Defined.

(* ------------------------------------------------------------------ *)
(** ** Pages *)
(* ------------------------------------------------------------------ *)

(** Dana's feed of the available web developers: her two posts, the newer
    first. *)
Lemma home_feed_example :
  current_user team_db as_dana = Some dana
  /\ @home simple_store team_db as_dana
       (Some (py " Web Development ")) (Some (py "yes"))
     = page [Post.mk 4 (py "Four") (Some (py "Four")) None None 1 1;
             Post.mk 1 (py "One") (Some (py "One")) None None 1 2]
  /\ exists feed,
       @home simple_store team_db as_dana
         (Some (py " Web Development ")) (Some (py "yes")) = page feed
       /\ StronglySorted
            (fun a b => @post_date simple_store b <= @post_date simple_store a)
            feed.
Proof.
  split; [reflexivity|]. split; [reflexivity|].
  destruct (@home_feed simple_store team_db as_dana
              (Some (py " Web Development ")) (Some (py "yes")) dana eq_refl)
    as (feed & Hpage & _ & Hsorted).
  exists feed. split; [exact Hpage|exact Hsorted].
Defined.

(** Dana's profile: two posts with three likes together. *)
Lemma profile_total_likes_example :
  current_user team_db as_dana = Some dana
  /\ User_get team_db 1 = Some dana
  /\ post_keys_unique team_db
  /\ exists shown total,
       @profile simple_store team_db as_dana 1 = page (dana, shown, total)
       /\ total = 3
       /\ total
          = Z.of_nat (length (filter
              (fun l => existsb (fun p => (Post.id p =? Like.post_id l)
                                          && (Post.user_id p =? 1))
                                (posts team_db))
              (likes team_db))).
Proof.
  split; [reflexivity|]. split; [reflexivity|].
  split; [exact post_keys_unique_team|].
  destruct (@profile_total_likes simple_store team_db as_dana 1 dana dana
              eq_refl eq_refl post_keys_unique_team)
    as (shown & total & Hpage & _ & _ & Hsum & Hlikes).
  exists shown, total. split; [exact Hpage|]. split; [exact Hsum|].
  apply Hlikes. intros p [<-|[<-|[<-|[<-|[]]]]]; intros E;
    solve [reflexivity | discriminate E].
Defined.

(** Dana looks for "python": eli is listed, dana herself is not. *)
Lemma network_lists_matching_others_example :
  current_user team_db as_dana = Some dana
  /\ @network simple_store team_db as_dana (Some (py " python ")) None None
     = page [eli]
  /\ exists listed,
       @network simple_store team_db as_dana (Some (py " python ")) None None
       = page listed
       /\ ~ In dana listed
       /\ NoDup (map User.id listed).
Proof.
  split; [reflexivity|]. split; [reflexivity|].
  destruct (@network_lists_matching_others simple_store team_db as_dana
              (Some (py " python ")) None None dana
              codepoint_le_total codepoint_le_trans eq_refl)
    as (listed & Hpage & Hin & _ & Hnodup & _).
  exists listed. split; [exact Hpage|]. split.
  - intros Hd. apply Hin in Hd as (_ & Hne & _). now apply Hne.
  - apply Hnodup. repeat constructor; cbv; intuition discriminate.
Defined.

(* ------------------------------------------------------------------ *)
(** ** Profile edits *)
(* ------------------------------------------------------------------ *)

(** Ann asks for bob's username. *)
Lemma edit_profile_taken_identity_example :
  let f := mkEditProfileForm
             (Some (py "bob")) (Some (py "ann@example.org"))
             (Some (py "Other")) (Some (py "Rocq")) true
             None None None None None None in
  let r := mkSubmission POST f true in
  current_user sample_db as_ann = Some ann
  /\ validate_on_submit EditProfileForm_validate r = true
  /\ In bob (users sample_db)
  /\ User.id bob <> User.id ann
  /\ @edit_profile plain_werkzeug ascii_runtime sample_db as_ann r [] []
     = (profile_unhandled IntegrityError, sample_db).
Proof.
  intros f r. split; [reflexivity|]. split; [reflexivity|].
  split; [right; now left|]. split; [discriminate|].
  apply (@edit_profile_taken_identity plain_werkzeug ascii_runtime sample_db
           as_ann r [] [] ann bob);
    [reflexivity|reflexivity|right; now left|discriminate|now left].
Defined.

(** Ann renames herself and leaves her links blank. *)
Lemma edit_profile_saves_example :
  let f := mkEditProfileForm
             (Some (py " annie ")) (Some (py "ann@example.org"))
             (Some (py "Other")) (Some (py "Rocq")) true
             (Some (py "  ")) None None None None None in
  let r := mkSubmission POST f true in
  identities_unique sample_db
  /\ current_user sample_db as_ann = Some ann
  /\ validate_on_submit EditProfileForm_validate r = true
  /\ exists u,
       current_user
         (snd (@edit_profile plain_werkzeug ascii_runtime sample_db as_ann r
                 [] [])) as_ann = Some u
       /\ User.username u = py "annie"
       /\ User.password_hash u = User.password_hash ann
       /\ identities_unique
            (snd (@edit_profile plain_werkzeug ascii_runtime sample_db as_ann r
                    [] [])).
Proof.
  intros f r. split; [exact identities_unique_sample|].
  split; [reflexivity|]. split; [reflexivity|].
  assert (Hfree : forall other, In other (users sample_db) ->
            User.id other <> User.id ann ->
            User.username other
            <> data_str (strip_filter (ep_username (form r)))
            /\ User.email other
               <> data_str (strip_filter (ep_email (form r)))).
  { intros other [<-|[<-|[]]] Hne; [now elim Hne|].
    split; intros E; vm_compute in E; discriminate E. }
  destruct (@edit_profile_saves plain_werkzeug ascii_runtime sample_db as_ann
              r [] [] ann identities_unique_sample eq_refl eq_refl Hfree)
    as (u & _ & Hcu & _ & Hpw & Hname & _ & _ & _ & _ & Huniq & _).
  exists u. split; [exact Hcu|]. split; [exact Hname|].
  split; [exact Hpw|exact Huniq].
Defined.

(* ------------------------------------------------------------------ *)
(** ** The nonce *)
(* ------------------------------------------------------------------ *)

(** A callback with a token made for another nonce, and one with the right
    token and a complete assertion. *)
Lemma google_nonce_lifecycle_example :
  let info := mkUserInfo (Some (py "g-1")) (Some (py "new@example.org"))
                         (Some (py "New User")) None None in
  let stale : @Token nonce_oidc := (Some (py "stale"), info) in
  let right : @Token nonce_oidc := (Some (py "fresh"), info) in
  let s1 := snd (google_login sample_db anonymous (py "fresh")) in
  current_user sample_db anonymous = None
  /\ oauth_nonce s1 = Some (py "fresh")
  /\ @google_callback nonce_oidc ascii_runtime sample_db s1
       (@mkCallback nonce_oidc (Some stale) false [] (py "abc123"))
     = (mkOutcome (Redirect url_login)
                  [(py "Authentication error. Please try again.", danger)],
        sample_db, anonymous)
  /\ @google_callback nonce_oidc ascii_runtime sample_db s1
       (@mkCallback nonce_oidc (Some right) false [] (py "abc123"))
     = (mkOutcome (Unhandled InvalidRequestError) [], sample_db, s1).
Proof.
  intros info stale right s1. split; [reflexivity|]. split; [reflexivity|].
  split.
  - pose proof (@google_nonce_lifecycle nonce_oidc ascii_runtime sample_db
                  anonymous (py "fresh")
                  (@mkCallback nonce_oidc (Some stale) false [] (py "abc123"))
                  stale eq_refl eq_refl) as H.
    cbv zeta in H. destruct H as (_ & _ & _ & Hbad & _).
    exact (Hbad eq_refl).
  - pose proof (@google_nonce_lifecycle nonce_oidc ascii_runtime sample_db
                  anonymous (py "fresh")
                  (@mkCallback nonce_oidc (Some right) false [] (py "abc123"))
                  right eq_refl eq_refl) as H.
    cbv zeta in H. destruct H as (_ & _ & _ & _ & _ & Hraise & _).
    exact (Hraise info eq_refl eq_refl eq_refl).
Defined.
